(** * Groww_Play: credential resolution, trading gates and data reshaping

    A shallow embedding of the four entry points of the repository
    ([groww_auth.py], [groww_cli.py], [groww_smoketest.py],
    [groww_gradio.py]) and the properties their specification states.

    Python values are an inductive type, Python floats are IEEE binary64
    primitive floats, the secrets file and the process environment are
    finite maps, and the effects of the programs (printing, prompting,
    SDK calls, file writes, [SystemExit], exceptions) are an explicit
    state-and-trace monad. *)

From Stdlib Require Import ZArith List String Ascii Bool Lia Floats.
From Stdlib Require Import Numbers.DecimalString Sorting.Sorted.
From stdpp Require Import base option gmap strings.

Import ListNotations.
#[local] Set Warnings "-register-all".
Local Open Scope list_scope.
Local Open Scope string_scope.

(** ** Python strings and values *)

Module Py.

(** *** Strings

    Strings are sequences of ASCII code points.  [is_space] is
    [str.isspace] on that range: the characters [str.strip()] removes. *)

Definition is_space (c : ascii) : bool :=
  let n := nat_of_ascii c in
  ((9 <=? n)%nat && (n <=? 13)%nat) || ((28 <=? n)%nat && (n <=? 32)%nat).

Fixpoint lstrip (s : string) : string :=
  match s with
  | EmptyString => EmptyString
  | String c r => if is_space c then lstrip r else s
  end.

Fixpoint rstrip (s : string) : string :=
  match s with
  | EmptyString => EmptyString
  | String c r =>
      match rstrip r with
      | EmptyString => if is_space c then EmptyString else String c EmptyString
      | r' => String c r'
      end
  end.

(** [s.strip()] *)
Definition strip (s : string) : string := rstrip (lstrip s).

Definition lower_char (c : ascii) : ascii :=
  let n := nat_of_ascii c in
  if ((65 <=? n)%nat && (n <=? 90)%nat) then ascii_of_nat (n + 32) else c.

Definition upper_char (c : ascii) : ascii :=
  let n := nat_of_ascii c in
  if ((97 <=? n)%nat && (n <=? 122)%nat) then ascii_of_nat (n - 32) else c.

Fixpoint map_string (f : ascii -> ascii) (s : string) : string :=
  match s with
  | EmptyString => EmptyString
  | String c r => String (f c) (map_string f r)
  end.

(** [s.lower()] and [s.upper()] *)
Definition lower : string -> string := map_string lower_char.
Definition upper : string -> string := map_string upper_char.

(** [q in s] for strings: [q] occurs as a contiguous substring of [s]. *)
Fixpoint contains (q s : string) : bool :=
  String.prefix q s ||
  match s with
  | EmptyString => false
  | String _ r => contains q r
  end.

(** [s.startswith(p)] *)
Definition startswith (p s : string) : bool := String.prefix p s.

(** Truthiness of a string: [bool(s)]. *)
Definition nonempty (s : string) : bool :=
  match s with EmptyString => false | _ => true end.

(** [str(z)] for an integer. *)
Definition str_of_Z (z : Z) : string := NilZero.string_of_int (Z.to_int z).

(** *** Values

    The values that flow through the programs: JSON-like data returned by
    the SDK, plus tuples (the candle code accepts them).  Dicts keep their
    insertion order and are keyed by strings, as JSON objects are. *)
Inductive value : Type :=
| PNone
| PBool (b : bool)
| PInt (z : Z)
| PFloat (f : float)
| PStr (s : string)
| PList (l : list value)
| PTuple (l : list value)
| PDict (d : list (string * value)).

Definition is_none (v : value) : bool :=
  match v with PNone => true | _ => false end.

Definition is_dict (v : value) : bool :=
  match v with PDict _ => true | _ => false end.

Definition is_list (v : value) : bool :=
  match v with PList _ => true | _ => false end.

Definition is_str (v : value) : bool :=
  match v with PStr _ => true | _ => false end.

(** [bool(v)]: the test behind [if v], [not v] and [a or b]. *)
Definition truthy (v : value) : bool :=
  match v with
  | PNone => false
  | PBool b => b
  | PInt z => negb (z =? 0)%Z
  | PFloat f => negb (PrimFloat.eqb f 0%float)
  | PStr s => nonempty s
  | PList l | PTuple l => match l with [] => false | _ => true end
  | PDict d => match d with [] => false | _ => true end
  end.

(** [a or b] *)
Definition py_or (a b : value) : value := if truthy a then a else b.

(** *** Dicts as insertion-ordered association lists *)

Definition dict := list (string * value).

(** [d[k]] when present: the entry of the first pair keyed [k]. *)
Fixpoint lookup (d : dict) (k : string) : option value :=
  match d with
  | [] => None
  | (k', v) :: r => if String.eqb k' k then Some v else lookup r k
  end.

(** [k in d] *)
Definition has_key (d : dict) (k : string) : bool :=
  match lookup d k with Some _ => true | None => false end.

(** [d.get(k)], with Python's default [None]. *)
Definition get (d : dict) (k : string) : value :=
  match lookup d k with Some v => v | None => PNone end.

(** [d[k] = v]: overwrite in place when [k] is present, append otherwise. *)
Fixpoint set (d : dict) (k : string) (v : value) : dict :=
  match d with
  | [] => [(k, v)]
  | (k', v') :: r =>
      if String.eqb k' k then (k', v) :: r else (k', v') :: set r k v
  end.

Definition keys (d : dict) : list string := map fst d.

(** [seq[i]] guarded by [len(seq) > i], [None] otherwise. *)
Definition item_or_none (l : list value) (i : nat) : value :=
  nth i l PNone.

(** *** Conversion to float

    [float(v)] either yields a float or raises.  Integers convert by
    round-to-nearest-even and raise [OverflowError] beyond the binary64
    range; booleans are integers; parsing a string is Python's own
    routine, taken as [float_of_string] ([None]: [ValueError]). *)
Inductive float_result : Type :=
| FloatOk (f : float)
| FloatTypeError
| FloatValueError
| FloatOverflowError.

Definition float_of_Z (z : Z) : float_result :=
  match SpecFloat.binary_normalize FloatOps.prec FloatOps.emax z 0 false with
  | SpecFloat.S754_infinity _ => FloatOverflowError
  | sf => FloatOk (FloatOps.SF2Prim sf)
  end.

Definition py_float (float_of_string : string -> option float) (v : value)
  : float_result :=
  match v with
  | PFloat f => FloatOk f
  | PInt z => float_of_Z z
  | PBool b => FloatOk (if b then 1%float else 0%float)
  | PStr s =>
      match float_of_string s with
      | Some f => FloatOk f
      | None => FloatValueError
      end
  | _ => FloatTypeError
  end.

(** *** Induction over nested values *)

Section value_induction.
Variable P : value -> Prop.
Hypothesis HNone : P PNone.
Hypothesis HBool : forall b, P (PBool b).
Hypothesis HInt : forall z, P (PInt z).
Hypothesis HFloat : forall f, P (PFloat f).
Hypothesis HStr : forall s, P (PStr s).
Hypothesis HList : forall l, Forall P l -> P (PList l).
Hypothesis HTuple : forall l, Forall P l -> P (PTuple l).
Hypothesis HDict : forall d, Forall (fun kv => P (snd kv)) d -> P (PDict d).

Fixpoint value_ind' (v : value) : P v :=
  match v with
  | PNone => HNone
  | PBool b => HBool b
  | PInt z => HInt z
  | PFloat f => HFloat f
  | PStr s => HStr s
  | PList l =>
      HList l ((fix go (l : list value) : Forall P l :=
                  match l with
                  | [] => @Stdlib.Lists.List.Forall_nil _ P
                  | x :: r => @Stdlib.Lists.List.Forall_cons _ _ x r (value_ind' x) (go r)
                  end) l)
  | PTuple l =>
      HTuple l ((fix go (l : list value) : Forall P l :=
                   match l with
                   | [] => @Stdlib.Lists.List.Forall_nil _ P
                   | x :: r => @Stdlib.Lists.List.Forall_cons _ _ x r (value_ind' x) (go r)
                   end) l)
  | PDict d =>
      HDict d ((fix go (d : list (string * value))
                  : Forall (fun kv => P (snd kv)) d :=
                  match d with
                  | [] => @Stdlib.Lists.List.Forall_nil _ _
                  | (k, x) :: r =>
                      @Stdlib.Lists.List.Forall_cons _ _ (k, x) r (value_ind' x) (go r)
                  end) d)
  end.
End value_induction.

(** *** More string methods *)

(** [s.isdigit()] on that range: at least one character, and every
    character a decimal digit. *)
Definition is_digit (c : ascii) : bool :=
  let n := nat_of_ascii c in (48 <=? n)%nat && (n <=? 57)%nat.

Fixpoint all_digits (s : string) : bool :=
  match s with
  | EmptyString => true
  | String c r => is_digit c && all_digits r
  end.

Definition isdigit (s : string) : bool := nonempty s && all_digits s.

(** [int(s)] on a string of decimal digits, most significant first. *)
Fixpoint digits_value (acc : Z) (s : string) : Z :=
  match s with
  | EmptyString => acc
  | String c r =>
      digits_value (10 * acc + Z.of_nat (nat_of_ascii c - 48)) r
  end.

Definition int_of_digits (s : string) : Z := digits_value 0 s.

(** The characters [str.splitlines] breaks a line at, on that range. *)
Definition is_linebreak (c : ascii) : bool :=
  let n := nat_of_ascii c in
  ((10 <=? n)%nat && (n <=? 13)%nat) || ((28 <=? n)%nat && (n <=? 30)%nat).

(** [s.splitlines()[0]] for a non-empty [s]. *)
Fixpoint first_line (s : string) : string :=
  match s with
  | EmptyString => EmptyString
  | String c r => if is_linebreak c then EmptyString
                  else String c (first_line r)
  end.

(** [a <= b] on strings: the order of the code points. *)
Definition str_leb (a b : string) : bool :=
  match String.compare a b with
  | Gt => false
  | _ => true
  end.

(** [sorted(l)] for a total order [leb]. *)
Fixpoint insert_sorted {A} (leb : A -> A -> bool) (x : A) (l : list A)
  : list A :=
  match l with
  | [] => [x]
  | y :: r => if leb x y then x :: l else y :: insert_sorted leb x r
  end.

Definition sorted {A} (leb : A -> A -> bool) (l : list A) : list A :=
  fold_right (insert_sorted leb) [] l.

(** [type(v).__name__] *)
Definition type_name (v : value) : string :=
  match v with
  | PNone => "NoneType"
  | PBool _ => "bool"
  | PInt _ => "int"
  | PFloat _ => "float"
  | PStr _ => "str"
  | PList _ => "list"
  | PTuple _ => "tuple"
  | PDict _ => "dict"
  end.

End Py.

(** ** Tables (pandas data frames)

    The instrument table is a data frame: named columns and rows of cells
    aligned with them.  A cell holds a string, an integer or is missing
    (NaN). *)

Module Pandas.

Inductive cell : Type :=
| CStr (s : string)
| CInt (z : Z)
| CNaN.

Record DataFrame : Type := mkDataFrame {
  columns : list string;
  rows : list (list cell)
}.

(** Position of a column name among the columns. *)
Fixpoint index_of (c : string) (cols : list string) : option nat :=
  match cols with
  | [] => None
  | c' :: r =>
      if String.eqb c' c then Some 0%nat
      else match index_of c r with Some i => Some (S i) | None => None end
  end.

(** [col in df.columns] *)
Definition has_column (df : DataFrame) (c : string) : bool :=
  match index_of c (columns df) with Some _ => true | None => false end.

(** The cell of a row in column number [i]. *)
Definition cell_at (i : nat) (r : list cell) : cell := nth i r CNaN.

(** [astype(str)] on one cell: [str()] of its content; NaN reads "nan". *)
Definition astype_str (c : cell) : string :=
  match c with
  | CStr s => s
  | CInt z => Py.str_of_Z z
  | CNaN => "nan"
  end.

(** [.str.upper()] on one cell of an object column: strings are
    upper-cased, anything else becomes NaN. *)
Definition str_upper (c : cell) : option string :=
  match c with
  | CStr s => Some (Py.upper s)
  | _ => None
  end.

(** [series == x] on one cell after [.str.upper()]: NaN equals nothing. *)
Definition eq_cell (c : option string) (x : string) : bool :=
  match c with
  | Some s => String.eqb s x
  | None => false
  end.

(** [df[mask]] with the mask given row by row. *)
Definition select (keep : list cell -> bool) (df : DataFrame) : DataFrame :=
  mkDataFrame (columns df) (List.filter keep (rows df)).

(** [df.head(n)]: the first [n] rows, and for negative [n] all rows but
    the last [-n]. *)
Definition head (n : Z) (df : DataFrame) : DataFrame :=
  let rs := rows df in
  let k := if (0 <=? n)%Z then Z.to_nat n
           else (length rs - Z.to_nat (- n))%nat in
  mkDataFrame (columns df) (firstn k rs).

(** [df[cols]] for columns known to be present: projection, in the
    order of [cols]. *)
Definition project (cols : list string) (df : DataFrame) : DataFrame :=
  let idx := omap (fun c => index_of c (columns df)) cols in
  mkDataFrame cols (map (fun r => map (fun i => cell_at i r) idx) (rows df)).

End Pandas.

(** ** Effects: exceptions, events, state *)

Module Run.

(** The exception classes the programs raise, catch or let through.
    [SystemExit] is not an [Exception]; [BinasciiError] and
    [JSONDecodeError] are [ValueError]s.  [SdkError] stands for whatever
    [Exception] the SDK raises. *)
Inductive exn_class : Type :=
| SystemExit
| ValueError
| BinasciiError
| JSONDecodeError
| TypeError
| OverflowError
| ZeroDivisionError
| KeyError
| AttributeError
| EOFError
| ReError
| SdkError.

(** An exception with its [str(e)]. *)
Record exn : Type := mkExn { cls : exn_class; msg : string }.

(** [isinstance(e, Exception)] *)
Definition is_Exception (e : exn) : bool :=
  match cls e with SystemExit => false | _ => true end.

(** [isinstance(e, ValueError)] *)
Definition is_ValueError (e : exn) : bool :=
  match cls e with
  | ValueError | BinasciiError | JSONDecodeError => true
  | _ => false
  end.

(** What the outside world sees of a run, in order. *)
Inductive event : Type :=
| EPrint (line : string)
| EInput (prompt : string)
| EGetpass (prompt : string)
| ETokenTotp (api_key totp : string)
| ETokenApproval (api_key secret : string)
| EClient (token : Py.value)
| EFeed (token : string)
| ECall (token : Py.value) (name : string) (args : list Py.value)
        (kwargs : Py.dict)
| EFeedCall (token name : string) (args : list Py.value)
| EInstruments (token : Py.value)
| EWrite (path content : string).

(** The state a run threads through: the lines still to be typed on
    standard input, the events so far (oldest first), and the two
    module-level caches of the web UI. *)
Record state : Type := mkState {
  stdin : list string;
  trace : list event;
  instrument_cache : option Pandas.DataFrame;
  feed_cache : list string
}.

Definition initial (lines : list string) : state :=
  mkState lines [] None [].

Inductive res (A : Type) : Type :=
| Ok (a : A)
| Err (e : exn).
Arguments Ok {A} a.
Arguments Err {A} e.

(** A computation: from a state to a result and the state after it. *)
Definition M (A : Type) : Type := state -> res A * state.

#[global] Instance M_ret : MRet M := fun A a st => (Ok a, st).

#[global] Instance M_bind : MBind M := fun A B f m st =>
  match m st with
  | (Ok a, st') => f a st'
  | (Err e, st') => (Err e, st')
  end.

(** [raise e] *)
Definition raise {A} (e : exn) : M A := fun st => (Err e, st).

(** [raise SystemExit(msg)] *)
Definition exit {A} (m : string) : M A := raise (mkExn SystemExit m).

(** [try: body / except <classes matching sel> as e: handler e] *)
Definition try_except {A} (body : M A) (sel : exn -> bool)
  (handler : exn -> M A) : M A := fun st =>
  match body st with
  | (Ok a, st') => (Ok a, st')
  | (Err e, st') => if sel e then handler e st' else (Err e, st')
  end.

Definition emit (ev : event) : M unit := fun st =>
  (Ok tt, mkState (stdin st) (trace st ++ [ev])%list
                  (instrument_cache st) (feed_cache st)).

(** [print(line)] *)
Definition print (line : string) : M unit := emit (EPrint line).

(** Reading one line of standard input; [EOFError] when none is left. *)
Definition read_line : M string := fun st =>
  match stdin st with
  | [] => (Err (mkExn EOFError "EOF when reading a line"), st)
  | l :: r =>
      (Ok l, mkState r (trace st) (instrument_cache st) (feed_cache st))
  end.

(** [input(prompt)] *)
Definition input (prompt : string) : M string :=
  emit (EInput prompt);; read_line.

(** [getpass(prompt)] *)
Definition getpass (prompt : string) : M string :=
  emit (EGetpass prompt);; read_line.

Definition get_instrument_cache : M (option Pandas.DataFrame) := fun st =>
  (Ok (instrument_cache st), st).

Definition set_instrument_cache (df : Pandas.DataFrame) : M unit := fun st =>
  (Ok tt, mkState (stdin st) (trace st) (Some df) (feed_cache st)).

Definition get_feed_cache : M (list string) := fun st =>
  (Ok (feed_cache st), st).

Definition add_feed_cache (token : string) : M unit := fun st =>
  (Ok tt, mkState (stdin st) (trace st) (instrument_cache st)
                  (feed_cache st ++ [token])%list).

(** Lifting an outcome of the outside world into a computation. *)
Definition lift {A} (r : res A) : M A := fun st => (r, st).

End Run.

(** ** The outside world: SDK and libraries

    Neither the brokerage SDK ([growwapi]) nor the Python libraries the
    programs call ([pyotp], [json], [re], [datetime], [float] parsing)
    are part of the repository.  They are taken as given functions,
    collected in one record each. *)

Module World.
Import Run.

Inductive attr : Type := Missing | NotCallable | Method.

Inductive json_result : Type :=
| JsonOk (v : Py.value)
| JsonError (emsg : string) (pos : Z).

(** What a call into the SDK does: it returns, or raises an [Exception]
    with the given [str(e)]. *)
Inductive outcome (A : Type) : Type :=
| Returned (a : A)
| Raised (message : string).
Arguments Returned {A} a.
Arguments Raised {A} message.

Definition of_outcome {A} (o : outcome A) : M A :=
  match o with
  | Returned a => mret a
  | Raised m => raise (mkExn SdkError m)
  end.

Record sdk : Type := mkSdk {
  (** [GrowwAPI.get_access_token(api_key=, totp=)] *)
  access_token_totp : string -> string -> outcome Py.value;
  (** [GrowwAPI.get_access_token(api_key=, secret=)] *)
  access_token_approval : string -> string -> outcome Py.value;
  (** [GrowwAPI(token)] *)
  new_client : Py.value -> outcome unit;
  (** [GrowwFeed(client)] *)
  new_feed : string -> outcome unit;
  (** [hasattr(groww, name)] and [callable(getattr(groww, name))] *)
  attribute : string -> attr;
  (** [getattr(groww, name)( *args, **kwargs)] on the client of a token *)
  api : Py.value -> string -> list Py.value -> Py.dict -> outcome Py.value;
  (** a method of the feed of a token *)
  feed : string -> string -> list Py.value -> outcome Py.value;
  (** [groww.get_all_instruments()] *)
  all_instruments : Py.value -> outcome Pandas.DataFrame
}.

Record pylib : Type := mkPylib {
  (** [float(s)] on a string; [None]: [ValueError] *)
  float_of_string : string -> option float;
  (** [str(v)] on floats and containers *)
  repr : Py.value -> string;
  (** [datetime.fromtimestamp(ts).strftime("%Y-%m-%d %H:%M:%S")];
      [None]: [OSError], [OverflowError] or [ValueError] *)
  strftime_local : float -> option string;
  (** [json.loads(s)] *)
  json_loads : string -> json_result;
  (** [json.dumps(v, indent=2, ensure_ascii=True)]; [None]: [TypeError] *)
  json_dumps : Py.value -> option string;
  (** [df.to_string(index=False)] *)
  df_to_string : Pandas.DataFrame -> string;
  (** [pyotp.TOTP(secret).now()]; [None]: [binascii.Error] or
      [ValueError] *)
  totp_now : string -> option string;
  (** [re.compile(pattern)] as the test "[search] finds a match in";
      [None]: [re.error] *)
  re_compile : string -> option (string -> bool);
  (** [_relative_range(amount, unit)] of the web UI, which reads the
      clock; [None]: the [TypeError] of [timedelta] on a missing amount *)
  relative_range : Py.value -> string -> option (string * string)
}.

(** [str(v)] *)
Definition py_str (lib : pylib) (v : Py.value) : string :=
  match v with
  | Py.PStr s => s
  | Py.PNone => "None"
  | Py.PBool true => "True"
  | Py.PBool false => "False"
  | Py.PInt z => Py.str_of_Z z
  | _ => repr lib v
  end.

End World.

(** ** Code shared by the entry points *)

Module Common.
Import Py Run World.

(** The auth flow: the [--flow] choices of the CLIs, the radio button of
    the web UI. *)
Inductive flow : Type := Auto | Approval | Totp.

Definition flow_eqb (a b : flow) : bool :=
  match a, b with
  | Auto, Auto | Approval, Approval | Totp, Totp => true
  | _, _ => false
  end.

(** The secrets file as loaded ([{}] when the file is absent) and the
    process environment.  Every value read from the secrets file goes
    through [_first], which applies [str()] to it first: the map holds
    that string. *)
Abbreviation config := (gmap string string).
Abbreviation environ := (gmap string string).

(** [_first], defined identically in the four files. *)
Fixpoint _first (values : list (option string)) : option string :=
  match values with
  | [] => None
  | None :: r => _first r
  | Some v :: r =>
      let v := strip v in
      if nonempty v then Some v else _first r
  end.

(** Truthiness of a credential: neither [None] nor empty. *)
Definition given (v : option string) : bool :=
  match v with
  | Some s => nonempty s
  | None => false
  end.

(** The string of a credential that is known to be given. *)
Definition the (v : option string) : string := default EmptyString v.

(** The line feed. *)
Definition nl : string := String (ascii_of_nat 10) EmptyString.

(** [value[:n]] and [value[-n:]] for [n <= len(value)] *)
Definition take (n : nat) (s : string) : string := String.substring 0 n s.
Definition take_last (n : nat) (s : string) : string :=
  String.substring (String.length s - n) n s.

(** The candidate of a token dict:
    [value.get("access_token") or value.get("token") or
     value.get("accessToken") or value.get("jwt")]. *)
Definition token_candidate (d : dict) : value :=
  py_or (py_or (py_or (get d "access_token") (get d "token"))
               (get d "accessToken")) (get d "jwt").

(** The shared tail of the token normalisers: the dict case, then
    [str(value).strip()]. *)
Definition normalize_object (lib : pylib) (v : value) : string :=
  match v with
  | PDict d =>
      match token_candidate d with
      | PStr c => if nonempty (strip c) then strip c
                  else strip (py_str lib v)
      | _ => strip (py_str lib v)
      end
  | _ => strip (py_str lib v)
  end.

(** [_normalize_access_token] of groww_auth.py: a string is returned as
    it is. *)
Definition _normalize_access_token (lib : pylib) (v : value) : string :=
  match v with
  | PStr s => s
  | _ => normalize_object lib v
  end.

(** [_normalize_token] of groww_gradio.py and the tail of
    [_get_access_token] of groww_smoketest.py: a string is stripped. *)
Definition _normalize_token (lib : pylib) (v : value) : string :=
  match v with
  | PStr s => strip s
  | _ => normalize_object lib v
  end.

Section with_world.
Context (sdk : World.sdk) (lib : pylib).

(** [GrowwAPI.get_access_token(api_key=, totp=)] *)
Definition token_by_totp (api_key totp : string) : M value :=
  emit (ETokenTotp api_key totp);;
  of_outcome (access_token_totp sdk api_key totp).

(** [GrowwAPI.get_access_token(api_key=, secret=)] *)
Definition token_by_approval (api_key secret : string) : M value :=
  emit (ETokenApproval api_key secret);;
  of_outcome (access_token_approval sdk api_key secret).

(** [GrowwAPI(token)]: the client is identified by its token. *)
Definition new_api (token : value) : M value :=
  emit (EClient token);;
  of_outcome (new_client sdk token);;
  mret token.

(** A method call on the client, [groww.name( *args, **kwargs)]. *)
Definition call (groww : value) (name : string) (args : list value)
  (kwargs : dict) : M value :=
  emit (ECall groww name args kwargs);;
  of_outcome (api sdk groww name args kwargs).

(** [_totp_now_from_secret]: the library error becomes an exception of
    class [c] with message [m] ([ValueError] in three files,
    [SystemExit] in groww_cli.py). *)
Definition totp_now_or (c : exn_class) (m : string) (totp_secret : string)
  : M string :=
  match totp_now lib totp_secret with
  | Some code => mret code
  | None => raise (mkExn c m)
  end.

End with_world.

End Common.

(** ** groww_gradio.py: reshaping helpers *)

Module Gradio.
Import Py Run World Common.

(** The dict branch of [_prune_nulls]: the loop over [value.items()]
    that fills the fresh dict [cleaned]; [rec] is the recursive call. *)
Definition prune_items (rec : value -> value)
  : list (string * value) -> dict -> dict :=
  fix items (d : list (string * value)) (cleaned : dict) : dict :=
    match d with
    | [] => cleaned
    | (key, item) :: r =>
        if is_none item then items r cleaned
        else items r (set cleaned key (rec item))
    end.

(** The list branch of [_prune_nulls]: the comprehension
    [[_prune_nulls(item) for item in value if item is not None]]. *)
Definition prune_elems (rec : value -> value) : list value -> list value :=
  fix elems (l : list value) : list value :=
    match l with
    | [] => []
    | item :: r =>
        if is_none item then elems r else rec item :: elems r
    end.

(** [_prune_nulls] *)
Fixpoint _prune_nulls (v : value) : value :=
  match v with
  | PDict d => PDict (prune_items _prune_nulls d [])
  | PList l => PList (prune_elems _prune_nulls l)
  | _ => v
  end.

(** [_extract_candles] *)
Definition _extract_candles (data : value) : list value :=
  match data with
  | PDict d =>
      (fix scan (ks : list string) : list value :=
         match ks with
         | [] => []
         | key :: r =>
             match get d key with
             | PList l => l
             | _ => scan r
             end
         end) ["candles"; "data"; "candle_data"; "historical_data"; "result"]
  | PList l => l
  | _ => []
  end.

Section with_lib.
Context (lib : pylib).

(** [_format_ts].  [float(value)] may also raise [OverflowError], which
    the function does not catch. *)
Definition _format_ts (v : value) : res value :=
  match v with
  | PNone => Ok PNone
  | _ =>
      match py_float (float_of_string lib) v with
      | FloatTypeError | FloatValueError => Ok (PStr (py_str lib v))
      | FloatOverflowError =>
          Err (mkExn OverflowError "int too large to convert to float")
      | FloatOk ts =>
          let ts := if PrimFloat.ltb 1000000000000%float ts
                    then PrimFloat.div ts 1000%float else ts in
          match strftime_local lib ts with
          | Some s => Ok (PStr s)
          | None => Ok (PStr (py_str lib v))
          end
      end
  end.

(** One row of [_candles_to_rows]: [None] for a candle that is skipped. *)
Definition candle_row (candle : value) : res (option value) :=
  match candle with
  | PDict c =>
      match _format_ts (py_or (py_or (py_or (get c "timestamp") (get c "time"))
                                     (get c "t")) (get c "date")) with
      | Err e => Err e
      | Ok ts =>
          Ok (Some (PDict
            [("timestamp", ts);
             ("open", py_or (get c "open") (get c "o"));
             ("high", py_or (get c "high") (get c "h"));
             ("low", py_or (get c "low") (get c "l"));
             ("close", py_or (get c "close") (get c "c"));
             ("volume", py_or (get c "volume") (get c "v"))]))
      end
  | PList c | PTuple c =>
      match _format_ts (item_or_none c 0) with
      | Err e => Err e
      | Ok ts =>
          Ok (Some (PDict
            [("timestamp", ts);
             ("open", item_or_none c 1);
             ("high", item_or_none c 2);
             ("low", item_or_none c 3);
             ("close", item_or_none c 4);
             ("volume", item_or_none c 5)]))
      end
  | _ => Ok None
  end.

(** The loop of [_candles_to_rows] over the extracted candles. *)
Fixpoint rows_of (candles : list value) (rows : list value)
  : res (list value) :=
  match candles with
  | [] => Ok rows
  | candle :: r =>
      match candle_row candle with
      | Err e => Err e
      | Ok None => rows_of r rows
      | Ok (Some row) => rows_of r (rows ++ [row])%list
      end
  end.

(** [_candles_to_rows] *)
Definition _candles_to_rows (data : value) : res (list value) :=
  rows_of (_extract_candles data) [].

(** [_parse_candle_close]: [Ok None] is Python's [None]; [OverflowError]
    from [float()] is not caught. *)
Definition _parse_candle_close (candle : value) : res (option float) :=
  let conv (x : value) : res (option float) :=
    match py_float (float_of_string lib) x with
    | FloatOk f => Ok (Some f)
    | FloatTypeError | FloatValueError => Ok None
    | FloatOverflowError =>
        Err (mkExn OverflowError "int too large to convert to float")
    end in
  match candle with
  | PDict c =>
      match lookup c "close" with
      | Some x => conv x
      | None =>
          match lookup c "c" with
          | Some x => conv x
          | None => Ok None
          end
      end
  | PList c | PTuple c =>
      if (5 <=? length c)%nat then conv (item_or_none c 4) else Ok None
  | _ => Ok None
  end.

End with_lib.

(** *** Handlers of the web UI *)

Definition error_dict (m : string) : value := PDict [("error", PStr m)].

(** [x or None] on a text field. *)
Definition str_or_none (x : string) : value :=
  if nonempty x then PStr x else PNone.

(** [s.split(",")] *)
Fixpoint split_comma (s : string) : list string :=
  match s with
  | EmptyString => [EmptyString]
  | String c r =>
      if Ascii.eqb c "," then EmptyString :: split_comma r
      else match split_comma r with
           | [] => [String c EmptyString]
           | h :: t => String c h :: t
           end
  end.

(** [_format_exchange_symbols] *)
Definition _format_exchange_symbols (symbols exchange : string) : value :=
  PTuple
    ((fix loop (raws : list string) (items : list value) : list value :=
        match raws with
        | [] => items
        | raw :: r =>
            let sym := upper (strip raw) in
            if negb (nonempty sym) then loop r items
            else if contains ":" sym || contains "_" sym
                 then loop r (items ++ [PStr sym])%list
                 else loop r (items ++ [PStr (exchange ++ "_" ++ sym)%string])%list
        end) (split_comma symbols) []).

Definition trading_methods : list string :=
  ["place_order"; "modify_order"; "cancel_order";
   "create_smart_order"; "modify_smart_order"; "cancel_smart_order"].

(** [name in trading_methods] *)
Definition is_trading (name : string) : bool :=
  existsb (String.eqb name) trading_methods.

(** [_require_no_trading] *)
Definition _require_no_trading (method_name : string) (allow_trading : bool)
  : M unit :=
  if is_trading method_name && negb allow_trading
  then raise (mkExn ValueError
         "Trading action blocked. Enable 'Allow trading actions' to proceed.")
  else mret tt.

Section handlers.
Context (sdk : World.sdk) (lib : pylib).

(** [_parse_json] *)
Definition _parse_json (v : string) : M value :=
  if negb (nonempty (strip v)) then mret PNone
  else match json_loads lib v with
       | JsonOk x => mret x
       | JsonError m pos =>
           raise (mkExn ValueError
                    ("Invalid JSON: " ++ m ++ " at pos " ++ str_of_Z pos))
       end.

(** [_get_client] *)
Definition _get_client (token : string) : M value :=
  new_api sdk (PStr token).

Abbreviation call := (Common.call sdk).

(** [_get_feed]: one feed per token, kept in [FEED_CACHE]. *)
Definition _get_feed (token : string) : M string :=
  cache ← get_feed_cache;
  if existsb (String.eqb token) cache then mret token
  else
    _get_client token;;
    emit (EFeed token);;
    of_outcome (new_feed sdk token);;
    add_feed_cache token;;
    mret token.

(** A method call on the feed. *)
Definition feed_call (fd name : string) (args : list value) : M value :=
  emit (EFeedCall fd name args);;
  of_outcome (feed sdk fd name args).

(** [_lookup_instrument]; [exchange_token] is [None] when empty. *)
Definition _lookup_instrument (groww : value)
  (exchange trading_symbol exchange_token : string) : M value :=
  if nonempty exchange_token
  then mret (PDict [("exchange_token", PStr exchange_token);
                    ("exchange", PStr exchange)])
  else call groww "get_instrument_by_exchange_and_trading_symbol" []
         [("exchange", PStr exchange);
          ("trading_symbol", PStr (upper (strip trading_symbol)))].

(** [connect]: the form fields are strings, [cfg] is the secrets file
    as [_load_cfg] reads it.  It answers with the token to store and a
    status line. *)
Definition connect (cfg : config) (flow : Common.flow) (use_secrets : bool)
  (approval_api_key approval_secret totp_token totp_secret totp : string)
  : M (string * string) :=
  let cfg : config := if use_secrets then cfg else ∅ in
  let approval_api_key :=
    _first [Some approval_api_key; cfg !! "approval_api_key";
            cfg !! "api_key"] in
  let approval_secret :=
    _first [Some approval_secret; cfg !! "approval_secret";
            cfg !! "secret"] in
  let totp_token := _first [Some totp_token; cfg !! "totp_token"] in
  let totp_secret := _first [Some totp_secret; cfg !! "totp_secret"] in
  let totp := _first [Some totp; cfg !! "totp"] in
  let flow :=
    match flow with
    | Auto => if given approval_api_key && given approval_secret
              then Approval else Totp
    | f => f
    end in
  try_except
    (let finish (token_obj : value) : M (string * string) :=
       let token := _normalize_token lib token_obj in
       _get_client token;;
       let redacted :=
         if (12 <? String.length token)%nat
         then take 6 token ++ "..." ++ take_last 4 token
         else "***" in
       mret (token, "Connected. Token: " ++ redacted) in
     match flow with
     | Approval =>
         if negb (given approval_api_key) || negb (given approval_secret)
         then mret (EmptyString, "Missing approval api_key/secret.")
         else
           token_obj ← token_by_approval sdk (the approval_api_key)
                         (the approval_secret);
           finish token_obj
     | _ =>
         if negb (given totp_token)
         then mret (EmptyString, "Missing totp_token.")
         else if negb (given totp)
         then
           if negb (given totp_secret)
           then mret (EmptyString, "Missing totp or totp_secret.")
           else
             code ← totp_now_or lib ValueError
                      ("Invalid TOTP secret: it must be Base32 from the QR setup. "
                       ++ "If you don't have it, paste the 6-digit OTP manually.")
                      (the totp_secret);
             token_obj ← token_by_totp sdk (the totp_token) code;
             finish token_obj
         else
           token_obj ← token_by_totp sdk (the totp_token) (the totp);
           finish token_obj
     end)
    is_Exception (fun e => mret (EmptyString, "Auth error: " ++ msg e)).

(** **** The handlers that answer with JSON

    Each of them has the shape
[[
    if not token:
        return {"error": "Not connected"}
    try:
        <body>
    except Exception as e:
        return {"error": str(e)}
]]
    [request] names the handler and carries its form inputs; [attempt]
    is its [try] body. *)

Definition guarded (token : string) (body : M value) : M value :=
  if negb (nonempty token) then mret (error_dict "Not connected")
  else try_except body is_Exception (fun e => mret (error_dict (msg e))).

Definition timeout10 : string * value := ("timeout", PInt 10).

Inductive request : Type :=
| GetQuote (trading_symbol exchange segment : string)
| GetLtp (symbols exchange segment : string)
| GetOhlc (symbols exchange segment : string)
| GetProfile
| GetHoldings
| GetPositions (segment : string)
| GetMargin
| GetOrderList (page page_size : value) (segment : string)
| GetOrderDetail (segment order_id : string)
| GetOrderStatus (segment order_id : string)
| GetOrderStatusByReference (segment reference_id : string)
| GetTradeListForOrder (segment order_id : string) (page page_size : value)
| GetSmartOrderList (smart_order_type segment status : string)
    (page page_size : value) (start_date_time end_date_time : string)
| GetSmartOrder (segment smart_order_type smart_order_id : string)
| GetOrderMarginDetails (segment orders_json : string)
| GetInstrumentByExchangeAndTradingSymbol (exchange trading_symbol : string)
| GetInstrumentByExchangeToken (exchange_token : string)
| GetInstrumentByGrowwSymbol (groww_symbol : string)
| GetExpiries (exchange underlying_symbol : string) (year month : value)
| GetContracts (exchange underlying_symbol expiry_date : string)
| GetOptionChain (exchange underlying expiry_date : string)
| GetGreeks (exchange underlying trading_symbol expiry : string)
| CallMethod (method_name args_json kwargs_json : string)
    (allow_trading : bool)
| FeedSubscribe (method exchange segment trading_symbol exchange_token
                   : string)
| FeedGet (method : string)
| FeedUnsubscribe (method exchange segment exchange_token : string)
| BacktestSimple (trading_symbol exchange segment start_time end_time
                    : string) (interval_minutes : value).

(** [instrument.get("exchange_token")]; on a non-dict the attribute
    lookup raises. *)
Definition instrument_token (instrument : value) : M value :=
  match instrument with
  | PDict d => mret (get d "exchange_token")
  | _ => raise (mkExn AttributeError "object has no attribute 'get'")
  end.

Definition instrument_list (exchange segment : string) (tok : value)
  : value :=
  PList [PDict [("exchange", PStr exchange); ("segment", PStr segment);
                ("exchange_token", tok)]].

(** The closes that parse, in series order: the comprehension
    [[c for c in (_parse_candle_close(x) for x in candles) if c is not None]]. *)
Fixpoint parsed_closes (candles : list value) : res (list float) :=
  match candles with
  | [] => Ok []
  | x :: r =>
      match _parse_candle_close lib x with
      | Err e => Err e
      | Ok c =>
          match parsed_closes r with
          | Err e => Err e
          | Ok cs => Ok (match c with Some f => f :: cs | None => cs end)
          end
      end
  end.

(** Float division [a / b]: [ZeroDivisionError] on a zero divisor. *)
Definition py_truediv (a b : float) : res float :=
  if PrimFloat.eqb b 0%float
  then Err (mkExn ZeroDivisionError "float division by zero")
  else Ok (PrimFloat.div a b).

(** The tail of [backtest_simple], from the fetched data on. *)
Definition backtest_summary (data : value) : res value :=
  match parsed_closes (_extract_candles data) with
  | Err e => Err e
  | Ok closes =>
      if (length closes <? 2)%nat
      then Ok (error_dict "Not enough candle data to compute backtest summary.")
      else
        let start_close := nth 0 closes 0%float in
        let end_close := List.last closes 0%float in
        match py_truediv (PrimFloat.sub end_close start_close) start_close with
        | Err e => Err e
        | Ok ratio =>
            Ok (PDict [("count", PInt (Z.of_nat (length closes)));
                       ("start_close", PFloat start_close);
                       ("end_close", PFloat end_close);
                       ("return_pct",
                        PFloat (PrimFloat.mul ratio 100%float))])
        end
  end.

(** The [try] body of each handler. *)
Definition attempt (token : string) (r : request) : M value :=
  match r with
  | GetQuote trading_symbol exchange segment =>
      groww ← _get_client token;
      call groww "get_quote" []
        [("trading_symbol", PStr (upper (strip trading_symbol)));
         ("exchange", PStr exchange); ("segment", PStr segment); timeout10]
  | GetLtp symbols exchange segment =>
      groww ← _get_client token;
      let exchange_symbols := _format_exchange_symbols symbols exchange in
      call groww "get_ltp" [exchange_symbols; PStr segment] [timeout10]
  | GetOhlc symbols exchange segment =>
      groww ← _get_client token;
      let exchange_symbols := _format_exchange_symbols symbols exchange in
      call groww "get_ohlc" [exchange_symbols; PStr segment] [timeout10]
  | GetProfile =>
      groww ← _get_client token;
      call groww "get_user_profile" [] [timeout10]
  | GetHoldings =>
      groww ← _get_client token;
      call groww "get_holdings_for_user" [] [timeout10]
  | GetPositions segment =>
      groww ← _get_client token;
      call groww "get_positions_for_user" []
        [("segment", str_or_none segment); timeout10]
  | GetMargin =>
      groww ← _get_client token;
      call groww "get_available_margin_details" [] [timeout10]
  | GetOrderList page page_size segment =>
      groww ← _get_client token;
      call groww "get_order_list" []
        [("page", py_or page (PInt 0));
         ("page_size", py_or page_size (PInt 25));
         ("segment", str_or_none segment); timeout10]
  | GetOrderDetail segment order_id =>
      groww ← _get_client token;
      call groww "get_order_detail" []
        [("segment", PStr segment);
         ("groww_order_id", PStr (strip order_id)); timeout10]
  | GetOrderStatus segment order_id =>
      groww ← _get_client token;
      call groww "get_order_status" []
        [("segment", PStr segment);
         ("groww_order_id", PStr (strip order_id)); timeout10]
  | GetOrderStatusByReference segment reference_id =>
      groww ← _get_client token;
      call groww "get_order_status_by_reference" []
        [("segment", PStr segment);
         ("order_reference_id", PStr (strip reference_id)); timeout10]
  | GetTradeListForOrder segment order_id page page_size =>
      groww ← _get_client token;
      call groww "get_trade_list_for_order" []
        [("groww_order_id", PStr (strip order_id));
         ("segment", PStr segment);
         ("page", py_or page (PInt 0));
         ("page_size", py_or page_size (PInt 25)); timeout10]
  | GetSmartOrderList smart_order_type segment status page page_size
      start_date_time end_date_time =>
      groww ← _get_client token;
      call groww "get_smart_order_list" []
        [("smart_order_type", str_or_none smart_order_type);
         ("segment", str_or_none segment);
         ("status", str_or_none status);
         ("page", py_or page PNone);
         ("page_size", py_or page_size PNone);
         ("start_date_time", str_or_none start_date_time);
         ("end_date_time", str_or_none end_date_time); timeout10]
  | GetSmartOrder segment smart_order_type smart_order_id =>
      groww ← _get_client token;
      call groww "get_smart_order" []
        [("segment", PStr segment);
         ("smart_order_type", PStr smart_order_type);
         ("smart_order_id", PStr (strip smart_order_id)); timeout10]
  | GetOrderMarginDetails segment orders_json =>
      orders ← _parse_json orders_json;
      if negb (is_list orders)
      then mret (error_dict "orders_json must be a JSON list of order dicts")
      else
        groww ← _get_client token;
        call groww "get_order_margin_details" []
          [("segment", PStr segment); ("orders", orders); timeout10]
  | GetInstrumentByExchangeAndTradingSymbol exchange trading_symbol =>
      groww ← _get_client token;
      call groww "get_instrument_by_exchange_and_trading_symbol" []
        [("exchange", PStr exchange);
         ("trading_symbol", PStr (upper (strip trading_symbol)))]
  | GetInstrumentByExchangeToken exchange_token =>
      groww ← _get_client token;
      call groww "get_instrument_by_exchange_token" []
        [("exchange_token", PStr (strip exchange_token))]
  | GetInstrumentByGrowwSymbol groww_symbol =>
      groww ← _get_client token;
      call groww "get_instrument_by_groww_symbol" []
        [("groww_symbol", PStr (strip groww_symbol))]
  | GetExpiries exchange underlying_symbol year month =>
      groww ← _get_client token;
      call groww "get_expiries" []
        [("exchange", PStr exchange);
         ("underlying_symbol", PStr (upper (strip underlying_symbol)));
         ("year", py_or year PNone);
         ("month", py_or month PNone); timeout10]
  | GetContracts exchange underlying_symbol expiry_date =>
      groww ← _get_client token;
      call groww "get_contracts" []
        [("exchange", PStr exchange);
         ("underlying_symbol", PStr (upper (strip underlying_symbol)));
         ("expiry_date", PStr (strip expiry_date)); timeout10]
  | GetOptionChain exchange underlying expiry_date =>
      groww ← _get_client token;
      call groww "get_option_chain" []
        [("exchange", PStr exchange);
         ("underlying", PStr (upper (strip underlying)));
         ("expiry_date", PStr (strip expiry_date)); timeout10]
  | GetGreeks exchange underlying trading_symbol expiry =>
      groww ← _get_client token;
      call groww "get_greeks" []
        [("exchange", PStr exchange);
         ("underlying", PStr (upper (strip underlying)));
         ("trading_symbol", PStr (upper (strip trading_symbol)));
         ("expiry", PStr (strip expiry))]
  | CallMethod method_name args_json kwargs_json allow_trading =>
      groww ← _get_client token;
      match attribute sdk method_name with
      | Missing => mret (error_dict ("Unknown method: " ++ method_name))
      | NotCallable => mret (error_dict ("Not callable: " ++ method_name))
      | Method =>
          _require_no_trading method_name allow_trading;;
          args ← (if nonempty (strip args_json) then _parse_json args_json
                  else mret (PList []));
          kwargs ← (if nonempty (strip kwargs_json)
                    then _parse_json kwargs_json
                    else mret (PDict []));
          match args with
          | PList a =>
              match kwargs with
              | PDict kw => call groww method_name a kw
              | _ => mret (error_dict "--kwargs must be JSON object")
              end
          | _ => mret (error_dict "--args must be JSON array")
          end
      end
  | FeedSubscribe method exchange segment trading_symbol exchange_token =>
      groww ← _get_client token;
      instrument ← _lookup_instrument groww exchange trading_symbol
                     exchange_token;
      tok ← instrument_token instrument;
      fd ← _get_feed token;
      feed_call fd method [instrument_list exchange segment tok]
  | FeedGet method =>
      fd ← _get_feed token;
      feed_call fd method []
  | FeedUnsubscribe method exchange segment exchange_token =>
      fd ← _get_feed token;
      feed_call fd method
        [instrument_list exchange segment (PStr (strip exchange_token))]
  | BacktestSimple trading_symbol exchange segment start_time end_time
      interval_minutes =>
      groww ← _get_client token;
      data ← call groww "get_historical_candle_data" []
               [("trading_symbol", PStr (upper (strip trading_symbol)));
                ("exchange", PStr exchange);
                ("segment", PStr segment);
                ("start_time", PStr start_time);
                ("end_time", PStr end_time);
                ("interval_in_minutes", py_or interval_minutes PNone);
                ("timeout", PInt 15)];
      lift (backtest_summary data)
  end.

Definition get_quote (token trading_symbol exchange segment : string)
  : M value :=
  guarded token (attempt token (GetQuote trading_symbol exchange segment)).

Definition get_quote_clean (token trading_symbol exchange segment : string)
  : M value :=
  result ← get_quote token trading_symbol exchange segment;
  match result with
  | PDict d =>
      if negb (has_key d "error") then mret (_prune_nulls result)
      else mret result
  | _ => mret result
  end.

Definition get_ltp (token symbols exchange segment : string) : M value :=
  guarded token (attempt token (GetLtp symbols exchange segment)).

Definition get_ohlc (token symbols exchange segment : string) : M value :=
  guarded token (attempt token (GetOhlc symbols exchange segment)).

Definition get_profile (token : string) : M value :=
  guarded token (attempt token GetProfile).

Definition get_holdings (token : string) : M value :=
  guarded token (attempt token GetHoldings).

Definition get_positions (token segment : string) : M value :=
  guarded token (attempt token (GetPositions segment)).

Definition get_margin (token : string) : M value :=
  guarded token (attempt token GetMargin).

Definition get_order_list (token : string) (page page_size : value)
  (segment : string) : M value :=
  guarded token (attempt token (GetOrderList page page_size segment)).

Definition get_order_detail (token segment order_id : string) : M value :=
  guarded token (attempt token (GetOrderDetail segment order_id)).

Definition get_order_status (token segment order_id : string) : M value :=
  guarded token (attempt token (GetOrderStatus segment order_id)).

Definition get_order_status_by_reference
  (token segment reference_id : string) : M value :=
  guarded token
    (attempt token (GetOrderStatusByReference segment reference_id)).

Definition get_trade_list_for_order (token segment order_id : string)
  (page page_size : value) : M value :=
  guarded token
    (attempt token (GetTradeListForOrder segment order_id page page_size)).

Definition get_smart_order_list
  (token smart_order_type segment status : string) (page page_size : value)
  (start_date_time end_date_time : string) : M value :=
  guarded token
    (attempt token
       (GetSmartOrderList smart_order_type segment status page page_size
          start_date_time end_date_time)).

Definition get_smart_order
  (token segment smart_order_type smart_order_id : string) : M value :=
  guarded token
    (attempt token (GetSmartOrder segment smart_order_type smart_order_id)).

Definition get_order_margin_details (token segment orders_json : string)
  : M value :=
  guarded token (attempt token (GetOrderMarginDetails segment orders_json)).

Definition get_instrument_by_exchange_and_trading_symbol
  (token exchange trading_symbol : string) : M value :=
  guarded token
    (attempt token
       (GetInstrumentByExchangeAndTradingSymbol exchange trading_symbol)).

Definition get_instrument_by_exchange_token (token exchange_token : string)
  : M value :=
  guarded token (attempt token (GetInstrumentByExchangeToken exchange_token)).

Definition get_instrument_by_groww_symbol (token groww_symbol : string)
  : M value :=
  guarded token (attempt token (GetInstrumentByGrowwSymbol groww_symbol)).

Definition get_expiries (token exchange underlying_symbol : string)
  (year month : value) : M value :=
  guarded token
    (attempt token (GetExpiries exchange underlying_symbol year month)).

Definition get_contracts
  (token exchange underlying_symbol expiry_date : string) : M value :=
  guarded token
    (attempt token (GetContracts exchange underlying_symbol expiry_date)).

Definition get_option_chain (token exchange underlying expiry_date : string)
  : M value :=
  guarded token
    (attempt token (GetOptionChain exchange underlying expiry_date)).

Definition get_greeks
  (token exchange underlying trading_symbol expiry : string) : M value :=
  guarded token
    (attempt token (GetGreeks exchange underlying trading_symbol expiry)).

(** [call_method]: the check of the method name comes before the
    [try]. *)
Definition call_method (token method_name args_json kwargs_json : string)
  (allow_trading : bool) : M value :=
  if negb (nonempty token) then mret (error_dict "Not connected")
  else if negb (nonempty (strip method_name))
  then mret (error_dict "Method name is required")
  else
    try_except
      (attempt token
         (CallMethod method_name args_json kwargs_json allow_trading))
      is_Exception (fun e => mret (error_dict (msg e))).

(** The three subscribe handlers differ in the feed method only, and so
    do the three get and the three unsubscribe handlers. *)
Definition feed_subscribe (method : string)
  (token exchange segment trading_symbol exchange_token : string) : M value :=
  guarded token
    (attempt token
       (FeedSubscribe method exchange segment trading_symbol exchange_token)).

Definition feed_get (method : string) (token : string) : M value :=
  guarded token (attempt token (FeedGet method)).

Definition feed_unsubscribe (method : string)
  (token exchange segment exchange_token : string) : M value :=
  guarded token
    (attempt token (FeedUnsubscribe method exchange segment exchange_token)).

Definition feed_subscribe_ltp := feed_subscribe "subscribe_ltp".
Definition feed_get_ltp := feed_get "get_ltp".
Definition feed_unsubscribe_ltp := feed_unsubscribe "unsubscribe_ltp".
Definition feed_subscribe_market_depth :=
  feed_subscribe "subscribe_market_depth".
Definition feed_get_market_depth := feed_get "get_market_depth".
Definition feed_unsubscribe_market_depth :=
  feed_unsubscribe "unsubscribe_market_depth".
Definition feed_subscribe_index_value :=
  feed_subscribe "subscribe_index_value".
Definition feed_get_index_value := feed_get "get_index_value".
Definition feed_unsubscribe_index_value :=
  feed_unsubscribe "unsubscribe_index_value".


(** The handler behind a request. *)
Definition handle (token : string) (r : request) : M value :=
  match r with
  | CallMethod method_name args_json kwargs_json allow_trading =>
      call_method token method_name args_json kwargs_json allow_trading
  | _ => guarded token (attempt token r)
  end.

(** **** Instrument search *)

(** What [search_instruments] hands to the result widget. *)
Inductive search_out : Type :=
| Message (text : string)
| Table (df : Pandas.DataFrame).

(** [df[df[col].str.upper() == x.upper()]]; [KeyError] without the
    column. *)
Definition filter_upper (col x : string) (df : Pandas.DataFrame)
  : res Pandas.DataFrame :=
  match Pandas.index_of col (Pandas.columns df) with
  | None => Err (mkExn KeyError ("'" ++ col ++ "'"))
  | Some i =>
      Ok (Pandas.select
            (fun r => Pandas.eq_cell (Pandas.str_upper (Pandas.cell_at i r))
                        (upper x)) df)
  end.

(** The loop that builds the mask: for each searched column that the
    table has, [astype(str).str.lower().str.contains(q, na=False)],
    or-ed together.  [Ok None] is the mask [None]. *)
Fixpoint build_mask (q : string) (df : Pandas.DataFrame)
  (cols : list string) (mask : option (list Pandas.cell -> bool))
  : res (option (list Pandas.cell -> bool)) :=
  match cols with
  | [] => Ok mask
  | col :: r =>
      match Pandas.index_of col (Pandas.columns df) with
      | None => build_mask q df r mask
      | Some i =>
          match re_compile lib q with
          | None => Err (mkExn ReError "invalid regular expression")
          | Some found =>
              let m := fun row =>
                found (lower (Pandas.astype_str (Pandas.cell_at i row))) in
              build_mask q df r
                (Some (match mask with
                       | None => m
                       | Some mk => fun row => mk row || m row
                       end))
          end
      end
  end.

Definition search_instruments (token query exchange segment : string)
  (limit : Z) : M search_out :=
  if negb (nonempty token) then mret (Message "Not connected")
  else
    try_except
      (groww ← _get_client token;
       cached ← get_instrument_cache;
       df ← match cached with
            | Some df => mret df
            | None =>
                emit (EInstruments groww);;
                df ← of_outcome (all_instruments sdk groww);
                set_instrument_cache df;;
                mret df
            end;
       let q := lower (strip query) in
       if negb (nonempty q) then mret (Message "Enter a search term.")
       else
         filtered ← (if nonempty exchange
                     then lift (filter_upper "exchange" exchange df)
                     else mret df);
         filtered ← (if nonempty segment
                     then lift (filter_upper "segment" segment filtered)
                     else mret filtered);
         let cols := List.filter (Pandas.has_column filtered)
                       ["trading_symbol"; "groww_symbol"; "name"; "isin";
                        "exchange_token"; "exchange"; "segment";
                        "instrument_type"] in
         mask ← lift (build_mask q filtered
                        ["trading_symbol"; "groww_symbol"; "name"; "isin"]
                        None);
         match mask with
         | None => mret (Message "No instruments found.")
         | Some mk =>
             let view := Pandas.head limit (Pandas.select mk filtered) in
             match Pandas.rows view with
             | [] => mret (Message "No instruments found.")
             | _ => mret (Table (Pandas.project cols view))
             end
         end)
      is_Exception (fun e => mret (Message ("Error: " ++ msg e))).

(** **** Historical candles and the simple backtest *)

Definition get_historical
  (token method trading_symbol groww_symbol exchange segment : string)
  (interval_minutes : value) (candle_interval start_time end_time : string)
  (use_relative : bool) (relative_amount : value) (relative_unit : string)
  : M value :=
  if negb (nonempty token)
  then mret (PTuple [error_dict "Not connected"; PList []])
  else
    range ← (if use_relative
             then match relative_range lib relative_amount relative_unit with
                  | Some r => mret r
                  | None =>
                      raise (mkExn TypeError
                               "unsupported type for timedelta component")
                  end
             else mret (start_time, end_time));
    let '(start_time, end_time) := range in
    try_except
      (groww ← _get_client token;
       data ← (if String.eqb method "historical_candles_v2"
               then call groww "get_historical_candles" []
                      [("exchange", PStr exchange);
                       ("segment", PStr segment);
                       ("groww_symbol", PStr (strip groww_symbol));
                       ("start_time", PStr start_time);
                       ("end_time", PStr end_time);
                       ("candle_interval", PStr candle_interval);
                       ("timeout", PInt 15)]
               else call groww "get_historical_candle_data" []
                      [("trading_symbol", PStr (upper (strip trading_symbol)));
                       ("exchange", PStr exchange);
                       ("segment", PStr segment);
                       ("start_time", PStr start_time);
                       ("end_time", PStr end_time);
                       ("interval_in_minutes", py_or interval_minutes PNone);
                       ("timeout", PInt 15)]);
       rows ← lift (_candles_to_rows lib data);
       mret (PTuple [data; PList rows]))
      is_Exception
      (fun e => mret (PTuple [error_dict (msg e); PList []])).

End handlers.

End Gradio.

(** ** groww_auth.py: the CLI authenticator *)

Module Auth.
Import Py Run World Common.

(** The parsed command line. *)
Record args : Type := mkArgs {
  arg_flow : flow;
  arg_totp : option string;
  arg_totp_token : option string;
  arg_print_token : bool;
  arg_save_token : bool
}.

(** [_redact], with its default [keep_start=6], [keep_end=4]. *)
Definition _redact (v : string) : string :=
  if (String.length v <=? 6 + 4)%nat then "***"
  else take 6 v ++ "..." ++ take_last 4 v.

Definition note_api_key : string :=
  "Note: using `api_key` from .secrets.toml as `totp_token` (rename it to `totp_token` to remove this message).".

Definition note_secret : string :=
  "Note: using `secret` from .secrets.toml as `totp_secret` (rename it to `totp_secret` to remove this message).".

Definition note_fallback : string :=
  "Note: `totp_secret` looks invalid; falling back to approval flow. "
  ++ "Fix `totp_secret` (Base32 from QR) or run with --flow totp --totp <6-digit>.".

Definition note_totp_cfg : string :=
  "Note: using `totp` from .secrets.toml; it expires quickly, prefer `totp_secret` or --totp.".

Definition invalid_secret : string :=
  "Invalid `totp_secret`: it must be the Base32 TOTP secret from the QR setup. "
  ++ "If you don't have that, remove/blank `totp_secret` and pass a 6-digit OTP using --totp.".

Section with_world.
Context (sdk : World.sdk) (lib : pylib) (cfg : config) (env : environ).

(** [_totp_now_from_secret] *)
Definition _totp_now_from_secret (totp_secret : string) : M string :=
  totp_now_or lib ValueError invalid_secret totp_secret.

(** The approval branch of [main]: [if not use_totp: ...]. *)
Definition approval_branch (approval_api_key approval_secret : option string)
  : M value :=
  if negb (given approval_api_key)
  then exit "Missing approval_api_key. Put it in .secrets.toml (recommended) or set GROWW_APPROVAL_API_KEY."
  else if negb (given approval_secret)
  then exit "Missing approval_secret. Put it in .secrets.toml (recommended) or set GROWW_APPROVAL_SECRET."
  else token_by_approval sdk (the approval_api_key) (the approval_secret).

(** The TOTP branch of [main]: [if use_totp: ...].  It answers with the
    final [use_totp] and [access_token_obj]. *)
Definition totp_branch (a : args)
  (legacy_api_key legacy_secret totp_token totp totp_secret totp_from_cfg
     : option string) : M (bool * value) :=
  totp_token ← (if negb (given totp_token) && given legacy_api_key
                then print note_api_key;; mret legacy_api_key
                else mret totp_token);
  if negb (given totp_token)
  then exit "Missing totp_token. Put it in .secrets.toml or set GROWW_TOTP_TOKEN."
  else
    totp_secret ← (if negb (given totp) && negb (given totp_secret)
                      && given legacy_secret
                   then print note_secret;; mret legacy_secret
                   else mret totp_secret);
    '(totp, use_totp) ←
      (if negb (given totp) && given totp_secret
       then try_except
              (code ← _totp_now_from_secret (the totp_secret);
               mret (Some code, true))
              is_ValueError
              (fun e =>
                 if flow_eqb (arg_flow a) Auto
                 then print note_fallback;; mret (totp, false)
                 else exit (msg e))
       else mret (totp, true));
    totp ← (if use_totp && negb (given totp) && given totp_from_cfg
            then print note_totp_cfg;; mret totp_from_cfg
            else mret totp);
    if use_totp && negb (given totp)
    then exit ("Missing totp/totp_secret. Put `totp_secret` in .secrets.toml (recommended) "
               ++ "or set GROWW_TOTP_SECRET, or paste a one-time `totp` / set GROWW_TOTP.")
    else if use_totp
    then access_token_obj ← token_by_totp sdk (the totp_token) (the totp);
         mret (true, access_token_obj)
    else mret (false, PNone).

(** [main] *)
Definition main (a : args) : M Z :=
  let legacy_api_key := _first [cfg !! "api_key"; env !! "GROWW_API_KEY"] in
  let legacy_secret := _first [cfg !! "secret"; env !! "GROWW_API_SECRET"] in
  let approval_api_key :=
    _first [cfg !! "approval_api_key"; legacy_api_key;
            env !! "GROWW_APPROVAL_API_KEY"] in
  let approval_secret :=
    _first [cfg !! "approval_secret"; legacy_secret;
            env !! "GROWW_APPROVAL_SECRET"] in
  let totp_token :=
    _first [arg_totp_token a; cfg !! "totp_token";
            env !! "GROWW_TOTP_TOKEN"] in
  let totp_from_env := _first [env !! "GROWW_TOTP"] in
  let totp_from_cfg := _first [cfg !! "totp"] in
  let totp := _first [arg_totp a; totp_from_env] in
  let totp_secret :=
    _first [cfg !! "totp_secret"; env !! "GROWW_TOTP_SECRET"] in
  let use_totp :=
    flow_eqb (arg_flow a) Totp
    || (flow_eqb (arg_flow a) Auto && given totp_token
        && (given totp || given totp_secret)) in
  '(use_totp, access_token_obj) ←
    (if use_totp
     then totp_branch a legacy_api_key legacy_secret totp_token totp
            totp_secret totp_from_cfg
     else mret (false, PNone));
  access_token_obj ←
    (if negb use_totp
     then approval_branch approval_api_key approval_secret
     else mret access_token_obj);
  let access_token := _normalize_access_token lib access_token_obj in
  if negb (nonempty access_token)
  then exit "Got an empty access token back from the API; double-check your credentials and approvals."
  else
    new_api sdk (PStr access_token);;
    (if arg_save_token a
     then emit (EWrite ".access_token" (strip access_token ++ nl))
     else mret tt);;
    (if arg_print_token a
     then print access_token
     else print ("Access token: " ++ _redact access_token));;
    mret 0%Z.

End with_world.

End Auth.

(** ** groww_smoketest.py: the smoke test *)

Module Smoke.
Import Py Run World Common.

Section with_world.
Context (sdk : World.sdk) (lib : pylib) (cfg : config).

(** [_totp_now_from_secret] *)
Definition _totp_now_from_secret (totp_secret : string) : M string :=
  totp_now_or lib ValueError Auth.invalid_secret totp_secret.

(** [_get_access_token(flow=, totp_override=)], in the environment
    [env]. *)
Definition _get_access_token (env : environ) (flow : Common.flow)
  (totp_override : option string) : M string :=
  let legacy_api_key := _first [cfg !! "api_key"; env !! "GROWW_API_KEY"] in
  let legacy_secret := _first [cfg !! "secret"; env !! "GROWW_API_SECRET"] in
  let approval_api_key :=
    _first [cfg !! "approval_api_key"; legacy_api_key;
            env !! "GROWW_APPROVAL_API_KEY"] in
  let approval_secret :=
    _first [cfg !! "approval_secret"; legacy_secret;
            env !! "GROWW_APPROVAL_SECRET"] in
  let totp_token := _first [cfg !! "totp_token"; env !! "GROWW_TOTP_TOKEN"] in
  let totp_from_env := _first [env !! "GROWW_TOTP"] in
  let totp_from_cfg := _first [cfg !! "totp"] in
  let totp := _first [totp_override; totp_from_env] in
  let totp_secret :=
    _first [cfg !! "totp_secret"; env !! "GROWW_TOTP_SECRET"] in
  let use_totp :=
    flow_eqb flow Totp
    || (flow_eqb flow Auto && given totp_token
        && (given totp || given totp_secret)) in
  '(use_totp, token_obj) ←
    (if use_totp
     then
       totp_token ← (if negb (given totp_token) && given legacy_api_key
                     then print Auth.note_api_key;; mret legacy_api_key
                     else mret totp_token);
       if negb (given totp_token)
       then exit "Missing totp_token. Add it to .secrets.toml or set GROWW_TOTP_TOKEN."
       else
         totp_secret ← (if negb (given totp) && negb (given totp_secret)
                        then if given legacy_secret
                             then print Auth.note_secret;; mret legacy_secret
                             else mret None
                        else mret totp_secret);
         '(totp, use_totp) ←
           (if negb (given totp) && given totp_secret
            then try_except
                   (code ← _totp_now_from_secret (the totp_secret);
                    mret (Some code, true))
                   is_ValueError
                   (fun e =>
                      if flow_eqb flow Auto
                      then print Auth.note_fallback;; mret (totp, false)
                      else exit (msg e))
            else mret (totp, true));
         totp ← (if use_totp && negb (given totp) && given totp_from_cfg
                 then print Auth.note_totp_cfg;; mret totp_from_cfg
                 else mret totp);
         if use_totp && negb (given totp)
         then exit "Missing totp/totp_secret. Add totp_secret to .secrets.toml, or pass --totp, or set GROWW_TOTP."
         else if use_totp
         then token_obj ← token_by_totp sdk (the totp_token) (the totp);
              mret (true, token_obj)
         else mret (false, PNone)
     else mret (false, PNone));
  token_obj ←
    (if negb use_totp
     then
       if negb (given approval_api_key) || negb (given approval_secret)
       then exit ("Missing approval credentials. Add approval_api_key + approval_secret to .secrets.toml "
                  ++ "(or api_key + secret), or set GROWW_APPROVAL_API_KEY/GROWW_APPROVAL_SECRET.")
       else token_by_approval sdk (the approval_api_key) (the approval_secret)
     else mret token_obj);
  mret (_normalize_token lib token_obj).

(** The authentication of [main]: [--totp-token] is written into the
    environment, then the token is fetched and the client built.  (The
    two read-only calls and the summary lines that follow are not
    modelled.) *)
Definition main_connect (env : environ) (flow : Common.flow)
  (totp_token totp : option string) : M value :=
  let env : environ :=
    if given totp_token then <["GROWW_TOTP_TOKEN" := the totp_token]> env
    else env in
  access_token ← _get_access_token env flow totp;
  new_api sdk (PStr access_token).

(** [_safe_summary]: the keys of a dict, the length of a list, the name
    of the type of anything else. *)
Definition _safe_summary (v : value) : string :=
  match v with
  | PDict d =>
      let keys := sorted str_leb (keys d) in
      "dict(keys=" ++ repr lib (PList (map PStr (firstn 12 keys)))
      ++ (if (12 <? length keys)%nat then "..." else "") ++ ")"
  | PList l => "list(len=" ++ str_of_Z (Z.of_nat (length l)) ++ ")"
  | _ => type_name v
  end.

(** [main], with [--timeout]. *)
Definition main (env : environ) (flow : Common.flow)
  (totp_token totp : option string) (timeout : Z) : M Z :=
  groww ← main_connect env flow totp_token totp;
  profile ← call sdk groww "get_user_profile" [] [("timeout", PInt timeout)];
  holdings ← call sdk groww "get_holdings_for_user" []
               [("timeout", PInt timeout)];
  print "Smoke test OK (no orders placed).";;
  print ("get_user_profile: " ++ _safe_summary profile);;
  print ("get_holdings_for_user: " ++ _safe_summary holdings);;
  mret 0%Z.

End with_world.

End Smoke.

(** ** groww_cli.py: the interactive CLI *)

Module Cli.
Import Py Run World Common.

(** The parsed command line (the options the modelled paths read). *)
Record args : Type := mkArgs {
  arg_flow : flow;
  arg_approval_api_key : option string;
  arg_approval_secret : option string;
  arg_totp_token : option string;
  arg_totp : option string;
  arg_call : option string;
  arg_args : option string;
  arg_kwargs : option string;
  arg_instrument_search : option string;
  arg_exchange : option string;
  arg_segment : option string;
  arg_limit : Z
}.

Definition trading_methods : list string :=
  ["place_order"; "modify_order"; "cancel_order";
   "create_smart_order"; "modify_smart_order"; "cancel_smart_order"].

(** [name in trading_methods] *)
Definition is_trading (name : string) : bool :=
  existsb (String.eqb name) trading_methods.

(** [_confirm_if_trading] *)
Definition _confirm_if_trading (method_name : string) : M unit :=
  if is_trading method_name
  then
    line ← input "Trading action requested. Type PLACE to continue: ";
    let confirm := strip line in
    if negb (String.eqb confirm "PLACE") then exit "Aborted."
    else mret tt
  else mret tt.

(** The [while True] loop of [_choose_flow]: every round reads one line,
    so one round more than there are lines left always suffices (the
    last one ends in [EOFError]). *)
Fixpoint choose_loop (rounds : nat) : M flow :=
  match rounds with
  | O => raise (mkExn EOFError "EOF when reading a line")
  | S n =>
      line ← input "Choose flow: [1] approval (api_key+secret), [2] totp: ";
      let choice := strip line in
      if String.eqb choice "1" || String.eqb choice "approval"
      then mret Approval
      else if String.eqb choice "2" || String.eqb choice "totp"
      then mret Totp
      else print "Please enter 1 or 2.";; choose_loop n
  end.

(** [_choose_flow] *)
Definition _choose_flow (available_approval available_totp : bool) : M flow :=
  if available_approval then mret Approval
  else if available_totp then mret Totp
  else fun st => choose_loop (S (length (stdin st))) st.

(** [_search_instruments] *)
Definition _search_instruments (lib : pylib) (df : Pandas.DataFrame)
  (query : string) (exchange segment : option string) (limit : Z)
  : res Pandas.DataFrame :=
  let q := lower (strip query) in
  if negb (nonempty q) then Ok (Pandas.head 0 df)
  else
    match (if given exchange
           then Gradio.filter_upper "exchange" (the exchange) df
           else Ok df) with
    | Err e => Err e
    | Ok filtered =>
        match (if given segment
               then Gradio.filter_upper "segment" (the segment) filtered
               else Ok filtered) with
        | Err e => Err e
        | Ok filtered =>
            match Gradio.build_mask lib q filtered
                    ["trading_symbol"; "groww_symbol"; "name"; "isin";
                     "exchange_token"; "underlying_symbol"] None with
            | Err e => Err e
            | Ok None => Ok (Pandas.head 0 filtered)
            | Ok (Some mask) =>
                Ok (Pandas.head limit (Pandas.select mask filtered))
            end
        end
    end.

Section with_world.
Context (sdk : World.sdk) (lib : pylib) (cfg : config) (env : environ).

(** [_totp_now_from_secret]: here the library error ends the program. *)
Definition _totp_now_from_secret (totp_secret : string) : M string :=
  totp_now_or lib SystemExit
    ("Invalid TOTP secret: it must be Base32 from the QR setup. "
     ++ "If you don't have it, paste the 6-digit OTP when prompted.")
    totp_secret.

(** [_print_response] *)
Definition _print_response (v : value) : M unit :=
  match json_dumps lib v with
  | Some text => print text
  | None => print (py_str lib v)
  end.

(** [_parse_json(value, default=)] *)
Definition _parse_json (v : option string) (default : value) : M value :=
  if negb (given v) then mret default
  else match json_loads lib (the v) with
       | JsonOk x => mret x
       | JsonError m pos =>
           exit ("Invalid JSON: " ++ m ++ " at pos " ++ str_of_Z pos)
       end.

(** [_print_instrument_rows] *)
Definition _print_instrument_rows (df : Pandas.DataFrame) : M unit :=
  match Pandas.rows df with
  | [] => print "No instruments found."
  | _ =>
      let cols := List.filter (Pandas.has_column df)
                    ["exchange"; "segment"; "trading_symbol"; "groww_symbol";
                     "name"; "isin"; "exchange_token"; "instrument_type"] in
      print (df_to_string lib (Pandas.project cols df))
  end.

(** [_get_access_token]: it answers with what
    [GrowwAPI.get_access_token] returned. *)
Definition _get_access_token (a : args) : M value :=
  let approval_api_key :=
    _first [arg_approval_api_key a; cfg !! "approval_api_key";
            cfg !! "api_key"; env !! "GROWW_APPROVAL_API_KEY";
            env !! "GROWW_API_KEY"] in
  let approval_secret :=
    _first [arg_approval_secret a; cfg !! "approval_secret";
            cfg !! "secret"; env !! "GROWW_APPROVAL_SECRET";
            env !! "GROWW_API_SECRET"] in
  let totp_token :=
    _first [arg_totp_token a; cfg !! "totp_token";
            env !! "GROWW_TOTP_TOKEN"] in
  let totp_secret :=
    _first [cfg !! "totp_secret"; env !! "GROWW_TOTP_SECRET"] in
  let totp := _first [arg_totp a; env !! "GROWW_TOTP"] in
  let available_approval := given approval_api_key && given approval_secret in
  let available_totp :=
    given totp_token && (given totp || given totp_secret) in
  flow ← (match arg_flow a with
          | Auto => _choose_flow available_approval available_totp
          | f => mret f
          end);
  match flow with
  | Approval =>
      approval_api_key ← (if negb (given approval_api_key)
                          then getpass "approval api_key: "
                          else mret (the approval_api_key));
      approval_secret ← (if negb (given approval_secret)
                         then getpass "approval secret: "
                         else mret (the approval_secret));
      token_by_approval sdk approval_api_key approval_secret
  | _ =>
      totp_token ← (if negb (given totp_token)
                    then getpass "totp_token (TOTP API key): "
                    else mret (the totp_token));
      totp ← (if negb (given totp) && given totp_secret
              then code ← _totp_now_from_secret (the totp_secret);
                   mret (Some code)
              else mret totp);
      totp ← (if negb (given totp)
              then getpass "current 6-digit OTP: "
              else mret (the totp));
      token_by_totp sdk totp_token totp
  end.

(** The [if args.call:] block of [main], on the client [groww]. *)
Definition call_block (a : args) (groww : value) : M Z :=
  let method_name := strip (the (arg_call a)) in
  match (if startswith "_" method_name then Missing
         else attribute sdk method_name) with
  | Missing => exit ("Unknown method: " ++ method_name)
  | NotCallable => exit ("Attribute is not callable: " ++ method_name)
  | Method =>
      _confirm_if_trading method_name;;
      call_args ← _parse_json (arg_args a) (PList []);
      call_kwargs ← _parse_json (arg_kwargs a) (PDict []);
      match call_args with
      | PList call_args =>
          match call_kwargs with
          | PDict call_kwargs =>
              result ← call sdk groww method_name call_args call_kwargs;
              _print_response result;;
              mret 0%Z
          | _ => exit "--kwargs must be a JSON object"
          end
      | _ => exit "--args must be a JSON array"
      end
  end.

(** [main] when [--call] is given, and none of [--list-methods],
    [--instrument-search] and [--repl]: authentication, the client,
    then the call block. *)
Definition main_call (a : args) : M Z :=
  access_token ← _get_access_token a;
  groww ← new_api sdk access_token;
  call_block a groww.

(** [main] when [--instrument-search] is given (and [--list-methods] is
    not). *)
Definition main_instrument_search (a : args) : M Z :=
  access_token ← _get_access_token a;
  groww ← new_api sdk access_token;
  emit (EInstruments groww);;
  df ← of_outcome (all_instruments sdk groww);
  result ← lift (_search_instruments lib df (the (arg_instrument_search a))
                   (arg_exchange a) (arg_segment a) (arg_limit a));
  _print_instrument_rows result;;
  mret 0%Z.

End with_world.

(** *** Holdings *)

(** [[v for v in items if isinstance(v, dict)]] *)
Definition dicts_of (items : list value) : list dict :=
  omap (fun v => match v with PDict d => Some d | _ => None end) items.

(** [_extract_holdings] *)
Definition _extract_holdings (v : value) : list dict :=
  match v with
  | PList l => dicts_of l
  | PDict d =>
      (fix scan (ks : list string) : list dict :=
         match ks with
         | [] => []
         | key :: r =>
             match get d key with
             | PList items => dicts_of items
             | _ => scan r
             end
         end) ["holdings"; "data"; "items"]
  | _ => []
  end.

(** The fields [_holding_matches] looks into. *)
Definition holding_fields : list string :=
  ["tradingSymbol"; "trading_symbol"; "symbol"; "companyName";
   "company_name"; "isin"; "instrumentToken"; "instrument_token"].

(** The symbol fields, in the order [_holding_symbol_candidates] tries
    them. *)
Definition symbol_fields : list string :=
  ["tradingSymbol"; "trading_symbol"; "symbol"].

(** A public method of the SDK class as [inspect] shows it: its name,
    [str(inspect.signature(fn))] and [inspect.getdoc(fn)]. *)
Record member : Type := mkMember {
  m_name : string;
  m_sig : string;
  m_doc : option string
}.

(** [(name, sig, doc_line)] tuples compare field by field. *)
Definition entry_leb (a b : string * string * string) : bool :=
  let '(n1, s1, d1) := a in
  let '(n2, s2, d2) := b in
  match String.compare n1 n2 with
  | Lt => true
  | Gt => false
  | Eq => match String.compare s1 s2 with
          | Lt => true
          | Gt => false
          | Eq => str_leb d1 d2
          end
  end.

(** The loop of [_list_api_methods] that collects the public methods. *)
Fixpoint method_entries (members : list member)
  : list (string * string * string) :=
  match members with
  | [] => []
  | m :: r =>
      if startswith "_" (m_name m) then method_entries r
      else
        let doc := default EmptyString (m_doc m) in
        let doc_line := if nonempty doc then first_line doc
                        else EmptyString in
        (m_name m, m_sig m, doc_line) :: method_entries r
  end.

(** The line printed for one method. *)
Definition method_line (e : string * string * string) : string :=
  let '(name, sig, doc_line) := e in
  if nonempty doc_line then name ++ sig ++ " - " ++ doc_line
  else name ++ sig.

(** [limit = int(limit_raw) if limit_raw.isdigit() else 25] *)
Definition menu_limit (limit_raw : string) : Z :=
  if isdigit limit_raw then int_of_digits limit_raw else 25%Z.

(** [x or default] on a string. *)
Definition or_default (x default : string) : string :=
  if nonempty x then x else default.

(** [x or None] on a string, as an optional argument. *)
Definition or_none (x : string) : option string :=
  if nonempty x then Some x else None.

(** The symbols of menu entry 5: the loop over the non-blank
    comma-separated parts. *)
Definition menu_symbols (raw exchange : string) : list value :=
  (fix loop (parts : list string) (symbols : list value) : list value :=
     match parts with
     | [] => symbols
     | part :: r =>
         if negb (nonempty (strip part)) then loop r symbols
         else
           let s := upper (strip part) in
           if contains ":" s || contains "_" s
           then loop r (symbols ++ [PStr s])%list
           else loop r (symbols ++ [PStr (exchange ++ "_" ++ s)%string])%list
     end) (Gradio.split_comma raw) [].

Definition menu_text : string :=
  nl ++ "Choose an action:" ++ nl
  ++ "  1) get_user_profile" ++ nl
  ++ "  2) get_holdings_for_user" ++ nl
  ++ "  3) get_positions_for_user" ++ nl
  ++ "  4) get_quote" ++ nl
  ++ "  5) get_ltp" ++ nl
  ++ "  6) get_holding_detail" ++ nl
  ++ "  7) list_api_methods" ++ nl
  ++ "  8) search_instruments" ++ nl
  ++ "  q) quit" ++ nl.

Section menu.
Context (sdk : World.sdk) (lib : pylib).
(** [json.dumps(item, default=str)] and the members of the SDK class
    that [inspect.getmembers] lists. *)
Context (dumps : value -> string) (members : list member).

(** [_holding_matches] *)
Definition _holding_matches (item : dict) (query : string) : bool :=
  let q := lower query in
  (fix scan (ks : list string) : bool :=
     match ks with
     | [] => contains q (lower (dumps (PDict item)))
     | key :: r =>
         let value := get item key in
         if truthy value && contains q (lower (py_str lib value)) then true
         else scan r
     end) holding_fields.

(** The inner loop of [_holding_symbol_candidates]: the first symbol
    field of [item] that has a value. *)
Definition holding_symbol (item : dict) : option string :=
  (fix scan (ks : list string) : option string :=
     match ks with
     | [] => None
     | key :: r =>
         let value := get item key in
         if truthy value then Some (upper (py_str lib value)) else scan r
     end) symbol_fields.

(** [set(symbols)] followed by [sorted]: the distinct symbols, in
    order. *)
Fixpoint distinct_sorted (l : list string) : list string :=
  match l with
  | [] => []
  | x :: r =>
      let rest := distinct_sorted r in
      if existsb (String.eqb x) rest then rest
      else insert_sorted str_leb x rest
  end.

(** [_holding_symbol_candidates] *)
Definition _holding_symbol_candidates (items : list dict) : list string :=
  distinct_sorted (omap holding_symbol items).

(** [_list_api_methods] *)
Definition _list_api_methods : M unit :=
  (fix out (es : list (string * string * string)) : M unit :=
     match es with
     | [] => mret tt
     | e :: r => print (method_line e);; out r
     end) (sorted entry_leb (method_entries members)).

(** One entry of the menu, [choice] being none of the words that
    quit. *)
Definition menu_entry (groww : value) (choice : string) : M unit :=
  if String.eqb choice "1" then
    r ← call sdk groww "get_user_profile" [] [("timeout", PInt 10)];
    _print_response lib r
  else if String.eqb choice "2" then
    r ← call sdk groww "get_holdings_for_user" [] [("timeout", PInt 10)];
    _print_response lib r
  else if String.eqb choice "3" then
    line ← input "segment (blank for all): ";
    let segment := Gradio.str_or_none (upper (strip line)) in
    r ← call sdk groww "get_positions_for_user" []
          [("segment", segment); ("timeout", PInt 10)];
    _print_response lib r
  else if String.eqb choice "4" then
    line ← input "trading_symbol (e.g. WIPRO): ";
    let symbol := upper (strip line) in
    line ← input "exchange [NSE/BSE] (default NSE): ";
    let exchange := or_default (upper (strip line)) "NSE" in
    line ← input "segment [CASH/FNO] (default CASH): ";
    let segment := or_default (upper (strip line)) "CASH" in
    r ← call sdk groww "get_quote" []
          [("trading_symbol", PStr symbol); ("exchange", PStr exchange);
           ("segment", PStr segment); ("timeout", PInt 10)];
    _print_response lib r
  else if String.eqb choice "5" then
    line ← input "symbols comma-separated (e.g. WIPRO,RELIANCE): ";
    let raw := strip line in
    line ← input "exchange [NSE/BSE] (default NSE): ";
    let exchange := or_default (upper (strip line)) "NSE" in
    line ← input "segment [CASH/FNO] (default CASH): ";
    let segment := or_default (upper (strip line)) "CASH" in
    r ← call sdk groww "get_ltp"
          [PTuple (menu_symbols raw exchange); PStr segment]
          [("timeout", PInt 10)];
    _print_response lib r
  else if String.eqb choice "6" then
    line ← input "holding symbol / ISIN / name (partial ok): ";
    let query := strip line in
    holdings ← call sdk groww "get_holdings_for_user" []
                 [("timeout", PInt 10)];
    let items := _extract_holdings holdings in
    let matches := List.filter (fun item => _holding_matches item query)
                     items in
    match matches with
    | [] =>
        print "No match found.";;
        print "Note: holdings only include stocks you own. Use get_quote/get_ltp for other symbols."
    | [item] => _print_response lib (PDict item)
    | _ => _print_response lib (PList (map PDict matches))
    end
  else if String.eqb choice "7" then _list_api_methods
  else if String.eqb choice "8" then
    line ← input "search (name/symbol/isin): ";
    let query := strip line in
    line ← input "exchange filter (blank for any): ";
    let exchange := or_none (upper (strip line)) in
    line ← input "segment filter (blank for any): ";
    let segment := or_none (upper (strip line)) in
    line ← input "max results (default 25): ";
    let limit := menu_limit (strip line) in
    emit (EInstruments groww);;
    df ← of_outcome (all_instruments sdk groww);
    result ← lift (_search_instruments lib df query exchange segment limit);
    _print_instrument_rows lib result
  else print "Invalid choice.".

(** The [while True] loop of the menu: every round reads at least one
    line, so one round more than there are lines left always suffices. *)
Fixpoint menu_loop (rounds : nat) (groww : value) : M Z :=
  match rounds with
  | O => raise (mkExn EOFError "EOF when reading a line")
  | S n =>
      print menu_text;;
      line ← input "> ";
      let choice := lower (strip line) in
      if String.eqb choice "q" || String.eqb choice "quit"
         || String.eqb choice "exit"
      then mret 0%Z
      else menu_entry groww choice;; menu_loop n groww
  end.

(** The menu of [main], on the client [groww]. *)
Definition menu (groww : value) : M Z :=
  fun st => menu_loop (S (length (stdin st))) groww st.

(** [main] with [--list-methods]. *)
Definition main_list_methods : M Z :=
  _list_api_methods;; mret 0%Z.

End menu.

Section entry.
Context (sdk : World.sdk) (lib : pylib) (cfg : config) (env : environ).
Context (dumps : value -> string) (members : list member).

(** [main] when none of [--list-methods], [--instrument-search],
    [--repl] and [--call] is given: authentication, the client, then
    the menu. *)
Definition main_menu (a : args) : M Z :=
  access_token ← _get_access_token sdk lib cfg env a;
  groww ← new_api sdk access_token;
  menu sdk lib dumps members groww.

End entry.

End Cli.

(** ** The specification's words

    Definitions that follow the wording of the specification, to be
    compared with what the code computes. *)

Module Spec.
Import Py.

Fixpoint distinct (ks : list string) : bool :=
  match ks with
  | [] => true
  | k :: r => negb (existsb (String.eqb k) r) && distinct r
  end.

(** A JSON-like value: nested dicts, lists and scalars (no tuples), the
    keys of every dict distinct. *)
Fixpoint json_like (v : value) : bool :=
  match v with
  | PTuple _ => false
  | PList l => forallb json_like l
  | PDict d => distinct (keys d) && forallb (fun kv => json_like (snd kv)) d
  | _ => true
  end.

Definition not_null (v : value) : bool := negb (is_none v).

(** No null at any nesting depth: no list element and no dict entry,
    however deep, is [None]. *)
Fixpoint null_free (v : value) : bool :=
  match v with
  | PList l | PTuple l => forallb (fun x => not_null x && null_free x) l
  | PDict d =>
      forallb (fun kv => not_null (snd kv) && null_free (snd kv)) d
  | _ => true
  end.

(** [pruned v w]: [w] is [v] with the null entries dropped and nothing
    else changed.  The elements of a list are its non-null elements, in
    their order, each pruned; the entries of a dict are its non-null
    entries under their keys, each pruned; anything else is itself. *)
Inductive pruned : value -> value -> Prop :=
| pruned_scalar (v : value) :
    is_list v = false -> is_dict v = false -> pruned v v
| pruned_list (l l' : list value) :
    Forall2 pruned (List.filter (fun x => not_null x) l) l' ->
    pruned (PList l) (PList l')
| pruned_dict (d d' : list (string * value)) :
    Forall2 (fun kv kv' => fst kv = fst kv' /\ pruned (snd kv) (snd kv'))
            (List.filter (fun kv => not_null (snd kv)) d) d' ->
    pruned (PDict d) (PDict d').





(** A source that can be used: present, and not blank; what is used is
    its stripped text. *)
Definition usable (source : option string) : option string :=
  match source with
  | Some v => if Py.nonempty (Py.strip v) then Some (Py.strip v) else None
  | None => None
  end.

(** The first non-empty value of the sources, in their order. *)
Definition first_given (sources : list (option string)) : option string :=
  List.hd None
    (List.filter (fun o => match o with Some _ => true | None => false end)
                 (map usable sources)).

(** [a], and failing it [b]. *)
Definition or_else (a b : option string) : option string :=
  if Common.given a then a else b.

(** The code derived from a secret, when there is a secret, the library
    accepts it, and the code it shows is not empty. *)
Definition derived (lib : World.pylib) (secret : option string)
  : option string :=
  if Common.given secret
  then match World.totp_now lib (Common.the secret) with
       | Some code => if Py.nonempty code then Some code else None
       | None => None
       end
  else None.

(** The code a secret shows, empty or not. *)
Definition shown (lib : World.pylib) (secret : option string)
  : option string :=
  if Common.given secret then World.totp_now lib (Common.the secret)
  else None.

(** *** The order of the sources, credential by credential

    [override] is the value of the command line or of the form. *)

(** The interactive CLI: the order of the specification, with the
    generic environment variable after the one of the flow. *)
Definition cli_approval_api_key (cfg : Common.config) (env : Common.environ)
  (override : option string) : option string :=
  first_given [override; cfg !! "approval_api_key"; cfg !! "api_key";
               env !! "GROWW_APPROVAL_API_KEY"; env !! "GROWW_API_KEY"].

Definition cli_approval_secret (cfg : Common.config) (env : Common.environ)
  (override : option string) : option string :=
  first_given [override; cfg !! "approval_secret"; cfg !! "secret";
               env !! "GROWW_APPROVAL_SECRET"; env !! "GROWW_API_SECRET"].

Definition cli_totp_token (cfg : Common.config) (env : Common.environ)
  (override : option string) : option string :=
  first_given [override; cfg !! "totp_token"; env !! "GROWW_TOTP_TOKEN"].

Definition cli_totp_secret (cfg : Common.config) (env : Common.environ)
  : option string :=
  first_given [cfg !! "totp_secret"; env !! "GROWW_TOTP_SECRET"].

(** The one-time code: typed or exported, and failing that derived. *)
Definition cli_code (lib : World.pylib) (cfg : Common.config)
  (env : Common.environ) (override : option string) : option string :=
  or_else (first_given [override; env !! "GROWW_TOTP"])
          (derived lib (cli_totp_secret cfg env)).

(** The web form: the order of the specification; it reads neither the
    environment nor a prompt, and it sends the code its secret shows as
    it is. *)
Definition web_approval_api_key (cfg : Common.config) (form : string)
  : option string :=
  first_given [Some form; cfg !! "approval_api_key"; cfg !! "api_key"].

Definition web_approval_secret (cfg : Common.config) (form : string)
  : option string :=
  first_given [Some form; cfg !! "approval_secret"; cfg !! "secret"].

Definition web_totp_token (cfg : Common.config) (form : string)
  : option string :=
  first_given [Some form; cfg !! "totp_token"].

Definition web_totp_secret (cfg : Common.config) (form : string)
  : option string :=
  first_given [Some form; cfg !! "totp_secret"].

Definition web_code (lib : World.pylib) (cfg : Common.config)
  (form_totp form_secret : string) : option string :=
  or_else (first_given [Some form_totp; cfg !! "totp"])
          (shown lib (web_totp_secret cfg form_secret)).

(** The authenticator.  The approval pair: the generic environment
    variable comes before the one of the flow.  The TOTP flow: the
    legacy names come last, after the environment. *)
Definition auth_approval_api_key (cfg : Common.config)
  (env : Common.environ) : option string :=
  first_given [cfg !! "approval_api_key"; cfg !! "api_key";
               env !! "GROWW_API_KEY"; env !! "GROWW_APPROVAL_API_KEY"].

Definition auth_approval_secret (cfg : Common.config)
  (env : Common.environ) : option string :=
  first_given [cfg !! "approval_secret"; cfg !! "secret";
               env !! "GROWW_API_SECRET"; env !! "GROWW_APPROVAL_SECRET"].

Definition auth_totp_token (cfg : Common.config) (env : Common.environ)
  (override : option string) : option string :=
  first_given [override; cfg !! "totp_token"; env !! "GROWW_TOTP_TOKEN";
               cfg !! "api_key"; env !! "GROWW_API_KEY"].

Definition auth_totp_secret (cfg : Common.config) (env : Common.environ)
  : option string :=
  first_given [cfg !! "totp_secret"; env !! "GROWW_TOTP_SECRET";
               cfg !! "secret"; env !! "GROWW_API_SECRET"].

(** The one-time code: typed or exported, failing that derived, and
    only then the [totp] of the secrets file. *)
Definition auth_code (lib : World.pylib) (cfg : Common.config)
  (env : Common.environ) (override : option string) : option string :=
  or_else (first_given [override; env !! "GROWW_TOTP"])
          (or_else (derived lib (auth_totp_secret cfg env))
                   (first_given [cfg !! "totp"])).

(** The order the specification states, for a credential with all four
    kinds of source. *)
Definition stated_order
  (override flow_key legacy_key flow_env : option string) : option string :=
  first_given [override; flow_key; legacy_key; flow_env].

End Spec.

(** ** Observations on runs *)

Module Obs.
Import Py Run World.

(** The events of a run never disappear: a computation only appends. *)
Definition extends (st st' : state) : Prop :=
  exists evs, trace st' = (trace st ++ evs)%list.

(** A computation whose exceptions are all [Exception]s: none of them
    gets past [except Exception]. *)
Definition catchable {A} (m : M A) : Prop :=
  forall st e st', m st = (Err e, st') -> is_Exception e = true.

(** The same for an outcome that is not a computation. *)
Definition catchable_res {A} (r : res A) : Prop :=
  match r with
  | Ok _ => True
  | Err e => is_Exception e = true
  end.

(** A computation that always returns. *)
Definition total {A} (m : M A) : Prop :=
  forall st, exists a st', m st = (Ok a, st').

(** The handler of a [CallMethod] request looks at the method name
    before it tries anything. *)
Definition name_given (r : Gradio.request) : bool :=
  match r with
  | Gradio.CallMethod method_name _ _ _ => Py.nonempty (Py.strip method_name)
  | _ => true
  end.

(** Every event a computation adds satisfies [P]. *)
Definition emits_only (P : event -> bool) {A} (m : M A) : Prop :=
  forall st r st',
    m st = (r, st') ->
    exists evs, trace st' = (trace st ++ evs)%list /\ forallb P evs = true.








(** [st] after [line] has been printed. *)
Definition noting (line : string) (st : state) : state :=
  mkState (stdin st) (trace st ++ [EPrint line])%list
          (instrument_cache st) (feed_cache st).

(** [st] after each of [lines] has been printed. *)
Definition noting_all (lines : list string) (st : state) : state :=
  mkState (stdin st) (trace st ++ map EPrint lines)%list
          (instrument_cache st) (feed_cache st).

(** The command line [a] with another [--flow]. *)
Definition with_flow (f : Common.flow) (a : Auth.args) : Auth.args :=
  Auth.mkArgs f (Auth.arg_totp a) (Auth.arg_totp_token a)
              (Auth.arg_print_token a) (Auth.arg_save_token a).

(** What the authenticator and the smoke test read their credentials
    from: the expressions of their first lines, by name.  [override] is
    the command-line value. *)
Definition legacy_api_key (cfg : Common.config) (env : Common.environ)
  : option string :=
  Common._first [cfg !! "api_key"; env !! "GROWW_API_KEY"].

Definition legacy_secret (cfg : Common.config) (env : Common.environ)
  : option string :=
  Common._first [cfg !! "secret"; env !! "GROWW_API_SECRET"].

Definition approval_api_key (cfg : Common.config) (env : Common.environ)
  : option string :=
  Common._first [cfg !! "approval_api_key"; legacy_api_key cfg env;
                 env !! "GROWW_APPROVAL_API_KEY"].

Definition approval_secret (cfg : Common.config) (env : Common.environ)
  : option string :=
  Common._first [cfg !! "approval_secret"; legacy_secret cfg env;
                 env !! "GROWW_APPROVAL_SECRET"].

Definition totp_token (cfg : Common.config) (env : Common.environ)
  (override : option string) : option string :=
  Common._first [override; cfg !! "totp_token"; env !! "GROWW_TOTP_TOKEN"].

Definition totp (cfg : Common.config) (env : Common.environ)
  (override : option string) : option string :=
  Common._first [override; Common._first [env !! "GROWW_TOTP"]].

Definition totp_secret (cfg : Common.config) (env : Common.environ)
  : option string :=
  Common._first [cfg !! "totp_secret"; env !! "GROWW_TOTP_SECRET"].

Definition totp_from_cfg (cfg : Common.config) (env : Common.environ)
  : option string :=
  Common._first [cfg !! "totp"].

(** The token of the TOTP flow: its own sources, and failing them the
    legacy key. *)
Definition totp_token_used (cfg : Common.config) (env : Common.environ)
  (override : option string) : option string :=
  if Common.given (totp_token cfg env override)
  then totp_token cfg env override
  else legacy_api_key cfg env.

(** The secret a code is derived from: its own sources, and failing
    them the legacy secret. *)
Definition totp_secret_used (cfg : Common.config) (env : Common.environ)
  : option string :=
  if Common.given (totp_secret cfg env) then totp_secret cfg env
  else legacy_secret cfg env.

(** The notices printed on the way to the derivation of a code. *)
Definition legacy_notes (cfg : Common.config) (env : Common.environ)
  (override : option string) : list string :=
  ((if Common.given (totp_token cfg env override) then []
    else [Auth.note_api_key])
   ++ (if Common.given (totp_secret cfg env) then []
       else [Auth.note_secret]))%list.




(** Every event a computation adds satisfies [Q]. *)
Definition emits_all (Q : event -> Prop) {A} (m : M A) : Prop :=
  forall st r st',
    m st = (r, st') ->
    exists evs, trace st' = (trace st ++ evs)%list /\ Forall Q evs.

(** The credentials of a token request of the authenticator are the
    first non-empty values of their sources. *)
Definition auth_request_ok (lib : pylib) (cfg : Common.config)
  (env : Common.environ) (a : Auth.args) (ev : event) : Prop :=
  match ev with
  | ETokenApproval k s =>
      Spec.auth_approval_api_key cfg env = Some k
      /\ Spec.auth_approval_secret cfg env = Some s
  | ETokenTotp k o =>
      Spec.auth_totp_token cfg env (Auth.arg_totp_token a) = Some k
      /\ Spec.auth_code lib cfg env (Auth.arg_totp a) = Some o
  | _ => True
  end.

(** The same for the web form. *)
Definition web_request_ok (lib : pylib) (cfg : Common.config)
  (approval_api_key approval_secret totp_token totp_secret totp : string)
  (ev : event) : Prop :=
  match ev with
  | ETokenApproval k s =>
      Spec.web_approval_api_key cfg approval_api_key = Some k
      /\ Spec.web_approval_secret cfg approval_secret = Some s
  | ETokenTotp k o =>
      Spec.web_totp_token cfg totp_token = Some k
      /\ Spec.web_code lib cfg totp totp_secret = Some o
  | _ => True
  end.

(** [v] is [source] whenever [source] has a value. *)
Definition unless_typed (source : option string) (v : string) : Prop :=
  Common.given source = true -> source = Some v.

(** The interactive CLI: a credential of a token request is the first
    non-empty value of its sources when there is one, and a prompt
    appears for a credential only when there is none. *)
Definition cli_request_ok (lib : pylib) (cfg : Common.config)
  (env : Common.environ) (a : Cli.args) (ev : event) : Prop :=
  let K := Spec.cli_approval_api_key cfg env (Cli.arg_approval_api_key a) in
  let S := Spec.cli_approval_secret cfg env (Cli.arg_approval_secret a) in
  let T := Spec.cli_totp_token cfg env (Cli.arg_totp_token a) in
  let O := Spec.cli_code lib cfg env (Cli.arg_totp a) in
  match ev with
  | ETokenApproval k s => unless_typed K k /\ unless_typed S s
  | ETokenTotp k o => unless_typed T k /\ unless_typed O o
  | EGetpass prompt =>
      (prompt = "approval api_key: " -> Common.given K = false)
      /\ (prompt = "approval secret: " -> Common.given S = false)
      /\ (prompt = "totp_token (TOTP API key): " -> Common.given T = false)
      /\ (prompt = "current 6-digit OTP: " -> Common.given O = false)
  | _ => True
  end.

(** Neither a token request nor a prompt. *)
Definition no_request (ev : event) : bool :=
  match ev with
  | ETokenApproval _ _ | ETokenTotp _ _ | EGetpass _ => false
  | _ => true
  end.

(** A method call on the SDK client. *)
Definition is_call (ev : event) : bool :=
  match ev with
  | ECall _ _ _ _ => true
  | _ => false
  end.







(** The keyword arguments [get_quote] is called with. *)
Definition quote_kwargs (trading_symbol exchange segment : string) : dict :=
  [("trading_symbol", PStr (upper (strip trading_symbol)));
   ("exchange", PStr exchange); ("segment", PStr segment);
   ("timeout", PInt 10)].

(** A candle [_candles_to_rows] has a row for: a dict, a list or a
    tuple. *)
Definition row_shaped (candle : value) : bool :=
  match candle with
  | PDict _ | PList _ | PTuple _ => true
  | _ => false
  end.

(** The row of a table passes the filter on column [col]: its cell,
    upper-cased, is [x] upper-cased. *)
Definition passes (df : Pandas.DataFrame) (col : string)
  (x : option string) (row : list Pandas.cell) : Prop :=
  Common.given x = true ->
  exists i, Pandas.index_of col (Pandas.columns df) = Some i
    /\ Pandas.eq_cell (Pandas.str_upper (Pandas.cell_at i row))
         (Py.upper (Common.the x)) = true.

(** A source that gives nothing: absent, or blank. *)
Definition blank (source : option string) : Prop :=
  forall v, source = Some v -> nonempty (strip v) = false.

(** A symbol as the SDK takes it in a list of symbols: it names its
    exchange, or at least holds one of the separators. *)
Definition qualify (exchange sym : string) : string :=
  if contains ":" sym || contains "_" sym then sym
  else exchange ++ "_" ++ sym.

Definition qualified (s : string) : bool :=
  nonempty s && (contains ":" s || contains "_" s).

(** The symbols typed in a comma-separated field: the parts, stripped
    and upper-cased, the blank ones left out. *)
Definition typed_symbols (symbols : string) : list string :=
  List.filter nonempty
    (map (fun raw => upper (strip raw)) (Gradio.split_comma symbols)).

(** The six fields of a row of the candle table. *)
Definition row_fields : list string :=
  ["timestamp"; "open"; "high"; "low"; "close"; "volume"].

(** A request for the table of instruments. *)
Definition is_instruments (ev : event) : bool :=
  match ev with
  | EInstruments _ => true
  | _ => false
  end.

Definition not_instruments (ev : event) : bool := negb (is_instruments ev).

(** Not a call of a trading method on the client, by the list of the
    web UI. *)
Definition read_only_call (ev : event) : bool :=
  match ev with
  | ECall _ name _ _ => negb (Gradio.is_trading name)
  | _ => true
  end.

(** The same by the list of the CLI. *)
Definition cli_read_only_call (ev : event) : bool :=
  match ev with
  | ECall _ name _ _ => negb (Cli.is_trading name)
  | _ => true
  end.

Definition is_call_method (r : Gradio.request) : bool :=
  match r with
  | Gradio.CallMethod _ _ _ _ => true
  | _ => false
  end.

(** A request for an access token. *)
Definition is_token_request (ev : event) : bool :=
  match ev with
  | ETokenTotp _ _ | ETokenApproval _ _ => true
  | _ => false
  end.

Definition is_totp_request (ev : event) : bool :=
  match ev with
  | ETokenTotp _ _ => true
  | _ => false
  end.

Definition is_approval_request (ev : event) : bool :=
  match ev with
  | ETokenApproval _ _ => true
  | _ => false
  end.

(** The token requests among some events, in order. *)
Definition token_requests (evs : list event) : list event :=
  List.filter is_token_request evs.



(** The messages [search_instruments] answers with in place of a
    table. *)
Definition search_messages : list string :=
  ["Not connected"; "Enter a search term."; "No instruments found."].

(** Every run of [m] adds events that, with its result, satisfy [Q]. *)
Definition runs_with {A} (m : M A) (Q : res A -> list event -> Prop)
  : Prop :=
  forall st r st',
    m st = (r, st') ->
    exists evs, trace st' = (trace st ++ evs)%list /\ Q r evs.

(** The prompt of [_choose_flow], and what a line typed at it chooses,
    if anything. *)
Definition flow_prompt : string :=
  "Choose flow: [1] approval (api_key+secret), [2] totp: ".

Definition flow_choice (line : string) : option Common.flow :=
  let choice := strip line in
  if String.eqb choice "1" || String.eqb choice "approval"
  then Some Common.Approval
  else if String.eqb choice "2" || String.eqb choice "totp"
  then Some Common.Totp
  else None.

(** The events of [n] rounds of [_choose_flow] that chose nothing. *)
Definition retries (n : nat) : list event :=
  concat (repeat [EInput flow_prompt; EPrint "Please enter 1 or 2."] n).

(** [st] after the lines up to [rest] were read and [evs] added. *)
Definition after (rest : list string) (evs : list event) (st : state)
  : state :=
  mkState rest (trace st ++ evs)%list (instrument_cache st) (feed_cache st).

(** The method calls among some events, in order. *)
Definition calls (evs : list event) : list event := List.filter is_call evs.

(** The methods the menu of the CLI calls. *)
Definition menu_methods : list string :=
  ["get_user_profile"; "get_holdings_for_user"; "get_positions_for_user";
   "get_quote"; "get_ltp"].

(** What the menu does: it prints, prompts, fetches the table of
    instruments and calls one of its five methods, with a timeout of
    ten seconds. *)
Definition menu_event (ev : event) : bool :=
  match ev with
  | EPrint _ | EInput _ | EInstruments _ => true
  | ECall _ name _ kwargs =>
      existsb (String.eqb name) menu_methods
      && match get kwargs "timeout" with
         | PInt 10 => true
         | _ => false
         end
  | _ => false
  end.

(** A line typed at the menu that leaves it. *)
Definition quits (line : string) : bool :=
  let choice := lower (strip line) in
  String.eqb choice "q" || String.eqb choice "quit"
  || String.eqb choice "exit".

(** A computation only takes lines off the front of standard input. *)
Definition reads_only {A} (m : M A) : Prop :=
  forall st r st', m st = (r, st') ->
    exists pre, stdin st = (pre ++ stdin st')%list.

(** Every run of [m] takes lines [pre] off standard input and adds
    events [evs] that, with its result, satisfy [Q]. *)
Definition reads_with {A} (m : M A)
  (Q : res A -> list string -> list event -> Prop) : Prop :=
  forall st r st',
    m st = (r, st') ->
    exists pre evs,
      stdin st = (pre ++ stdin st')%list
      /\ trace st' = (trace st ++ evs)%list /\ Q r pre evs.

(** The members [_list_api_methods] lists, and the entry of one. *)
Definition public (m : Cli.member) : bool :=
  negb (startswith "_" (Cli.m_name m)).

Definition entry_of (m : Cli.member) : string * string * string :=
  (Cli.m_name m, Cli.m_sig m, first_line (default EmptyString (Cli.m_doc m))).

(** Non-decreasing for the order [leb]. *)
Definition ascending {A} (leb : A -> A -> bool) (l : list A) : Prop :=
  Sorted (fun a b => leb a b = true) l.

(** What signing in does: it prompts, prints, asks for a token and
    builds a client. *)
Definition sign_in_event (ev : event) : bool :=
  match ev with
  | EPrint _ | EInput _ | EGetpass _ | ETokenTotp _ _ | ETokenApproval _ _
  | EClient _ => true
  | _ => false
  end.


(** The method calls on the feed among some events, in order. *)
Definition is_feed_call (ev : event) : bool :=
  match ev with
  | EFeedCall _ _ _ => true
  | _ => false
  end.

Definition feed_calls (evs : list event) : list event :=
  List.filter is_feed_call evs.

(** The lookup of an instrument by its symbol. *)
Definition lookup_kwargs (exchange trading_symbol : string) : dict :=
  [("exchange", PStr exchange);
   ("trading_symbol", PStr (upper (strip trading_symbol)))].

(** The line the smoke test prints once both of its calls returned. *)
Definition smoke_ok : string := "Smoke test OK (no orders placed).".

(** What the authentication of a program does: it asks for a token,
    builds a client, prompts and prints, but not the line of the smoke
    test; it calls no method, builds no feed, fetches no table and
    writes no file. *)
Definition auth_event (ev : event) : bool :=
  match ev with
  | EPrint line => negb (String.eqb line smoke_ok)
  | ETokenTotp _ _ | ETokenApproval _ _ | EClient _ | EInput _
  | EGetpass _ => true
  | _ => false
  end.

(** The two calls of the smoke test, on the client [g]. *)
Definition smoke_calls (g : value) (timeout : Z) : list event :=
  [ECall g "get_user_profile" [] [("timeout", PInt timeout)];
   ECall g "get_holdings_for_user" [] [("timeout", PInt timeout)]].

(** The columns [search_instruments] shows. *)
Definition shown_columns : list string :=
  ["trading_symbol"; "groww_symbol"; "name"; "isin"; "exchange_token";
   "exchange"; "segment"; "instrument_type"].

End Obs.

(** ** A concrete world

    One instance of the SDK and of the libraries, used to run the
    programs on concrete inputs. *)

Module Sample.
Import Py Run World.

(** [re.search] for the patterns made of ordinary characters and the
    wildcard [.]: a match of [p] starts at the head of [s]. *)
Fixpoint match_here (p s : string) : bool :=
  match p with
  | EmptyString => true
  | String c p' =>
      match s with
      | EmptyString => false
      | String x s' =>
          (Ascii.eqb c "." || Ascii.eqb c x) && match_here p' s'
      end
  end.

Fixpoint search (p s : string) : bool :=
  match_here p s ||
  match s with
  | EmptyString => false
  | String _ s' => search p s'
  end.

(** Letters, digits, space and the dot. *)
Definition plain_or_dot (c : ascii) : bool :=
  let n := nat_of_ascii c in
  ((48 <=? n)%nat && (n <=? 57)%nat) || ((65 <=? n)%nat && (n <=? 90)%nat)
  || ((97 <=? n)%nat && (n <=? 122)%nat) || (n =? 32)%nat || (n =? 46)%nat.

Fixpoint all_chars (f : ascii -> bool) (s : string) : bool :=
  match s with
  | EmptyString => true
  | String c r => f c && all_chars f r
  end.

(** The regular expressions of this instance: those made of letters,
    digits, spaces and dots, with the meaning Python's [re] gives them;
    every other pattern is rejected here. *)
Definition compile (p : string) : option (string -> bool) :=
  if all_chars plain_or_dot p then Some (search p) else None.

(** The Base32 alphabet, upper or lower case. *)
Definition base32_char (c : ascii) : bool :=
  let n := nat_of_ascii c in
  ((65 <=? n)%nat && (n <=? 90)%nat) || ((97 <=? n)%nat && (n <=? 122)%nat)
  || ((50 <=? n)%nat && (n <=? 55)%nat).

(** A TOTP library that accepts the secrets spelled in the Base32
    alphabet whose length leaves a whole number of bytes, and always
    shows the same code. *)
Definition totp (secret : string) : option string :=
  if all_chars base32_char secret
     && existsb (Nat.eqb (String.length secret mod 8)) [0; 2; 4; 5; 7]%nat
  then Some "492039" else None.

Definition lib : pylib := {|
  float_of_string := fun _ => None;
  repr := fun _ => "<object>";
  strftime_local := fun _ => Some "2024-01-01 09:15:00";
  json_loads := fun _ => JsonError "Expecting value" 0;
  json_dumps := fun _ => None;
  df_to_string := fun _ => "<table>";
  totp_now := totp;
  re_compile := compile;
  relative_range := fun amount _ =>
    match amount with
    | PNone => None
    | _ => Some ("2024-01-01 09:00:00", "2024-01-01 10:00:00")
    end
|}.

Definition quote : value :=
  PDict [("last_price", PFloat 101.5%float);
         ("bid_price", PNone);
         ("depth", PDict [("buy", PList [PNone; PInt 3]); ("sell", PNone)]);
         ("volume", PInt 0)].

(** Two candles: closes 100.0 and 110.0. *)
Definition candles : value :=
  PDict [("candles",
          PList [PList [PInt 1700000000; PInt 99; PInt 101; PInt 98;
                        PFloat 100%float; PInt 1200];
                 PList [PInt 1700000300; PInt 100; PInt 111; PInt 100;
                        PFloat 110%float; PInt 0]])].

Definition instruments : Pandas.DataFrame :=
  Pandas.mkDataFrame
    ["exchange"; "segment"; "trading_symbol"; "name"; "isin"]
    [[Pandas.CStr "NSE"; Pandas.CStr "CASH"; Pandas.CStr "WIPRO";
      Pandas.CStr "Wipro Ltd"; Pandas.CStr "INE075A01022"];
     [Pandas.CStr "BSE"; Pandas.CStr "CASH"; Pandas.CStr "NAME";
      Pandas.CStr "Name Holdings"; Pandas.CStr "INE000X00000"];
     [Pandas.CStr "NSE"; Pandas.CStr "FNO"; Pandas.CStr "RELIANCE";
      Pandas.CStr "Reliance Industries"; Pandas.CNaN]].

(** A command line that asks for one method call, everything else left
    at its default. *)
Definition call_args (name : string) : Cli.args :=
  Cli.mkArgs Common.Auto None None None None (Some name) None None None
             None None 25.

(** A secrets file with the approval pair under its own names. *)
Definition approval_secrets : Common.config :=
  list_to_map [("approval_api_key", "AK-1"); ("approval_secret", "AS-1")].

(** [--flow approval --save-token] *)
Definition save_args : Auth.args :=
  Auth.mkArgs Common.Approval None None false true.

(** A secrets file for both flows whose [totp_secret] is not Base32. *)
Definition bad_secret_file : Common.config :=
  list_to_map [("approval_api_key", "AK-1"); ("approval_secret", "AS-1");
               ("totp_token", "TT-1"); ("totp_secret", "not base32!")].

(** A plain command line of the authenticator with the given [--flow]. *)
Definition auth_args (f : Common.flow) : Auth.args :=
  Auth.mkArgs f None None false false.

(** A secrets file that has the legacy names only. *)
Definition legacy_file : Common.config :=
  list_to_map [("api_key", "LK-1"); ("secret", "MFRGGZDFMZTWQ2LK");
               ("totp", "111111")].

(** A secrets file with the legacy key and a pasted one-time code, and
    an environment that exports the token and the code of the TOTP
    flow. *)
Definition pasted_code_file : Common.config :=
  list_to_map [("api_key", "LK-1"); ("totp", "111111")].

Definition totp_environ : Common.environ :=
  list_to_map [("GROWW_TOTP_TOKEN", "ET-1"); ("GROWW_TOTP", "222222")].

(** One interval in which nothing was traded, once as a dict and once
    as a sequence. *)
Definition quiet_candles : value :=
  PDict [("candles",
          PList [PDict [("timestamp", PInt 1700000000);
                        ("open", PFloat 5%float); ("high", PFloat 5%float);
                        ("low", PFloat 5%float); ("close", PFloat 5%float);
                        ("volume", PInt 0)];
                 PList [PInt 1700000000; PFloat 5%float; PFloat 5%float;
                        PFloat 5%float; PFloat 5%float; PInt 0]])].


(** Two candles whose first close is zero. *)
Definition zero_candles : value :=
  PList [PDict [("close", PInt 0); ("volume", PInt 10)];
         PDict [("close", PFloat 5%float); ("volume", PInt 0)]].

(** An SDK that accepts every credential, has exactly the methods named
    below, answers [get_quote] with [quote] and the candle request with
    [data]. *)
Definition sdk_with (data : value) : World.sdk := {|
  access_token_totp := fun _ _ => Returned (PStr "eyJ-token-by-totp-0001");
  access_token_approval :=
    fun _ _ => Returned (PDict [("token", PStr " eyJ-token-by-approval ")]);
  new_client := fun _ => Returned tt;
  new_feed := fun _ => Returned tt;
  attribute := fun name =>
    if existsb (String.eqb name)
         ["get_quote"; "get_ltp"; "place_order"; "cancel_order";
          "get_historical_candle_data"]
    then Method else Missing;
  api := fun _ name _ _ =>
    if String.eqb name "get_quote" then Returned quote
    else if String.eqb name "get_historical_candle_data"
    then Returned data
    else if String.eqb name "place_order"
    then Returned (PDict [("groww_order_id", PStr "GMK39038RDT490CCVRO")])
    else Raised "Bad request";
  feed := fun _ _ _ => Returned PNone;
  all_instruments := fun _ => Returned instruments
|}.

Definition sdk : World.sdk := sdk_with candles.

(** An SDK that refuses every token. *)
Definition sdk_down : World.sdk := {|
  access_token_totp := fun _ _ => Raised "Invalid credentials";
  access_token_approval := fun _ _ => Raised "Invalid credentials";
  new_client := fun _ => Raised "Invalid token";
  new_feed := fun _ => Raised "Invalid token";
  attribute := fun _ => Missing;
  api := fun _ _ _ _ => Raised "Invalid token";
  feed := fun _ _ _ => Raised "Invalid token";
  all_instruments := fun _ => Raised "Invalid token"
|}.

End Sample.

(** * Properties *)

(** ** Null pruning *)

Section prune_facts.
Import Py Spec Gradio.

Lemma lookup_set_fresh (d : dict) (k : string) (v : value) :
  existsb (String.eqb k) (keys d) = false ->
  set d k v = (d ++ [(k, v)])%list.
Proof.
  induction d as [|[k' v'] d IH]; simpl; intros H; [reflexivity|].
  apply orb_false_elim in H as [Hk Hd].
  rewrite String.eqb_sym, Hk. f_equal. apply IH, Hd.
Qed.

Lemma existsb_app_false (k : string) (l1 l2 : list string) :
  existsb (String.eqb k) l1 = false ->
  existsb (String.eqb k) l2 = false ->
  existsb (String.eqb k) (l1 ++ l2)%list = false.
Proof.
  intros H1 H2. rewrite existsb_app, H1, H2. reflexivity.
Qed.

(** On distinct keys the loop over the items appends, in order, the
    pruned non-null entries to [cleaned]. *)
Lemma prune_items_app (rec : value -> value) (d : list (string * value)) :
  forall cleaned : dict,
    distinct (keys d) = true ->
    (forall k, In k (keys d) -> existsb (String.eqb k) (keys cleaned) = false) ->
    prune_items rec d cleaned =
    (cleaned ++ map (fun kv => (fst kv, rec (snd kv)))
                   (List.filter (fun kv => not_null (snd kv)) d))%list.
Proof.
  induction d as [|[k v] d IH]; intros cleaned Hd Hfresh; simpl.
  - symmetry. apply app_nil_r.
  - simpl in Hd. apply andb_true_iff in Hd as [Hk Hd].
    apply negb_true_iff in Hk.
    unfold not_null. destruct (is_none v) eqn:Hv; simpl.
    + apply IH; [exact Hd|]. intros k' Hin. apply Hfresh. right. exact Hin.
    + rewrite IH.
      * rewrite lookup_set_fresh by (apply Hfresh; left; reflexivity).
        rewrite <- app_assoc. reflexivity.
      * exact Hd.
      * intros k' Hin.
        rewrite lookup_set_fresh by (apply Hfresh; left; reflexivity).
        unfold keys. rewrite map_app. apply existsb_app_false.
        -- apply Hfresh. right. exact Hin.
        -- simpl. rewrite orb_false_r.
           destruct (String.eqb k' k) eqn:E; [|reflexivity].
           apply String.eqb_eq in E. subst k'.
           exfalso.
           assert (existsb (String.eqb k) (keys d) = true) as C.
           { apply existsb_exists. exists k. split; [exact Hin|].
             apply String.eqb_refl. }
           congruence.
Qed.

Lemma prune_items_map (rec : value -> value) (d : list (string * value)) :
  distinct (keys d) = true ->
  prune_items rec d [] =
  map (fun kv => (fst kv, rec (snd kv)))
      (List.filter (fun kv => not_null (snd kv)) d).
Proof.
  intros Hd. rewrite prune_items_app; [reflexivity|exact Hd|].
  intros k _. reflexivity.
Qed.

Lemma prune_elems_map (rec : value -> value) (l : list value) :
  prune_elems rec l = map rec (List.filter (fun x => not_null x) l).
Proof.
  induction l as [|x l IH]; simpl; [reflexivity|].
  unfold not_null. destruct (is_none x); simpl; [exact IH|].
  f_equal. exact IH.
Qed.

(** Pruning a non-null value does not make it null. *)
Lemma prune_not_null (v : value) :
  is_none (_prune_nulls v) = is_none v.
Proof. destruct v; reflexivity. Qed.

Lemma pruned_elems (l : list value) :
  Forall (fun x => json_like x = true ->
            pruned x (_prune_nulls x) /\ null_free (_prune_nulls x) = true) l ->
  forallb json_like l = true ->
  Forall2 pruned (List.filter (fun x => not_null x) l)
          (map _prune_nulls (List.filter (fun x => not_null x) l))
  /\ forallb (fun x => not_null x && null_free x)
             (map _prune_nulls (List.filter (fun x => not_null x) l)) = true.
Proof.
  induction 1 as [|x l Hx Hl IH]; simpl; intros Hj.
  - split; [constructor|reflexivity].
  - apply andb_true_iff in Hj as [Hjx Hjl].
    destruct (IH Hjl) as [IH1 IH2]. destruct (Hx Hjx) as [Hx1 Hx2].
    destruct (not_null x) eqn:Hn; simpl; [|split; assumption].
    split; [constructor; assumption|].
    unfold not_null at 1. rewrite prune_not_null.
    unfold not_null in Hn. rewrite Hn, Hx2. exact IH2.
Qed.

Lemma pruned_entries (d : list (string * value)) :
  Forall (fun kv => json_like (snd kv) = true ->
            pruned (snd kv) (_prune_nulls (snd kv))
            /\ null_free (_prune_nulls (snd kv)) = true) d ->
  forallb (fun kv => json_like (snd kv)) d = true ->
  Forall2 (fun kv kv' => fst kv = fst kv' /\ pruned (snd kv) (snd kv'))
          (List.filter (fun kv => not_null (snd kv)) d)
          (map (fun kv => (fst kv, _prune_nulls (snd kv)))
               (List.filter (fun kv => not_null (snd kv)) d))
  /\ forallb (fun kv => not_null (snd kv) && null_free (snd kv))
             (map (fun kv => (fst kv, _prune_nulls (snd kv)))
                  (List.filter (fun kv => not_null (snd kv)) d)) = true.
Proof.
  induction 1 as [|[k x] d Hx Hd IH]; simpl; intros Hj.
  - split; [constructor|reflexivity].
  - apply andb_true_iff in Hj as [Hjx Hjd].
    destruct (IH Hjd) as [IH1 IH2]. destruct (Hx Hjx) as [Hx1 Hx2].
    simpl in *.
    destruct (not_null x) eqn:Hn; simpl; [|split; assumption].
    split; [constructor; [split; [reflexivity|assumption]|assumption]|].
    unfold not_null at 1. rewrite prune_not_null.
    unfold not_null in Hn. rewrite Hn, Hx2. exact IH2.
Qed.

(** What [_prune_nulls] returns is the argument with exactly its null
    entries dropped, and holds no null at any depth. *)
Lemma prune_nulls_spec (v : value) :
  json_like v = true ->
  pruned v (_prune_nulls v) /\ null_free (_prune_nulls v) = true.
Proof.
  induction v as [| | | | |l IH|l IH|d IH] using value_ind'; intros Hj;
    try (split; [apply pruned_scalar; reflexivity|reflexivity]).
  - simpl in Hj. simpl. rewrite prune_elems_map.
    destruct (pruned_elems l IH Hj) as [H1 H2].
    split; [apply pruned_list, H1|exact H2].
  - discriminate Hj.
  - simpl in Hj. apply andb_true_iff in Hj as [Hk Hj].
    simpl. rewrite (prune_items_map _ d Hk).
    destruct (pruned_entries d IH Hj) as [H1 H2].
    split; [apply pruned_dict, H1|exact H2].
Qed.

End prune_facts.

(** ** Running computations *)

Section run_facts.
Import Py Run World Common Obs.

Lemma bind_ok {A B} (m : M A) (f : A -> M B) (st st' : state) (a : A) :
  m st = (Ok a, st') -> (m ≫= f) st = f a st'.
Proof. intros H. unfold mbind, M_bind. rewrite H. reflexivity. Qed.

Lemma bind_err {A B} (m : M A) (f : A -> M B) (st st' : state) (e : exn) :
  m st = (Err e, st') -> (m ≫= f) st = (Err e, st').
Proof. intros H. unfold mbind, M_bind. rewrite H. reflexivity. Qed.

Lemma nonempty_false (s : string) : nonempty s = false -> s = EmptyString.
Proof. destruct s; [reflexivity|discriminate]. Qed.

Lemma extends_refl (st : state) : extends st st.
Proof. exists []. symmetry. apply app_nil_r. Qed.

Lemma extends_trans (a b c : state) : extends a b -> extends b c -> extends a c.
Proof.
  intros [e1 H1] [e2 H2]. exists (e1 ++ e2)%list.
  rewrite H2, H1, app_assoc. reflexivity.
Qed.

End run_facts.

(** ** Clean quotes *)

Section quote_facts.
Import Py Run World Common Gradio Spec Obs.

Lemma get_quote_returns (sdk : World.sdk) (lib : pylib)
  (token trading_symbol exchange segment : string) (st : state) (v : value) :
  nonempty token = true ->
  new_client sdk (PStr token) = Returned tt ->
  api sdk (PStr token) "get_quote" []
      (quote_kwargs trading_symbol exchange segment) = Returned v ->
  fst (get_quote sdk lib token trading_symbol exchange segment st) = Ok v.
Proof.
  intros Ht Hc Hq. unfold get_quote, guarded, attempt. rewrite Ht. simpl.
  unfold try_except, _get_client, new_api, call, mbind, M_bind, emit. simpl.
  rewrite Hc. simpl. unfold quote_kwargs in Hq. unfold timeout10.
  rewrite Hq. reflexivity.
Qed.

Lemma get_quote_clean_prunes (sdk : World.sdk) (lib : pylib)
  (token trading_symbol exchange segment : string) (st : state) (d : dict) :
  fst (get_quote sdk lib token trading_symbol exchange segment st) = Ok (PDict d) ->
  has_key d "error" = false ->
  fst (get_quote_clean sdk lib token trading_symbol exchange segment st)
  = Ok (_prune_nulls (PDict d)).
Proof.
  intros Hq Herr. unfold get_quote_clean, mbind, M_bind.
  destruct (get_quote sdk lib token trading_symbol exchange segment st)
    as [r st'] eqn:E.
  simpl in Hq. subst r. rewrite Herr. reflexivity.
Qed.

(** C6.  For every JSON-like value, what [_prune_nulls] returns is the
    value with its null entries dropped and nothing else changed (every
    non-null entry stays, under its key, list elements in their order),
    and it holds no null at any nesting depth; a non-null value stays
    non-null.  [get_quote_clean] returns exactly this pruning of every
    quote the SDK answers with that carries no "error" key. *)
Theorem prune_nulls_drops_exactly_the_nulls :
  (forall v : value,
      json_like v = true ->
      pruned v (_prune_nulls v)
      /\ null_free (_prune_nulls v) = true
      /\ is_none (_prune_nulls v) = is_none v)
  /\
  (forall (sdk : World.sdk) (lib : pylib)
          (token trading_symbol exchange segment : string)
          (st : state) (d : dict),
      nonempty token = true ->
      new_client sdk (PStr token) = Returned tt ->
      api sdk (PStr token) "get_quote" []
          (quote_kwargs trading_symbol exchange segment)
        = Returned (PDict d) ->
      has_key d "error" = false ->
      fst (get_quote_clean sdk lib token trading_symbol exchange segment st)
      = Ok (_prune_nulls (PDict d))).
Proof.
  split.
  - intros v Hv. destruct (prune_nulls_spec v Hv) as [H1 H2].
    repeat split; [exact H1|exact H2|apply prune_not_null].
  - intros sdk lib token sym ex seg st d Ht Hc Hq Herr.
    apply get_quote_clean_prunes; [|exact Herr].
    eapply get_quote_returns; eassumption.
Qed.

Lemma prune_nulls_drops_exactly_the_nulls_witness :
  (pruned Sample.quote (_prune_nulls Sample.quote)
   /\ null_free (_prune_nulls Sample.quote) = true
   /\ is_none (_prune_nulls Sample.quote) = is_none Sample.quote)
  /\ fst (get_quote_clean Sample.sdk Sample.lib "tok" " wipro " "NSE" "CASH" (initial []))
     = Ok (PDict [("last_price", PFloat 101.5%float);
                  ("depth", PDict [("buy", PList [PInt 3])]);
                  ("volume", PInt 0)]).
Proof.
  destruct prune_nulls_drops_exactly_the_nulls as [H1 H2].
  split.
  - apply (H1 Sample.quote). reflexivity.
  - apply (H2 Sample.sdk Sample.lib "tok" " wipro " "NSE" "CASH" (initial [])
              [("last_price", PFloat 101.5%float);
               ("bid_price", PNone);
               ("depth", PDict [("buy", PList [PNone; PInt 3]);
                                ("sell", PNone)]);
               ("volume", PInt 0)]); reflexivity.
Defined.

End quote_facts.

(** ** The handlers of the web UI never let an exception through *)

Section handler_facts.
Import Py Run World Common Gradio Obs.

Lemma catchable_ret {A} (a : A) : catchable (mret a).
Proof. intros st e st' H. discriminate H. Qed.

Lemma catchable_bind {A B} (m : M A) (f : A -> M B) :
  catchable m -> (forall a, catchable (f a)) -> catchable (m ≫= f).
Proof.
  intros Hm Hf st e st' H. unfold mbind, M_bind in H.
  destruct (m st) as [[a|e0] st0] eqn:E.
  - eapply Hf, H.
  - inversion H; subst. eapply Hm, E.
Qed.

Lemma catchable_emit (ev : event) : catchable (emit ev).
Proof. intros st e st' H. discriminate H. Qed.

Lemma catchable_of_outcome {A} (o : outcome A) : catchable (of_outcome o).
Proof.
  destruct o; intros st e st' H; [discriminate H|].
  inversion H; subst. reflexivity.
Qed.

Lemma catchable_raise {A} (e : exn) :
  is_Exception e = true -> catchable (@raise A e).
Proof. intros He st e' st' H. inversion H; subst. exact He. Qed.

Lemma catchable_lift {A} (r : res A) : catchable_res r -> catchable (lift r).
Proof.
  intros Hr st e st' H. unfold lift in H. inversion H; subst. exact Hr.
Qed.

Lemma catchable_try {A} (body : M A) (sel : exn -> bool) (h : exn -> M A) :
  catchable body -> (forall e, catchable (h e)) ->
  catchable (try_except body sel h).
Proof.
  intros Hb Hh st e st' H. unfold try_except in H.
  destruct (body st) as [[a|e0] st0] eqn:E; [discriminate H|].
  destruct (sel e0).
  - eapply Hh, H.
  - inversion H; subst. eapply Hb, E.
Qed.

Lemma catchable_get_feed_cache : catchable get_feed_cache.
Proof. intros st e st' H. discriminate H. Qed.

Lemma catchable_add_feed_cache (t : string) : catchable (add_feed_cache t).
Proof. intros st e st' H. discriminate H. Qed.

Lemma catchable_get_instrument_cache : catchable get_instrument_cache.
Proof. intros st e st' H. discriminate H. Qed.

Lemma catchable_set_instrument_cache (df : Pandas.DataFrame) :
  catchable (set_instrument_cache df).
Proof. intros st e st' H. discriminate H. Qed.

Ltac catch_step :=
  first
    [ apply catchable_ret
    | apply catchable_emit
    | apply catchable_of_outcome
    | apply catchable_get_feed_cache
    | apply catchable_add_feed_cache
    | apply catchable_get_instrument_cache
    | apply catchable_set_instrument_cache
    | apply catchable_raise; reflexivity
    | apply catchable_bind; [|intros ?]
    | apply catchable_try; [|intros ?]
    | match goal with
      | |- catchable (match ?x with _ => _ end) => destruct x
      | |- catchable (if ?b then _ else _) => destruct b
      | |- catchable (let '(_, _) := ?x in _) => destruct x
      end ].

Ltac catch := repeat catch_step.

Lemma format_ts_catchable (lib : pylib) (v : value) :
  catchable_res (_format_ts lib v).
Proof.
  unfold _format_ts. destruct v; simpl; try exact I;
    repeat match goal with
           | |- catchable_res (match ?x with _ => _ end) => destruct x
           end; simpl; auto.
Qed.

Lemma candle_row_catchable (lib : pylib) (c : value) :
  catchable_res (candle_row lib c).
Proof.
  unfold candle_row.
  destruct c; simpl; try exact I;
    match goal with
    | |- catchable_res (match _format_ts lib ?x with _ => _ end) =>
        pose proof (format_ts_catchable lib x) as H;
        destruct (_format_ts lib x); simpl; auto
    end.
Qed.

Lemma rows_of_catchable (lib : pylib) (cs rows : list value) :
  catchable_res (rows_of lib cs rows).
Proof.
  revert rows. induction cs as [|c cs IH]; intros rows; simpl; [exact I|].
  pose proof (candle_row_catchable lib c) as H.
  destruct (candle_row lib c) as [[row|]|e]; simpl; auto.
Qed.

Lemma parse_candle_close_catchable (lib : pylib) (c : value) :
  catchable_res (_parse_candle_close lib c).
Proof.
  unfold _parse_candle_close.
  destruct c; simpl; try exact I;
    repeat match goal with
           | |- catchable_res (match ?x with _ => _ end) => destruct x
           | |- catchable_res (if ?x then _ else _) => destruct x
           end; simpl; auto.
Qed.

Lemma parsed_closes_catchable (lib : pylib) (cs : list value) :
  catchable_res (parsed_closes lib cs).
Proof.
  induction cs as [|c cs IH]; simpl; [exact I|].
  pose proof (parse_candle_close_catchable lib c) as H.
  destruct (_parse_candle_close lib c) as [o|e]; simpl; [|exact H].
  destruct (parsed_closes lib cs); simpl; auto.
Qed.

Lemma backtest_summary_catchable (lib : pylib) (data : value) :
  catchable_res (backtest_summary lib data).
Proof.
  unfold backtest_summary.
  pose proof (parsed_closes_catchable lib (_extract_candles data)) as H.
  destruct (parsed_closes lib (_extract_candles data)) as [cs|e];
    simpl; [|exact H].
  destruct (length cs <? 2)%nat; simpl; [exact I|].
  unfold py_truediv.
  destruct (PrimFloat.eqb _ _); simpl; auto.
Qed.

Lemma filter_upper_catchable (col x : string) (df : Pandas.DataFrame) :
  catchable_res (filter_upper col x df).
Proof.
  unfold filter_upper. destruct (Pandas.index_of _ _); simpl; auto.
Qed.

Lemma build_mask_catchable (lib : pylib) (q : string)
  (df : Pandas.DataFrame) (cols : list string) :
  forall mask, catchable_res (build_mask lib q df cols mask).
Proof.
  induction cols as [|c cols IH]; intros mask; simpl; [exact I|].
  destruct (Pandas.index_of _ _); [|apply IH].
  destruct (re_compile lib q); [apply IH|reflexivity].
Qed.

(** No [try] body of a handler raises anything but an [Exception]. *)
Lemma attempt_catchable (sdk : World.sdk) (lib : pylib) (token : string)
  (r : request) : catchable (attempt sdk lib token r).
Proof.
  destruct r; unfold attempt, _get_client, new_api, Common.call, _get_feed,
    feed_call, _lookup_instrument, instrument_token, _require_no_trading,
    Gradio._parse_json; catch;
    try (apply catchable_lift, backtest_summary_catchable).
Qed.

Lemma guarded_disconnected (token : string) (body : M value) (st : state) :
  nonempty token = false ->
  guarded token body st = (Ok (error_dict "Not connected"), st).
Proof. intros H. unfold guarded. rewrite H. reflexivity. Qed.

Lemma try_caught {A} (body : M A) (h : exn -> M A) (st : state) :
  catchable body ->
  try_except body is_Exception h st =
  match body st with
  | (Ok v, st') => (Ok v, st')
  | (Err e, st') => h e st'
  end.
Proof.
  intros Hb. unfold try_except.
  destruct (body st) as [[v|e] st'] eqn:E; [reflexivity|].
  rewrite (Hb _ _ _ E). reflexivity.
Qed.

Lemma guarded_connected (token : string) (body : M value) (st : state) :
  nonempty token = true -> catchable body ->
  guarded token body st =
  match body st with
  | (Ok v, st') => (Ok v, st')
  | (Err e, st') => (Ok (error_dict (msg e)), st')
  end.
Proof.
  intros H Hb. unfold guarded. rewrite H. simpl.
  rewrite try_caught by exact Hb. reflexivity.
Qed.

Lemma try_total {A} (body : M A) (h : exn -> M A) :
  catchable body -> (forall e, total (h e)) ->
  total (try_except body is_Exception h).
Proof.
  intros Hb Hh st. rewrite try_caught by exact Hb.
  destruct (body st) as [[v|e] st']; [eauto|apply Hh].
Qed.

Lemma total_ret {A} (a : A) : total (mret a).
Proof. intros st. exists a, st. reflexivity. Qed.

Lemma handle_connected (sdk : World.sdk) (lib : pylib) (token : string)
  (r : request) (st : state) :
  nonempty token = true -> name_given r = true ->
  handle sdk lib token r st =
  match attempt sdk lib token r st with
  | (Ok v, st') => (Ok v, st')
  | (Err e, st') => (Ok (error_dict (msg e)), st')
  end.
Proof.
  intros Ht Hn.
  assert (guarded token (attempt sdk lib token r) st =
          match attempt sdk lib token r st with
          | (Ok v, st') => (Ok v, st')
          | (Err e, st') => (Ok (error_dict (msg e)), st')
          end) as G
      by (apply guarded_connected; [exact Ht|apply attempt_catchable]).
  destruct r; try exact G.
  simpl in Hn. unfold handle, call_method. rewrite Ht, Hn. simpl.
  unfold guarded in G. rewrite Ht in G. exact G.
Qed.

Lemma get_quote_clean_total (sdk : World.sdk) (lib : pylib)
  (token trading_symbol exchange segment : string) :
  total (get_quote_clean sdk lib token trading_symbol exchange segment).
Proof.
  intros st. unfold get_quote_clean, mbind, M_bind, get_quote.
  destruct (nonempty token) eqn:Ht.
  - rewrite guarded_connected by (try exact Ht; apply attempt_catchable).
    destruct (attempt _ _ _ _ st) as [[v|e] st'].
    + destruct v; try (eexists; eexists; reflexivity).
      destruct (negb (has_key d "error")); eexists; eexists; reflexivity.
    + eexists; eexists; reflexivity.
  - rewrite guarded_disconnected by exact Ht.
    eexists; eexists; reflexivity.
Qed.

Lemma search_instruments_total (sdk : World.sdk) (lib : pylib)
  (token query exchange segment : string) (limit : Z) :
  total (search_instruments sdk lib token query exchange segment limit).
Proof.
  unfold search_instruments.
  destruct (nonempty token); cbn [negb]; [|apply total_ret].
  apply try_total; [|intros e; apply total_ret].
  unfold _get_client, new_api. catch;
    try (apply catchable_lift;
         first [apply filter_upper_catchable|apply build_mask_catchable]).
Qed.

Lemma get_historical_total (sdk : World.sdk) (lib : pylib)
  (token method trading_symbol groww_symbol exchange segment : string)
  (interval_minutes : value) (candle_interval start_time end_time : string)
  (relative_amount : value) (relative_unit : string) :
  total (get_historical sdk lib token method trading_symbol groww_symbol
           exchange segment interval_minutes candle_interval start_time
           end_time false relative_amount relative_unit).
Proof.
  unfold get_historical.
  destruct (nonempty token); simpl; [|apply total_ret].
  intros st. unfold mbind at 1. unfold M_bind at 1. simpl.
  apply try_total; [|intros e; apply total_ret].
  unfold _get_client, new_api, Common.call. catch.
  apply catchable_lift, rows_of_catchable.
Qed.

Lemma handle_disconnected (sdk : World.sdk) (lib : pylib) (r : request)
  (st : state) :
  handle sdk lib "" r st = (Ok (error_dict "Not connected"), st).
Proof. destruct r; reflexivity. Qed.

Lemma handle_unnamed (sdk : World.sdk) (lib : pylib) (token : string)
  (r : request) (st : state) :
  nonempty token = true -> name_given r = false ->
  handle sdk lib token r st = (Ok (error_dict "Method name is required"), st).
Proof.
  intros Ht Hn. destruct r; try discriminate Hn.
  simpl in Hn. unfold handle, call_method. rewrite Ht, Hn. reflexivity.
Qed.

Lemma search_instruments_failed_client (sdk : World.sdk) (lib : pylib)
  (token query exchange segment m : string) (limit : Z) (st : state) :
  nonempty token = true ->
  new_client sdk (PStr token) = Raised m ->
  fst (search_instruments sdk lib token query exchange segment limit st)
  = Ok (Message ("Error: " ++ m)).
Proof.
  intros Ht Hc. unfold search_instruments. rewrite Ht. cbn [negb].
  unfold try_except, _get_client, new_api, mbind, M_bind, emit. cbn.
  rewrite Hc. reflexivity.
Qed.

Lemma get_historical_failed_client (sdk : World.sdk) (lib : pylib)
  (token method trading_symbol groww_symbol exchange segment m : string)
  (interval_minutes : value) (candle_interval start_time end_time : string)
  (relative_amount : value) (relative_unit : string) (st : state) :
  nonempty token = true ->
  new_client sdk (PStr token) = Raised m ->
  fst (get_historical sdk lib token method trading_symbol groww_symbol
         exchange segment interval_minutes candle_interval start_time
         end_time false relative_amount relative_unit st)
  = Ok (PTuple [error_dict m; PList []]).
Proof.
  intros Ht Hc. unfold get_historical. rewrite Ht. cbn [negb].
  unfold try_except, _get_client, new_api, mbind, M_bind, emit. cbn.
  rewrite Hc. reflexivity.
Qed.

(** C10, as the code has it.  Every handler that answers with JSON
    ([handle], and [get_quote_clean] on top of [get_quote]) returns
    [{"error": "Not connected"}] on the empty token and leaves the state
    as it was: no SDK call, no event.  On a token, whatever its [try]
    body returns is returned, and whatever exception it raises comes
    back as [{"error": str(e)}]; nothing is propagated.
    [search_instruments] and [get_historical] are total in the same way
    but answer in their own shapes: a plain string, and a pair of the
    error dict and an empty list. *)
Theorem handlers_catch_every_exception (sdk : World.sdk) (lib : pylib) :
  (forall r st,
      handle sdk lib "" r st = (Ok (error_dict "Not connected"), st))
  /\ (forall token r st,
         nonempty token = true -> name_given r = true ->
         handle sdk lib token r st =
         match attempt sdk lib token r st with
         | (Ok v, st') => (Ok v, st')
         | (Err e, st') => (Ok (error_dict (msg e)), st')
         end)
  /\ (forall token r st,
         nonempty token = true -> name_given r = false ->
         handle sdk lib token r st
         = (Ok (error_dict "Method name is required"), st))
  /\ (forall sym ex seg st,
         get_quote_clean sdk lib "" sym ex seg st
         = (Ok (error_dict "Not connected"), st))
  /\ (forall token sym ex seg,
         total (get_quote_clean sdk lib token sym ex seg))
  /\ (forall q ex seg limit st,
         search_instruments sdk lib "" q ex seg limit st
         = (Ok (Message "Not connected"), st))
  /\ (forall token q ex seg limit,
         total (search_instruments sdk lib token q ex seg limit))
  /\ (forall token q ex seg m limit st,
         nonempty token = true ->
         new_client sdk (PStr token) = Raised m ->
         fst (search_instruments sdk lib token q ex seg limit st)
         = Ok (Message ("Error: " ++ m)))
  /\ (forall method sym gsym ex seg iv ci t0 t1 rel amount unit st,
         get_historical sdk lib "" method sym gsym ex seg iv ci t0 t1 rel
           amount unit st
         = (Ok (PTuple [error_dict "Not connected"; PList []]), st))
  /\ (forall token method sym gsym ex seg iv ci t0 t1 amount unit,
         total (get_historical sdk lib token method sym gsym ex seg iv ci
                  t0 t1 false amount unit))
  /\ (forall token method sym gsym ex seg m iv ci t0 t1 amount unit st,
         nonempty token = true ->
         new_client sdk (PStr token) = Raised m ->
         fst (get_historical sdk lib token method sym gsym ex seg iv ci
                t0 t1 false amount unit st)
         = Ok (PTuple [error_dict m; PList []])).
Proof.
  repeat split.
  - apply handle_disconnected.
  - intros; apply handle_connected; assumption.
  - intros; apply handle_unnamed; assumption.
  - apply get_quote_clean_total.
  - apply search_instruments_total.
  - intros; apply search_instruments_failed_client; assumption.
  - apply get_historical_total.
  - intros; apply get_historical_failed_client; assumption.
Qed.

Lemma handlers_catch_every_exception_witness :
  fst (handle (Sample.sdk_with Sample.zero_candles) Sample.lib "tok"
         (BacktestSimple "wipro" "NSE" "CASH" "" "" (PInt 5)) (initial []))
  = Ok (error_dict "float division by zero")
  /\ fst (handle Sample.sdk Sample.lib "tok"
            (CallMethod "   " "" "" false) (initial []))
     = Ok (error_dict "Method name is required")
  /\ fst (search_instruments Sample.sdk_down Sample.lib "tok" "wipro" "" ""
            25 (initial []))
     = Ok (Message "Error: Invalid token")
  /\ fst (get_historical Sample.sdk_down Sample.lib "tok" "" "wipro" "" "NSE"
            "CASH" (PInt 5) "" "" "" false PNone "minutes" (initial []))
     = Ok (PTuple [error_dict "Invalid token"; PList []]).
Proof.
  split; [|split; [|split]].
  - destruct (handlers_catch_every_exception
                (Sample.sdk_with Sample.zero_candles) Sample.lib)
      as (_ & H & _).
    rewrite (H "tok" (BacktestSimple "wipro" "NSE" "CASH" "" "" (PInt 5))
               (initial [])); reflexivity.
  - destruct (handlers_catch_every_exception Sample.sdk Sample.lib)
      as (_ & _ & H & _).
    rewrite (H "tok" (CallMethod "   " "" "" false) (initial []));
      reflexivity.
  - destruct (handlers_catch_every_exception Sample.sdk_down Sample.lib)
      as (_ & _ & _ & _ & _ & _ & _ & H & _).
    apply (H "tok" "wipro" "" "" "Invalid token" 25%Z (initial []));
      reflexivity.
  - destruct (handlers_catch_every_exception Sample.sdk_down Sample.lib)
      as (_ & _ & _ & _ & _ & _ & _ & _ & _ & _ & H).
    apply (H "tok" "" "wipro" "" "NSE" "CASH" "Invalid token" (PInt 5)
             "" "" "" PNone "minutes" (initial [])); reflexivity.
Defined.

(** C10 as it is stated fails: on the empty token [get_historical] does
    not return [{"error": "Not connected"}] but a pair, and
    [search_instruments] returns the bare string. *)
Lemma not_every_handler_answers_with_an_error_dict :
  fst (get_historical Sample.sdk Sample.lib "" "" "wipro" "" "NSE" "CASH"
         (PInt 5) "" "" "" false (PInt 60) "minutes" (initial []))
  <> Ok (error_dict "Not connected")
  /\ fst (search_instruments Sample.sdk Sample.lib "" "wipro" "" "" 25
            (initial []))
     = Ok (Message "Not connected").
Proof. split; [discriminate|reflexivity]. Qed.

End handler_facts.

(** ** The simple backtest *)

Section backtest_facts.
Import Py Run World Common Gradio Spec Obs.







End backtest_facts.

(** ** Trading gates *)

Section trading_facts.
Import Py Run World Common Obs.













End trading_facts.

(** ** What a run adds to the trace *)

Section trace_facts.
Import Py Run World Common Obs.

Context (P : event -> bool).

Lemma only_ret {A} (a : A) : emits_only P (mret a).
Proof.
  intros st r st' H. inversion H; subst. exists [].
  split; [symmetry; apply app_nil_r|reflexivity].
Qed.

Lemma only_raise {A} (e : exn) : emits_only P (@raise A e).
Proof.
  intros st r st' H. inversion H; subst. exists [].
  split; [symmetry; apply app_nil_r|reflexivity].
Qed.

Lemma only_exit {A} (m : string) : emits_only P (@exit A m).
Proof. apply only_raise. Qed.

Lemma only_lift {A} (x : res A) : emits_only P (lift x).
Proof.
  intros st r st' H. inversion H; subst. exists [].
  split; [symmetry; apply app_nil_r|reflexivity].
Qed.

Lemma only_of_outcome {A} (o : outcome A) : emits_only P (of_outcome o).
Proof. destruct o; [apply only_ret|apply only_raise]. Qed.

Lemma only_emit (ev : event) : P ev = true -> emits_only P (emit ev).
Proof.
  intros Hev st r st' H. inversion H; subst. exists [ev].
  simpl. rewrite Hev. split; reflexivity.
Qed.

Lemma only_read_line : emits_only P read_line.
Proof.
  intros st r st' H. unfold read_line in H.
  destruct (stdin st); inversion H; subst; exists [];
    (split; [symmetry; apply app_nil_r|reflexivity]).
Qed.

Lemma only_bind {A B} (m : M A) (f : A -> M B) :
  emits_only P m -> (forall a, emits_only P (f a)) ->
  emits_only P (m ≫= f).
Proof.
  intros Hm Hf st r st' H. unfold mbind, M_bind in H.
  destruct (m st) as [[a|e] st1] eqn:E.
  - destruct (Hm _ _ _ E) as (e1 & T1 & F1).
    destruct (Hf a _ _ _ H) as (e2 & T2 & F2).
    exists (e1 ++ e2)%list. rewrite T2, T1, app_assoc, forallb_app, F1, F2.
    split; reflexivity.
  - inversion H; subst. apply (Hm _ _ _ E).
Qed.

Lemma only_try {A} (body : M A) (sel : exn -> bool) (h : exn -> M A) :
  emits_only P body -> (forall e, emits_only P (h e)) ->
  emits_only P (try_except body sel h).
Proof.
  intros Hb Hh st r st' H. unfold try_except in H.
  destruct (body st) as [[a|e] st1] eqn:E.
  - inversion H; subst. apply (Hb _ _ _ E).
  - destruct (sel e).
    + destruct (Hb _ _ _ E) as (e1 & T1 & F1).
      destruct (Hh e _ _ _ H) as (e2 & T2 & F2).
      exists (e1 ++ e2)%list. rewrite T2, T1, app_assoc, forallb_app, F1, F2.
      split; reflexivity.
    + inversion H; subst. apply (Hb _ _ _ E).
Qed.

End trace_facts.

Ltac only_step :=
  first
    [ apply only_ret
    | apply only_raise
    | apply only_exit
    | apply only_lift
    | apply only_of_outcome
    | apply only_read_line
    | apply only_emit; reflexivity
    | apply only_bind; [|intros ?]
    | apply only_try; [|intros ?]
    | match goal with
      | |- Obs.emits_only _ (match ?x with _ => _ end) => destruct x
      | |- Obs.emits_only _ (if ?b then _ else _) => destruct b
      | |- Obs.emits_only _ (let '(_, _) := ?x in _) => destruct x
      end ].

Ltac trace_only := repeat only_step.

(** ** The token file of the authenticator *)

Section token_file_facts.
Import Py Run World Common Obs.
Context (sdk : World.sdk) (lib : pylib) (cfg : config) (env : environ).






End token_file_facts.


Example token_file_run :
  Run.trace (snd (Auth.main Sample.sdk Sample.lib Sample.approval_secrets ∅
                    Sample.save_args (Run.initial [])))
  = [Run.ETokenApproval "AK-1" "AS-1";
     Run.EClient (Py.PStr "eyJ-token-by-approval");
     Run.EWrite ".access_token" ("eyJ-token-by-approval" ++ Common.nl);
     Run.EPrint "Access token: eyJ-to...oval"].
Proof. reflexivity. Qed.

(** Naming the credentials read at the top of a program, so that the
    rest of the run can be computed without looking into them. *)
Ltac name_sources :=
  repeat match goal with
         | |- context [Common._first ?l] =>
             let x := fresh "src" in
             set (x := Common._first l) in *; clearbody x
         end.

Ltac run_monad :=
  unfold Auth.totp_branch, Auth.approval_branch, Auth._totp_now_from_secret,
    Smoke._totp_now_from_secret, Common.totp_now_or, Common.token_by_totp,
    Common.token_by_approval, Common.new_api, Run.print, Run.exit, Run.raise,
    Run.emit, Run.try_except, mbind, Run.M_bind, mret, Run.M_ret,
    World.of_outcome, Obs.noting, Obs.noting_all in *.

(** ** An invalid TOTP secret *)

Section totp_secret_facts.
Import Py Run World Common Obs.
Context (sdk : World.sdk) (lib : pylib) (cfg : config) (env : environ).

Lemma given_the (v : option string) :
  given v = true -> nonempty (the v) = true.
Proof. destruct v; [intros H; exact H|discriminate]. Qed.

(** Under [--flow auto] the authenticator prints the note and goes on as
    under [--flow approval]. *)
Lemma auth_invalid_secret_auto (a : Auth.args) (st : state) :
  Auth.arg_flow a = Auto ->
  given (totp_token cfg env (Auth.arg_totp_token a)) = true ->
  given (totp cfg env (Auth.arg_totp a)) = false ->
  given (totp_secret cfg env) = true ->
  totp_now lib (the (totp_secret cfg env)) = None ->
  Auth.main sdk lib cfg env a st
  = Auth.main sdk lib cfg env (with_flow Approval a)
      (noting Auth.note_fallback st).
Proof.
  unfold totp_token, totp, totp_secret. intros Hf Htt Htp Hts Hnow.
  destruct a as [f o t pt sv].
  cbn [Auth.arg_flow Auth.arg_totp Auth.arg_totp_token] in *. subst f.
  unfold Auth.main, with_flow. cbn [Auth.arg_flow Auth.arg_totp
    Auth.arg_totp_token Auth.arg_print_token Auth.arg_save_token flow_eqb].
  name_sources. run_monad. cbn [Auth.arg_flow flow_eqb].
  rewrite ?Htt, ?Htp, ?Hts. cbn. rewrite ?Htt, ?Htp, ?Hts. cbn.
  rewrite Hnow. cbn. reflexivity.
Qed.

(** Under [--flow totp] the authenticator exits with the message of
    the error, after the notices of the legacy keys it fell back to. *)
Lemma auth_invalid_secret_totp (a : Auth.args) (st : state) :
  Auth.arg_flow a = Totp ->
  given (totp_token_used cfg env (Auth.arg_totp_token a)) = true ->
  given (totp cfg env (Auth.arg_totp a)) = false ->
  given (totp_secret_used cfg env) = true ->
  totp_now lib (the (totp_secret_used cfg env)) = None ->
  Auth.main sdk lib cfg env a st
  = (Err (mkExn SystemExit Auth.invalid_secret),
     noting_all (legacy_notes cfg env (Auth.arg_totp_token a)) st).
Proof.
  unfold totp_token_used, totp_secret_used, legacy_notes, totp_token, totp,
    totp_secret, legacy_api_key, legacy_secret.
  intros Hf Htt Htp Hts Hnow.
  destruct a as [f o t pt sv]. destruct st as [inp tr ic fc].
  cbn [Auth.arg_flow Auth.arg_totp Auth.arg_totp_token] in *. subst f.
  unfold Auth.main. cbn [Auth.arg_flow Auth.arg_totp
    Auth.arg_totp_token Auth.arg_print_token Auth.arg_save_token flow_eqb].
  set (tt := _first [t; cfg !! "totp_token"; env !! "GROWW_TOTP_TOKEN"]) in *.
  set (ts := _first [cfg !! "totp_secret"; env !! "GROWW_TOTP_SECRET"]) in *.
  set (la := _first [cfg !! "api_key"; env !! "GROWW_API_KEY"]) in *.
  set (ls := _first [cfg !! "secret"; env !! "GROWW_API_SECRET"]) in *.
  set (tp := _first [o; _first [env !! "GROWW_TOTP"]]) in *.
  clearbody tt ts la ls tp. name_sources. run_monad.
  cbn [Auth.arg_flow flow_eqb orb].
  destruct (given tt) eqn:Ett; destruct (given ts) eqn:Ets;
    cbn [negb andb orb]; rewrite ?Htp, ?Htt, ?Hts, ?Ett, ?Ets;
    cbn [negb andb orb fst snd stdin trace instrument_cache feed_cache];
    rewrite ?Htp, ?Htt, ?Hts, ?Ett, ?Ets;
    cbn [negb andb orb fst snd stdin trace instrument_cache feed_cache];
    rewrite ?Hnow;
    cbn [negb andb orb is_ValueError cls msg map app flow_eqb];
    rewrite <- ?app_assoc, ?app_nil_r; reflexivity.
Qed.

Lemma smoke_invalid_secret_auto (override : option string) (st : state) :
  given (totp_token cfg env None) = true ->
  given (totp cfg env override) = false ->
  given (totp_secret cfg env) = true ->
  totp_now lib (the (totp_secret cfg env)) = None ->
  Smoke._get_access_token sdk lib cfg env Auto override st
  = Smoke._get_access_token sdk lib cfg env Approval override
      (noting Auth.note_fallback st).
Proof.
  unfold totp_token, totp, totp_secret. intros Htt Htp Hts Hnow.
  change (_first [None; cfg !! "totp_token"; env !! "GROWW_TOTP_TOKEN"])
    with (_first [cfg !! "totp_token"; env !! "GROWW_TOTP_TOKEN"]) in Htt.
  unfold Smoke._get_access_token. cbn [flow_eqb].
  set (tt := _first [cfg !! "totp_token"; env !! "GROWW_TOTP_TOKEN"]) in *.
  set (ts := _first [cfg !! "totp_secret"; env !! "GROWW_TOTP_SECRET"]) in *.
  set (tp := _first [override; _first [env !! "GROWW_TOTP"]]) in *.
  clearbody tt ts tp. name_sources. run_monad.
  rewrite ?Htt, ?Htp, ?Hts. cbn. rewrite ?Htt, ?Htp, ?Hts. cbn.
  rewrite Hnow. cbn. reflexivity.
Qed.

Lemma smoke_invalid_secret_totp (override : option string) (st : state) :
  given (totp_token_used cfg env None) = true ->
  given (totp cfg env override) = false ->
  given (totp_secret_used cfg env) = true ->
  totp_now lib (the (totp_secret_used cfg env)) = None ->
  Smoke._get_access_token sdk lib cfg env Totp override st
  = (Err (mkExn SystemExit Auth.invalid_secret),
     noting_all (legacy_notes cfg env None) st).
Proof.
  unfold totp_token_used, totp_secret_used, legacy_notes, totp_token, totp,
    totp_secret, legacy_api_key, legacy_secret.
  change (_first [None; cfg !! "totp_token"; env !! "GROWW_TOTP_TOKEN"])
    with (_first [cfg !! "totp_token"; env !! "GROWW_TOTP_TOKEN"]).
  intros Htt Htp Hts Hnow. destruct st as [inp tr ic fc].
  unfold Smoke._get_access_token. cbn [flow_eqb].
  set (tt := _first [cfg !! "totp_token"; env !! "GROWW_TOTP_TOKEN"]) in *.
  set (ts := _first [cfg !! "totp_secret"; env !! "GROWW_TOTP_SECRET"]) in *.
  set (la := _first [cfg !! "api_key"; env !! "GROWW_API_KEY"]) in *.
  set (ls := _first [cfg !! "secret"; env !! "GROWW_API_SECRET"]) in *.
  set (tp := _first [override; _first [env !! "GROWW_TOTP"]]) in *.
  clearbody tt ts la ls tp. name_sources. run_monad.
  cbn [flow_eqb orb].
  destruct (given tt) eqn:Ett; destruct (given ts) eqn:Ets;
    cbn [negb andb orb]; rewrite ?Htp, ?Htt, ?Hts, ?Ett, ?Ets;
    cbn [negb andb orb fst snd stdin trace instrument_cache feed_cache];
    rewrite ?Htp, ?Htt, ?Hts, ?Ett, ?Ets;
    cbn [negb andb orb fst snd stdin trace instrument_cache feed_cache];
    rewrite ?Hnow;
    cbn [negb andb orb is_ValueError cls msg map app flow_eqb];
    rewrite <- ?app_assoc, ?app_nil_r; reflexivity.
Qed.

(** C3.  When the TOTP library rejects the secret (it is not a valid
    Base32 secret), [_totp_now_from_secret] raises instead of returning
    a code.  In the authenticator and in the smoke test the failure is
    handled by flow: under [--flow auto] the note is printed and the run
    goes on exactly as under [--flow approval]; under [--flow totp] the
    program exits with the message of the error. *)
Theorem invalid_totp_secret_exits_or_falls_back :
  (forall secret st,
      totp_now lib secret = None ->
      Auth._totp_now_from_secret lib secret st
      = (Err (mkExn ValueError Auth.invalid_secret), st)
      /\ Smoke._totp_now_from_secret lib secret st
         = (Err (mkExn ValueError Auth.invalid_secret), st)
      /\ exists m, Cli._totp_now_from_secret lib secret st
                   = (Err (mkExn SystemExit m), st))
  /\ (forall (a : Auth.args) st,
         Auth.arg_flow a = Auto ->
         given (totp_token cfg env (Auth.arg_totp_token a)) = true ->
         given (totp cfg env (Auth.arg_totp a)) = false ->
         given (totp_secret cfg env) = true ->
         totp_now lib (the (totp_secret cfg env)) = None ->
         Auth.main sdk lib cfg env a st
         = Auth.main sdk lib cfg env (with_flow Approval a)
             (noting Auth.note_fallback st))
  /\ (forall (a : Auth.args) st,
         Auth.arg_flow a = Totp ->
         given (totp_token_used cfg env (Auth.arg_totp_token a)) = true ->
         given (totp cfg env (Auth.arg_totp a)) = false ->
         given (totp_secret_used cfg env) = true ->
         totp_now lib (the (totp_secret_used cfg env)) = None ->
         Auth.main sdk lib cfg env a st
         = (Err (mkExn SystemExit Auth.invalid_secret),
            noting_all (legacy_notes cfg env (Auth.arg_totp_token a)) st))
  /\ (forall override st,
         given (totp_token cfg env None) = true ->
         given (totp cfg env override) = false ->
         given (totp_secret cfg env) = true ->
         totp_now lib (the (totp_secret cfg env)) = None ->
         Smoke._get_access_token sdk lib cfg env Auto override st
         = Smoke._get_access_token sdk lib cfg env Approval override
             (noting Auth.note_fallback st))
  /\ (forall override st,
         given (totp_token_used cfg env None) = true ->
         given (totp cfg env override) = false ->
         given (totp_secret_used cfg env) = true ->
         totp_now lib (the (totp_secret_used cfg env)) = None ->
         Smoke._get_access_token sdk lib cfg env Totp override st
         = (Err (mkExn SystemExit Auth.invalid_secret),
            noting_all (legacy_notes cfg env None) st)).
Proof.
  split; [|split; [|split; [|split]]].
  - intros secret st H.
    unfold Auth._totp_now_from_secret, Smoke._totp_now_from_secret,
      Cli._totp_now_from_secret, totp_now_or.
    rewrite H. split; [reflexivity|]. split; [reflexivity|].
    eexists. reflexivity.
  - intros. apply auth_invalid_secret_auto; assumption.
  - intros. apply auth_invalid_secret_totp; assumption.
  - intros. apply smoke_invalid_secret_auto; assumption.
  - intros. apply smoke_invalid_secret_totp; assumption.
Qed.

End totp_secret_facts.

Lemma invalid_totp_secret_exits_or_falls_back_witness :
  (Auth._totp_now_from_secret Sample.lib "not base32!" (Run.initial [])
   = (Run.Err (Run.mkExn Run.ValueError Auth.invalid_secret), Run.initial []))
  /\ Auth.main Sample.sdk Sample.lib Sample.bad_secret_file ∅
       (Sample.auth_args Common.Auto) (Run.initial [])
     = Auth.main Sample.sdk Sample.lib Sample.bad_secret_file ∅
         (Obs.with_flow Common.Approval (Sample.auth_args Common.Auto))
         (Obs.noting Auth.note_fallback (Run.initial []))
  /\ Auth.main Sample.sdk Sample.lib Sample.bad_secret_file ∅
       (Sample.auth_args Common.Totp) (Run.initial [])
     = (Run.Err (Run.mkExn Run.SystemExit Auth.invalid_secret),
        Obs.noting_all
          (Obs.legacy_notes Sample.bad_secret_file ∅
             (Auth.arg_totp_token (Sample.auth_args Common.Totp)))
          (Run.initial []))
  /\ Smoke._get_access_token Sample.sdk Sample.lib Sample.bad_secret_file ∅
       Common.Auto None (Run.initial [])
     = Smoke._get_access_token Sample.sdk Sample.lib Sample.bad_secret_file ∅
         Common.Approval None (Obs.noting Auth.note_fallback (Run.initial []))
  /\ Smoke._get_access_token Sample.sdk Sample.lib Sample.bad_secret_file ∅
       Common.Totp None (Run.initial [])
     = (Run.Err (Run.mkExn Run.SystemExit Auth.invalid_secret),
        Obs.noting_all (Obs.legacy_notes Sample.bad_secret_file ∅ None)
          (Run.initial [])).
Proof.
  destruct (invalid_totp_secret_exits_or_falls_back Sample.sdk Sample.lib
              Sample.bad_secret_file ∅) as (H1 & H2 & H3 & H4 & H5).
  split; [|split; [|split; [|split]]].
  - apply (H1 "not base32!" (Run.initial [])). reflexivity.
  - apply (H2 (Sample.auth_args Common.Auto) (Run.initial [])); reflexivity.
  - apply (H3 (Sample.auth_args Common.Totp) (Run.initial [])); reflexivity.
  - apply (H4 None (Run.initial [])); reflexivity.
  - apply (H5 None (Run.initial [])); reflexivity.
Defined.

Example auth_auto_falls_back :
  Auth.main Sample.sdk Sample.lib Sample.bad_secret_file ∅
    (Sample.auth_args Common.Auto) (Run.initial [])
  = (Run.Ok 0%Z,
     Run.mkState []
       [Run.EPrint Auth.note_fallback;
        Run.ETokenApproval "AK-1" "AS-1";
        Run.EClient (Py.PStr "eyJ-token-by-approval");
        Run.EPrint "Access token: eyJ-to...oval"]
       None []).
Proof. reflexivity. Qed.

(** ** Rename notices *)

Section notice_facts.
Import Py Run World Common Obs.
Context (sdk : World.sdk) (lib : pylib) (cfg : config) (env : environ).


















End notice_facts.



Example auth_totp_run_on_legacy_names :
  Run.trace
    (snd (Auth.main Sample.sdk Sample.lib Sample.legacy_file ∅
            (Sample.auth_args Common.Totp) (Run.initial [])))
  = [Run.EPrint Auth.note_api_key;
     Run.EPrint Auth.note_secret;
     Run.ETokenTotp "LK-1" "492039";
     Run.EClient (Py.PStr "eyJ-token-by-totp-0001");
     Run.EPrint "Access token: eyJ-to...0001"].
Proof. reflexivity. Qed.

(** ** Stripping and the first non-empty value *)

Section first_facts.
Import Py Common.

Lemma lstrip_head (s : string) :
  lstrip s = EmptyString
  \/ exists c r, lstrip s = String c r /\ is_space c = false.
Proof.
  induction s as [|c s IH]; simpl; [left; reflexivity|].
  destruct (is_space c) eqn:E; [exact IH|].
  right. exists c, s. split; [reflexivity|exact E].
Qed.

Lemma rstrip_idempotent (s : string) : rstrip (rstrip s) = rstrip s.
Proof.
  induction s as [|c s IH]; simpl; [reflexivity|].
  destruct (rstrip s) as [|c' s'] eqn:E.
  - destruct (is_space c) eqn:Ec; simpl; [reflexivity|].
    rewrite Ec. reflexivity.
  - simpl. simpl in IH. rewrite IH. reflexivity.
Qed.

Lemma rstrip_keeps_head (c : ascii) (r : string) :
  is_space c = false -> rstrip (String c r) = String c (rstrip r).
Proof.
  intros E. simpl. destruct (rstrip r); [rewrite E|]; reflexivity.
Qed.

Lemma strip_idempotent (s : string) : strip (strip s) = strip s.
Proof.
  unfold strip. destruct (lstrip_head s) as [H|(c & r & H & E)]; rewrite H.
  - reflexivity.
  - rewrite (rstrip_keeps_head c r E). simpl lstrip. rewrite E.
    rewrite <- (rstrip_keeps_head c r E). apply rstrip_idempotent.
Qed.

(** What [_first] answers with is stripped and not empty. *)
Lemma first_is_given (l : list (option string)) (v : string) :
  _first l = Some v -> nonempty v = true /\ strip v = v.
Proof.
  induction l as [|[x|] l IH]; simpl; intros H; [discriminate| |auto].
  destruct (nonempty (strip x)) eqn:E; [|auto].
  inversion H; subst. split; [exact E|apply strip_idempotent].
Qed.

Lemma given_first (l : list (option string)) :
  given (_first l) = false -> _first l = None.
Proof.
  destruct (_first l) as [v|] eqn:E; [|reflexivity].
  destruct (first_is_given l v E) as [H _]. simpl. congruence.
Qed.

Lemma given_some (l : list (option string)) :
  given (_first l) = true -> _first l = Some (the (_first l)).
Proof. destruct (_first l); [reflexivity|discriminate]. Qed.

(** [_first] is the specification's first non-empty value. *)
Lemma first_is_first_given (l : list (option string)) :
  _first l = Spec.first_given l.
Proof.
  unfold Spec.first_given.
  induction l as [|[x|] l IH]; simpl; [reflexivity| |exact IH].
  unfold Spec.usable at 1. simpl.
  destruct (nonempty (strip x)); [reflexivity|exact IH].
Qed.

(** A source that is itself a first non-empty value can be spliced in. *)
Lemma first_splice (l1 l2 l3 : list (option string)) :
  _first (l1 ++ _first l2 :: l3)%list = _first (l1 ++ l2 ++ l3)%list.
Proof.
  induction l1 as [|[x|] l1 IH]; simpl.
  - destruct (_first l2) as [v|] eqn:E.
    + destruct (first_is_given l2 v E) as [Hn Hs]. rewrite Hs, Hn.
      clear Hn Hs. revert E.
      induction l2 as [|[y|] l2 IH2]; simpl; intros E; [discriminate| |auto].
      destruct (nonempty (strip y)); [symmetry; exact E|auto].
    + induction l2 as [|[y|] l2 IH2]; simpl in *; [reflexivity| |auto].
      destruct (nonempty (strip y)); [discriminate E|auto].
  - destruct (nonempty (strip x)); [reflexivity|exact IH].
  - exact IH.
Qed.

(** The first non-empty value of a list is that of its front part, and
    failing it that of the rest. *)
Lemma first_app (l1 l2 : list (option string)) :
  _first (l1 ++ l2)%list
  = if given (_first l1) then _first l1 else _first l2.
Proof.
  induction l1 as [|[x|] l1 IH]; simpl; [reflexivity| |exact IH].
  destruct (nonempty (strip x)) eqn:E; [|exact IH].
  simpl. rewrite E. reflexivity.
Qed.

End first_facts.

(** ** Where the credentials of a token request come from *)

Ltac run_cases H :=
  repeat (unfold mret, Run.M_ret, Run.raise, Run.lift in H;
          cbv beta iota zeta in H;
          cbn [negb andb orb Common.flow_eqb Run.is_ValueError
               Run.is_Exception Run.cls Run.msg fst snd] in H;
          match type of H with
          | context [Common.given ?x] => destruct (Common.given x) eqn:?
          | context [World.totp_now ?l ?x] =>
              destruct (World.totp_now l x) eqn:?
          | context [match ?o with
                     | World.Returned _ => _
                     | World.Raised _ => _
                     end] => destruct o eqn:?
          | context [match Run.stdin ?s with [] => _ | _ :: _ => _ end] =>
              destruct (Run.stdin s) eqn:?
          | context [if ?b then _ else _] => destruct b eqn:?
          end).

Section request_facts.
Import Py Run World Common Obs Spec.
Context (sdk : World.sdk) (lib : pylib) (cfg : config) (env : environ).

Lemma all_weaken {A} (Q1 Q2 : event -> Prop) (m : M A) :
  (forall ev, Q1 ev -> Q2 ev) -> emits_all Q1 m -> emits_all Q2 m.
Proof.
  intros HQ Hm st r st' H. destruct (Hm _ _ _ H) as (evs & T & F).
  exists evs. split; [exact T|]. eapply Forall_impl; [exact F|exact HQ].
Qed.

Lemma all_of_only {A} (P : event -> bool) (Q : event -> Prop) (m : M A) :
  (forall ev, P ev = true -> Q ev) -> emits_only P m -> emits_all Q m.
Proof.
  intros HQ Hm st r st' H. destruct (Hm _ _ _ H) as (evs & T & F).
  exists evs. split; [exact T|].
  rewrite forallb_forall in F. apply Forall_forall. intros ev Hin.
  apply HQ, F. apply list_elem_of_In. exact Hin.
Qed.

Lemma all_ret {A} (Q : event -> Prop) (a : A) : emits_all Q (mret a).
Proof.
  intros st r st' H. inversion H; subst. exists [].
  split; [symmetry; apply app_nil_r|constructor].
Qed.

Lemma all_bind {A B} (Q : event -> Prop) (m : M A) (f : A -> M B) :
  emits_all Q m -> (forall a, emits_all Q (f a)) -> emits_all Q (m ≫= f).
Proof.
  intros Hm Hf st r st' H. unfold mbind, M_bind in H.
  destruct (m st) as [[a|e] st1] eqn:E.
  - destruct (Hm _ _ _ E) as (e1 & T1 & F1).
    destruct (Hf a _ _ _ H) as (e2 & T2 & F2).
    exists (e1 ++ e2)%list. rewrite T2, T1, app_assoc.
    split; [reflexivity|]. apply Forall_app. split; assumption.
  - inversion H; subst. apply (Hm _ _ _ E).
Qed.

Lemma given_is_some (x : option string) :
  given x = true -> x = Some (the x).
Proof. destruct x; [reflexivity|discriminate]. Qed.

(** Closing a leaf of a case analysis: the run is known, its events are
    read off, and what they must satisfy is computed. *)
Ltac read_events H :=
  inversion H; subst; clear H; cbn [trace];
  first [ exists []; split; [symmetry; apply app_nil_r|constructor]
        | eexists; split; [rewrite <- ?app_assoc; reflexivity|] ].

Ltac use_cases :=
  repeat match goal with
         | E : given _ = _ |- _ => rewrite E
         | E : totp_now _ _ = _ |- _ => rewrite E
         end.

(** The TOTP branch of the authenticator requests a token with the
    token of the flow, failing it the legacy key, and with the code
    typed or exported, failing it derived, failing it of the file. *)
Lemma auth_totp_branch_requests (a : Auth.args)
  (la ls tt tp ts tc : option string) :
  emits_all
    (fun ev =>
       match ev with
       | ETokenTotp k o =>
           or_else tt la = Some k
           /\ or_else tp (or_else (derived lib (or_else ts ls)) tc) = Some o
       | ETokenApproval _ _ => False
       | _ => True
       end)
    (Auth.totp_branch sdk lib a la ls tt tp ts tc).
Proof.
  intros st r st' H. run_monad. run_cases H; read_events H;
    repeat (constructor; try exact I);
    unfold or_else, derived; use_cases; cbn [given the default] in *;
    use_cases;
    try (apply given_is_some; assumption);
    try congruence;
    repeat match goal with
           | E : nonempty ?c = _ |- _ => rewrite E
           end;
    cbn [given the default];
    repeat match goal with
           | E : nonempty ?c = _ |- _ => rewrite E
           end;
    try reflexivity; try (apply given_is_some; assumption).
Qed.

Lemma auth_approval_branch_requests (ak sk : option string) :
  emits_all
    (fun ev =>
       match ev with
       | ETokenApproval k s => ak = Some k /\ sk = Some s
       | ETokenTotp _ _ => False
       | _ => True
       end)
    (Auth.approval_branch sdk ak sk).
Proof.
  intros st r st' H. run_monad. run_cases H; read_events H;
    repeat (constructor; try exact I);
    apply given_is_some; assumption.
Qed.

(** The orders of the authenticator, as its first lines compute them. *)
Lemma auth_totp_token_order (override : option string) :
  Spec.auth_totp_token cfg env override
  = or_else (totp_token cfg env override) (legacy_api_key cfg env).
Proof.
  unfold Spec.auth_totp_token, or_else, totp_token, legacy_api_key.
  rewrite <- first_is_first_given.
  apply (first_app [override; cfg !! "totp_token"; env !! "GROWW_TOTP_TOKEN"]
                   [cfg !! "api_key"; env !! "GROWW_API_KEY"]).
Qed.

Lemma auth_totp_secret_order :
  Spec.auth_totp_secret cfg env
  = or_else (totp_secret cfg env) (legacy_secret cfg env).
Proof.
  unfold Spec.auth_totp_secret, or_else, totp_secret, legacy_secret.
  rewrite <- first_is_first_given.
  apply (first_app [cfg !! "totp_secret"; env !! "GROWW_TOTP_SECRET"]
                   [cfg !! "secret"; env !! "GROWW_API_SECRET"]).
Qed.

Lemma auth_code_order (override : option string) :
  Spec.auth_code lib cfg env override
  = or_else (totp cfg env override)
      (or_else (derived lib (or_else (totp_secret cfg env)
                                     (legacy_secret cfg env)))
               (totp_from_cfg cfg env)).
Proof.
  unfold Spec.auth_code. rewrite auth_totp_secret_order.
  rewrite <- !first_is_first_given. unfold totp, totp_from_cfg.
  assert (_first [override; _first [env !! "GROWW_TOTP"]]
          = _first [override; env !! "GROWW_TOTP"]) as E
      by exact (first_splice [override] [env !! "GROWW_TOTP"] []).
  rewrite E. reflexivity.
Qed.

Lemma auth_approval_api_key_order :
  Spec.auth_approval_api_key cfg env = approval_api_key cfg env.
Proof.
  unfold Spec.auth_approval_api_key, approval_api_key, legacy_api_key.
  rewrite <- first_is_first_given.
  symmetry.
  apply (first_splice [cfg !! "approval_api_key"]
                      [cfg !! "api_key"; env !! "GROWW_API_KEY"]
                      [env !! "GROWW_APPROVAL_API_KEY"]).
Qed.

Lemma auth_approval_secret_order :
  Spec.auth_approval_secret cfg env = approval_secret cfg env.
Proof.
  unfold Spec.auth_approval_secret, approval_secret, legacy_secret.
  rewrite <- first_is_first_given.
  symmetry.
  apply (first_splice [cfg !! "approval_secret"]
                      [cfg !! "secret"; env !! "GROWW_API_SECRET"]
                      [env !! "GROWW_APPROVAL_SECRET"]).
Qed.

(** Every token request of the authenticator carries the first
    non-empty values of the sources of its credentials. *)
Lemma auth_main_requests (a : Auth.args) :
  emits_all (auth_request_ok lib cfg env a) (Auth.main sdk lib cfg env a).
Proof.
  unfold Auth.main. apply all_bind; [|intros [u o]; apply all_bind].
  - match goal with
    | |- emits_all _ (if ?b then _ else _) => destruct b
    end; [|apply all_ret].
    eapply all_weaken; [|apply auth_totp_branch_requests].
    intros [] Hev; try exact I; try contradiction.
    unfold auth_request_ok.
    rewrite auth_totp_token_order, auth_code_order. exact Hev.
  - destruct (negb u); [|apply all_ret].
    eapply all_weaken; [|apply auth_approval_branch_requests].
    intros [] Hev; try exact I; try contradiction.
    unfold auth_request_ok.
    rewrite auth_approval_api_key_order, auth_approval_secret_order.
    exact Hev.
  - intros obj. apply (all_of_only no_request).
    + intros [] Hev; try exact I; discriminate Hev.
    + unfold new_api, print. trace_only.
Qed.

Lemma choose_loop_only (P : event -> bool) (rounds : nat) :
  (forall p, P (EInput p) = true) -> (forall l, P (EPrint l) = true) ->
  emits_only P (Cli.choose_loop rounds).
Proof.
  intros Hi Hp. induction rounds as [|n IH]; simpl; [apply only_raise|].
  unfold input, print.
  apply only_bind; [apply only_bind; [apply only_emit, Hi|]|].
  - intros _. apply only_read_line.
  - intros line.
    repeat match goal with
           | |- emits_only _ (if ?b then _ else _) => destruct b
           end; try apply only_ret.
    apply only_bind; [apply only_emit, Hp|intros _; exact IH].
Qed.

Lemma choose_flow_only (P : event -> bool) (aa at_ : bool) :
  (forall p, P (EInput p) = true) -> (forall l, P (EPrint l) = true) ->
  emits_only P (Cli._choose_flow aa at_).
Proof.
  intros Hi Hp. unfold Cli._choose_flow. destruct aa; [apply only_ret|].
  destruct at_; [apply only_ret|].
  intros st r st' H. eapply (choose_loop_only P _ Hi Hp), H.
Qed.

(** The orders of the interactive CLI are those of its first lines. *)
Lemma cli_code_order (override : option string) :
  Spec.cli_code lib cfg env override
  = or_else (_first [override; env !! "GROWW_TOTP"])
            (derived lib (_first [cfg !! "totp_secret";
                                  env !! "GROWW_TOTP_SECRET"])).
Proof.
  unfold Spec.cli_code, Spec.cli_totp_secret.
  rewrite <- !first_is_first_given. reflexivity.
Qed.

Lemma cli_get_access_token_requests (a : Cli.args) :
  emits_all (cli_request_ok lib cfg env a)
    (Cli._get_access_token sdk lib cfg env a).
Proof.
  unfold cli_request_ok. rewrite cli_code_order.
  unfold Spec.cli_approval_api_key, Spec.cli_approval_secret,
    Spec.cli_totp_token.
  rewrite <- !first_is_first_given.
  unfold Cli._get_access_token.
  set (K := _first [Cli.arg_approval_api_key a; cfg !! "approval_api_key";
                    cfg !! "api_key"; env !! "GROWW_APPROVAL_API_KEY";
                    env !! "GROWW_API_KEY"]).
  set (S := _first [Cli.arg_approval_secret a; cfg !! "approval_secret";
                    cfg !! "secret"; env !! "GROWW_APPROVAL_SECRET";
                    env !! "GROWW_API_SECRET"]).
  set (T := _first [Cli.arg_totp_token a; cfg !! "totp_token";
                    env !! "GROWW_TOTP_TOKEN"]).
  set (TS := _first [cfg !! "totp_secret"; env !! "GROWW_TOTP_SECRET"]).
  set (O := _first [Cli.arg_totp a; env !! "GROWW_TOTP"]).
  clearbody K S T TS O.
  apply all_bind.
  - destruct (Cli.arg_flow a); [|apply all_ret..].
    apply (all_of_only no_request).
    + intros [] Hev; try exact I; discriminate Hev.
    + apply choose_flow_only; reflexivity.
  - intros f st r st' H.
    unfold Cli._totp_now_from_secret, getpass, read_line in H. run_monad.
    destruct f; run_cases H; read_events H;
      repeat (constructor; try exact I);
      unfold unless_typed, or_else, derived; use_cases;
      cbn [given the default] in *; use_cases;
      repeat match goal with
             | E : nonempty ?c = _ |- _ => rewrite E
             end;
      cbn [given the default];
      try (intros _; apply given_is_some; assumption);
      try (intros Hc; discriminate Hc);
      try congruence; try reflexivity.
Qed.

Lemma web_code_order (c : config) (form_totp form_secret : string) :
  Spec.web_code lib c form_totp form_secret
  = or_else (_first [Some form_totp; c !! "totp"])
            (shown lib (_first [Some form_secret; c !! "totp_secret"])).
Proof.
  unfold Spec.web_code, Spec.web_totp_secret.
  rewrite <- !first_is_first_given. reflexivity.
Qed.

Lemma connect_requests (f : flow) (use_secrets : bool)
  (k s t ts o : string) :
  emits_all
    (web_request_ok lib (if use_secrets then cfg else ∅) k s t ts o)
    (Gradio.connect sdk lib cfg f use_secrets k s t ts o).
Proof.
  unfold web_request_ok. rewrite web_code_order.
  unfold Spec.web_approval_api_key, Spec.web_approval_secret,
    Spec.web_totp_token.
  rewrite <- !first_is_first_given.
  unfold Gradio.connect. cbv zeta.
  set (c := if use_secrets then cfg else ∅).
  set (K := _first [Some k; c !! "approval_api_key"; c !! "api_key"]).
  set (S := _first [Some s; c !! "approval_secret"; c !! "secret"]).
  set (T := _first [Some t; c !! "totp_token"]).
  set (TS := _first [Some ts; c !! "totp_secret"]).
  set (O := _first [Some o; c !! "totp"]).
  clearbody K S T TS O. clear c.
  intros st r st' H.
  unfold Gradio._get_client in H. run_monad.
  destruct f; run_cases H; read_events H;
    repeat (constructor; try exact I);
    unfold or_else, shown; use_cases;
    cbn [given the default] in *; use_cases;
    repeat match goal with
           | E : nonempty ?c = _ |- _ => rewrite E
           end;
    cbn [given the default];
    try (apply given_is_some; assumption);
    try congruence; try reflexivity.
Qed.

End request_facts.

(** C1, amended: in every run of each entry point, the credentials of
    every token request are the first non-empty values of their sources,
    in the order the entry point reads them.  For the authenticator that
    order puts the environment before the legacy keys of the secrets
    file in the TOTP flow; for the interactive CLI a prompt appears only
    for a credential none of its sources gives, and a credential that a
    source gives is the one sent; the web form reads its fields and the
    secrets file. *)
Theorem credentials_are_the_first_non_empty_sources
  (sdk : World.sdk) (lib : World.pylib)
  (cfg : Common.config) (env : Common.environ) :
  (forall a : Auth.args,
      Obs.emits_all (Obs.auth_request_ok lib cfg env a)
        (Auth.main sdk lib cfg env a))
  /\ (forall a : Cli.args,
         Obs.emits_all (Obs.cli_request_ok lib cfg env a)
           (Cli._get_access_token sdk lib cfg env a))
  /\ (forall (f : Common.flow) (use_secrets : bool)
         (approval_api_key approval_secret totp_token totp_secret
            totp : string),
         Obs.emits_all
           (Obs.web_request_ok lib (if use_secrets then cfg else ∅)
              approval_api_key approval_secret totp_token totp_secret totp)
           (Gradio.connect sdk lib cfg f use_secrets approval_api_key
              approval_secret totp_token totp_secret totp)).
Proof.
  split; [|split].
  - intros a. apply auth_main_requests.
  - intros a. apply cli_get_access_token_requests.
  - intros f u k s t ts o. apply connect_requests.
Qed.

Lemma credentials_are_the_first_non_empty_sources_witness :
  Obs.emits_all
    (Obs.auth_request_ok Sample.lib Sample.pasted_code_file
       Sample.totp_environ (Sample.auth_args Common.Totp))
    (Auth.main Sample.sdk Sample.lib Sample.pasted_code_file
       Sample.totp_environ (Sample.auth_args Common.Totp)).
Proof.
  exact (proj1 (credentials_are_the_first_non_empty_sources
                  Sample.sdk Sample.lib Sample.pasted_code_file
                  Sample.totp_environ)
               (Sample.auth_args Common.Totp)).
Defined.

(** C1 as it is stated fails for the authenticator: with [api_key] and
    [totp] in the secrets file and GROWW_TOTP_TOKEN and GROWW_TOTP
    exported, [--flow totp] sends the two values of the environment,
    where the stated order puts the keys of the secrets file first. *)
Lemma environment_wins_over_legacy_keys :
  Run.trace
    (snd (Auth.main Sample.sdk Sample.lib Sample.pasted_code_file
            Sample.totp_environ (Sample.auth_args Common.Totp)
            (Run.initial [])))
  = [Run.ETokenTotp "ET-1" "222222";
     Run.EClient (Py.PStr "eyJ-token-by-totp-0001");
     Run.EPrint "Access token: eyJ-to...0001"]
  /\ Spec.stated_order None (Sample.pasted_code_file !! "totp_token")
       (Sample.pasted_code_file !! "api_key")
       (Sample.totp_environ !! "GROWW_TOTP_TOKEN") = Some "LK-1"
  /\ Spec.stated_order None None (Sample.pasted_code_file !! "totp")
       (Sample.totp_environ !! "GROWW_TOTP") = Some "111111".
Proof. split; [|split]; reflexivity. Qed.

(** ** Candles as rows *)

Section candle_facts.
Import Py Run World Gradio Obs.
Context (lib : pylib).

Lemma candle_row_shape (candle : value) (o : option value) :
  candle_row lib candle = Ok o ->
  row_shaped candle = match o with Some _ => true | None => false end.
Proof.
  destruct candle; simpl; intros H;
    try (injection H as <-; reflexivity);
    match type of H with
    | context [_format_ts lib ?x] => destruct (_format_ts lib x)
    end;
    try discriminate H; injection H as <-; reflexivity.
Qed.

(** The rows are appended one per candle that is a dict, a list or a
    tuple, in the order of the candles; the other candles are skipped. *)
Lemma rows_of_one_row_per_candle (candles : list value) :
  forall acc rows,
    rows_of lib candles acc = Ok rows ->
    exists new,
      rows = (acc ++ new)%list
      /\ Forall2 (fun candle row => candle_row lib candle = Ok (Some row))
           (List.filter row_shaped candles) new.
Proof.
  induction candles as [|candle r IH]; simpl; intros acc rows H.
  - injection H as <-. exists []. rewrite app_nil_r.
    split; [reflexivity|constructor].
  - destruct (candle_row lib candle) as [[row|]|e] eqn:E;
      [| |discriminate H].
    + rewrite (candle_row_shape _ _ E).
      destruct (IH _ _ H) as (new & -> & Hnew).
      exists (row :: new). rewrite <- app_assoc.
      split; [reflexivity|constructor; assumption].
    + rewrite (candle_row_shape _ _ E). exact (IH _ _ H).
Qed.

Lemma candles_to_rows_one_row_per_candle (data : value)
  (rows : list value) :
  _candles_to_rows lib data = Ok rows ->
  Forall2 (fun candle row => candle_row lib candle = Ok (Some row))
    (List.filter row_shaped (_extract_candles data)) rows.
Proof.
  intros H. destruct (rows_of_one_row_per_candle _ _ _ H) as (new & -> & Hn).
  exact Hn.
Qed.

(** The row of a sequence-shaped candle: positions 0 to 5, [None] for
    a position the candle does not have. *)
Lemma sequence_candle_row (c : list value) (row : value) :
  candle_row lib (PList c) = Ok (Some row)
  \/ candle_row lib (PTuple c) = Ok (Some row) ->
  exists ts,
    _format_ts lib (item_or_none c 0) = Ok ts
    /\ row = PDict [("timestamp", ts);
                    ("open", item_or_none c 1);
                    ("high", item_or_none c 2);
                    ("low", item_or_none c 3);
                    ("close", item_or_none c 4);
                    ("volume", item_or_none c 5)].
Proof.
  simpl. intros [H|H];
    destruct (_format_ts lib (item_or_none c 0)) as [ts|e];
    try discriminate H; injection H as <-;
    exists ts; split; reflexivity.
Qed.

(** The row of a dict-shaped candle has the six fields; a field is the
    value under its long key when that value is true in Python's sense,
    and the value under its short key otherwise. *)
Lemma dict_candle_row (c : dict) (row : value) :
  candle_row lib (PDict c) = Ok (Some row) ->
  exists ts,
    row = PDict [("timestamp", ts);
                 ("open", py_or (get c "open") (get c "o"));
                 ("high", py_or (get c "high") (get c "h"));
                 ("low", py_or (get c "low") (get c "l"));
                 ("close", py_or (get c "close") (get c "c"));
                 ("volume", py_or (get c "volume") (get c "v"))].
Proof.
  simpl. intros H.
  match type of H with
  | context [_format_ts lib ?x] => destruct (_format_ts lib x) as [ts|e]
  end; [|discriminate H].
  injection H as <-. exists ts. reflexivity.
Qed.

End candle_facts.

(** C7, at an interval in which nothing was traded: the row of the
    dict-shaped candle has no volume although the candle has the key
    [volume], with the value 0; the row of the same candle as a sequence
    has the volume 0. *)
Theorem dict_candle_loses_a_zero_volume :
  Gradio._candles_to_rows Sample.lib Sample.quiet_candles
  = Run.Ok
      [Py.PDict [("timestamp", Py.PStr "2024-01-01 09:15:00");
                 ("open", Py.PFloat 5%float); ("high", Py.PFloat 5%float);
                 ("low", Py.PFloat 5%float); ("close", Py.PFloat 5%float);
                 ("volume", Py.PNone)];
       Py.PDict [("timestamp", Py.PStr "2024-01-01 09:15:00");
                 ("open", Py.PFloat 5%float); ("high", Py.PFloat 5%float);
                 ("low", Py.PFloat 5%float); ("close", Py.PFloat 5%float);
                 ("volume", Py.PInt 0)]].
Proof. vm_compute. reflexivity. Qed.

(** ** Searching the instruments *)

Section search_facts.
Import Py Run World Common Obs.
Context (lib : pylib).

Lemma head_rows (n : Z) (df : Pandas.DataFrame) (row : list Pandas.cell) :
  In row (Pandas.rows (Pandas.head n df)) -> In row (Pandas.rows df).
Proof.
  unfold Pandas.head. simpl.
  set (k := if (0 <=? n)%Z then _ else _). clearbody k. intros H.
  rewrite <- (firstn_skipn k (Pandas.rows df)).
  apply in_or_app. left. exact H.
Qed.

Lemma head_length (n : Z) (df : Pandas.DataFrame) :
  (0 <= n)%Z ->
  (length (Pandas.rows (Pandas.head n df)) <= Z.to_nat n)%nat.
Proof.
  intros Hn. unfold Pandas.head. simpl.
  destruct (0 <=? n)%Z eqn:E; [|lia].
  rewrite length_firstn. lia.
Qed.

Lemma select_rows (keep : list Pandas.cell -> bool)
  (df : Pandas.DataFrame) (row : list Pandas.cell) :
  In row (Pandas.rows (Pandas.select keep df)) ->
  In row (Pandas.rows df) /\ keep row = true.
Proof. simpl. intros H. apply filter_In in H. exact H. Qed.

(** After the filter on [col], every row passes it, and the table has
    the same columns and a part of the rows. *)
Lemma filter_upper_rows (col : string) (x : option string)
  (df out : Pandas.DataFrame) :
  (if given x then Gradio.filter_upper col (the x) df else Ok df) = Ok out ->
  Pandas.columns out = Pandas.columns df
  /\ (forall row, In row (Pandas.rows out) ->
        In row (Pandas.rows df) /\ passes df col x row).
Proof.
  unfold passes. destruct (given x) eqn:G.
  - unfold Gradio.filter_upper.
    destruct (Pandas.index_of col (Pandas.columns df)) as [i|] eqn:E;
      [|discriminate].
    intros H. injection H as <-. split; [reflexivity|].
    intros row Hr. apply select_rows in Hr. destruct Hr as [Hr Hk].
    split; [exact Hr|]. intros _. exists i. split; [reflexivity|exact Hk].
  - intros H. injection H as <-. split; [reflexivity|].
    intros row Hr. split; [exact Hr|]. intros Hc. discriminate Hc.
Qed.

(** A query that is empty once stripped finds nothing. *)
Lemma search_needs_a_query (df : Pandas.DataFrame) (query : string)
  (exchange segment : option string) (limit : Z) :
  nonempty (lower (strip query)) = false ->
  exists out,
    Cli._search_instruments lib df query exchange segment limit = Ok out
    /\ Pandas.rows out = [].
Proof.
  intros H. unfold Cli._search_instruments. cbv zeta. rewrite H. simpl.
  eexists. split; reflexivity.
Qed.

(** No more rows than a limit that is not negative. *)
Lemma search_at_most_limit (df out : Pandas.DataFrame) (query : string)
  (exchange segment : option string) (limit : Z) :
  (0 <= limit)%Z ->
  Cli._search_instruments lib df query exchange segment limit = Ok out ->
  (length (Pandas.rows out) <= Z.to_nat limit)%nat.
Proof.
  intros Hl. unfold Cli._search_instruments. cbv zeta.
  destruct (negb (nonempty (lower (strip query)))).
  { intros H. injection H as <-. simpl. lia. }
  destruct (if given exchange then _ else _) as [f1|e]; [|discriminate].
  destruct (if given segment then _ else _) as [f2|e]; [|discriminate].
  destruct (Gradio.build_mask _ _ _ _ _) as [[mask|]|e]; [| |discriminate];
    intros H; injection H as <-.
  - apply head_length. exact Hl.
  - simpl. lia.
Qed.

(** Every row found passes the two filters. *)
Lemma search_keeps_the_filters (df out : Pandas.DataFrame) (query : string)
  (exchange segment : option string) (limit : Z) :
  nonempty (lower (strip query)) = true ->
  Cli._search_instruments lib df query exchange segment limit = Ok out ->
  forall row, In row (Pandas.rows out) ->
    In row (Pandas.rows df)
    /\ passes df "exchange" exchange row
    /\ passes df "segment" segment row.
Proof.
  intros Hq. unfold Cli._search_instruments. cbv zeta. rewrite Hq.
  cbn [negb].
  destruct (if given exchange then _ else _) as [f1|e] eqn:E1;
    [|discriminate].
  destruct (if given segment then _ else _) as [f2|e] eqn:E2;
    [|discriminate].
  destruct (filter_upper_rows _ _ _ _ E1) as [C1 R1].
  destruct (filter_upper_rows _ _ _ _ E2) as [C2 R2].
  assert (Hin : forall row, In row (Pandas.rows f2) ->
                  In row (Pandas.rows df)
                  /\ passes df "exchange" exchange row
                  /\ passes df "segment" segment row).
  { intros row Hr. destruct (R2 row Hr) as [Hr1 P2].
    destruct (R1 row Hr1) as [Hr0 P1].
    split; [exact Hr0|]. split; [exact P1|].
    unfold passes in *. rewrite <- C1. exact P2. }
  destruct (Gradio.build_mask _ _ _ _ _) as [[mask|]|e]; [| |discriminate];
    intros H; injection H as <-; intros row Hr; apply head_rows in Hr.
  - apply select_rows in Hr. apply Hin. exact (proj1 Hr).
  - apply Hin. exact Hr.
Qed.

End search_facts.

(** C8, at the query [n.m]: the search reads the query as a regular
    expression, so it finds the row of NAME, none of whose searched
    columns contains the query. *)
Theorem search_reads_the_query_as_a_pattern :
  Cli._search_instruments Sample.lib Sample.instruments "n.m" None None 25
  = Run.Ok
      (Pandas.mkDataFrame
         ["exchange"; "segment"; "trading_symbol"; "name"; "isin"]
         [[Pandas.CStr "BSE"; Pandas.CStr "CASH"; Pandas.CStr "NAME";
           Pandas.CStr "Name Holdings"; Pandas.CStr "INE000X00000"]])
  /\ existsb (fun text => Py.contains "n.m" (Py.lower text))
       ["NAME"; "Name Holdings"; "INE000X00000"] = false.
Proof. split; vm_compute; reflexivity. Qed.

(** With a negative limit the search returns all the rows found but the
    last ones. *)
Example search_with_a_negative_limit :
  option_map (fun out => length (Pandas.rows out))
    (match Cli._search_instruments Sample.lib Sample.instruments "i" None
             None (-1) with
     | Run.Ok out => Some out
     | Run.Err _ => None
     end)
  = Some 2%nat.
Proof. vm_compute. reflexivity. Qed.

(** ** The first non-empty value, on its own *)

Section first_value_facts.
Import Py Common Obs.

(** [_first] answers with the first value that is not blank, stripped,
    and with [None] exactly when every value is absent or blank. *)
Theorem first_returns_the_first_usable_value (l : list (option string)) :
  match _first l with
  | Some v =>
      exists before x after,
        l = (before ++ Some x :: after)%list
        /\ Forall blank before
        /\ v = strip x /\ nonempty v = true /\ strip v = v
  | None => Forall blank l
  end.
Proof.
  induction l as [|[x|] l IH]; simpl.
  - constructor.
  - destruct (nonempty (strip x)) eqn:E.
    + exists [], x, l. repeat split; try assumption.
      * constructor.
      * apply strip_idempotent.
    + destruct (_first l) as [v|].
      * destruct IH as (before & y & after & -> & Hb & Hv).
        exists (Some x :: before), y, after.
        split; [reflexivity|]. split; [|exact Hv].
        constructor; [|exact Hb]. intros z Hz. injection Hz as <-. exact E.
      * constructor; [|exact IH]. intros z Hz. injection Hz as <-. exact E.
  - destruct (_first l) as [v|].
    + destruct IH as (before & y & after & -> & Hb & Hv).
      exists (None :: before), y, after.
      split; [reflexivity|]. split; [|exact Hv].
      constructor; [|exact Hb]. intros z Hz. discriminate Hz.
    + constructor; [|exact IH]. intros z Hz. discriminate Hz.
Qed.

(** The result of one [_first] passed as a value to another gives what
    its own values give when they are listed in its place. *)
Theorem nested_first_reads_as_one_list (l1 l2 l3 : list (option string)) :
  _first (l1 ++ _first l2 :: l3)%list = _first (l1 ++ l2 ++ l3)%list.
Proof. apply first_splice. Qed.

End first_value_facts.

(** ** Redacting a token *)

Section redact_facts.
Import Py Common.

Lemma substring_whole (s : string) : substring 0 (String.length s) s = s.
Proof. induction s as [|c s IH]; simpl; [reflexivity|]. rewrite IH. reflexivity. Qed.

Lemma substring_append (s : string) :
  forall n m k,
    substring n (m + k) s = substring n m s ++ substring (n + m) k s.
Proof.
  induction s as [|c s IH]; intros n m k.
  - destruct n, m, k; reflexivity.
  - destruct n as [|n].
    + destruct m as [|m].
      * reflexivity.
      * simpl. rewrite (IH 0%nat m k). reflexivity.
    + simpl. apply IH.
Qed.

Lemma substring_length (s : string) :
  forall n m,
    (n + m <= String.length s)%nat -> String.length (substring n m s) = m.
Proof.
  induction s as [|c s IH]; intros n m H; simpl in H.
  - assert (n = 0 /\ m = 0)%nat as [-> ->] by lia. reflexivity.
  - destruct n as [|n].
    + destruct m as [|m]; [reflexivity|].
      simpl. rewrite (IH 0%nat m) by (simpl; lia). reflexivity.
    + simpl. apply IH. lia.
Qed.

Lemma length_append (a b : string) :
  String.length (a ++ b) = (String.length a + String.length b)%nat.
Proof. induction a as [|c a IH]; simpl; [reflexivity|]. rewrite IH. reflexivity. Qed.

(** [_redact] shows nothing of a token of ten characters or fewer, and
    of a longer one its first six and last four characters: what lies
    between them is replaced by three dots. *)
Theorem redact_shows_at_most_ten_characters (v : string) :
  if (String.length v <=? 10)%nat
  then Auth._redact v = "***"
  else exists hidden,
         v = take 6 v ++ hidden ++ take_last 4 v
         /\ String.length hidden = (String.length v - 10)%nat
         /\ String.length (take 6 v) = 6%nat
         /\ String.length (take_last 4 v) = 4%nat
         /\ Auth._redact v = take 6 v ++ "..." ++ take_last 4 v.
Proof.
  unfold Auth._redact. change (6 + 4)%nat with 10%nat.
  destruct (String.length v <=? 10)%nat eqn:E; [reflexivity|].
  apply Nat.leb_gt in E.
  exists (substring 6 (String.length v - 10) v).
  unfold take, take_last.
  split; [|split; [|split; [|split]]].
  - rewrite <- (substring_whole v) at 1.
    replace (String.length v) with (6 + ((String.length v - 10) + 4))%nat
      at 1 by lia.
    rewrite (substring_append v 0 6).
    rewrite (substring_append v (0 + 6)).
    replace (0 + 6 + (String.length v - 10))%nat
      with (String.length v - 4)%nat by lia.
    reflexivity.
  - apply substring_length. lia.
  - apply substring_length. lia.
  - apply substring_length. lia.
  - reflexivity.
Qed.

End redact_facts.

(** ** Normalising what the SDK answers a token request with *)

Section normalize_facts.
Import Py Run World Common.

Lemma normalize_object_stripped (lib : pylib) (v : value) :
  strip (normalize_object lib v) = normalize_object lib v.
Proof.
  unfold normalize_object.
  destruct v; try apply strip_idempotent.
  destruct (token_candidate d); try apply strip_idempotent.
  destruct (nonempty (strip s)); apply strip_idempotent.
Qed.

(** The normaliser of the web UI and of the smoke test answers with
    what the one of the authenticator answers with, stripped; its
    answer has no white space around it.  On a dict whose first
    candidate that is true in Python's sense is a string with more than
    white space in it, both answer with that string, stripped. *)
Theorem normalize_token_strips_what_the_authenticator_keeps
  (lib : pylib) (v : value) :
  _normalize_token lib v = strip (_normalize_access_token lib v)
  /\ strip (_normalize_token lib v) = _normalize_token lib v
  /\ (forall d c,
        v = PDict d -> token_candidate d = PStr c ->
        nonempty (strip c) = true ->
        _normalize_token lib v = strip c
        /\ _normalize_access_token lib v = strip c).
Proof.
  unfold _normalize_token, _normalize_access_token.
  split; [|split].
  - destruct v; try (symmetry; apply normalize_object_stripped).
    reflexivity.
  - destruct v; try apply normalize_object_stripped.
    apply strip_idempotent.
  - intros d c -> Hc Hn. unfold normalize_object. rewrite Hc, Hn.
    split; reflexivity.
Qed.

End normalize_facts.

(** ** Symbols for the SDK *)

Section symbol_facts.
Import Py Common Obs.

Lemma nonempty_upper (s : string) : nonempty (upper s) = nonempty s.
Proof. destruct s; reflexivity. Qed.

Lemma contains_after (q a b : string) :
  contains q (q ++ b) = true -> contains q (a ++ q ++ b) = true.
Proof.
  intros H. induction a as [|c a IH]; [exact H|].
  simpl. rewrite IH. apply orb_true_r.
Qed.

Lemma qualify_qualified (exchange sym : string) :
  nonempty sym = true -> qualified (qualify exchange sym) = true.
Proof.
  intros Hs. unfold qualified, qualify.
  destruct (contains ":" sym || contains "_" sym) eqn:E.
  - rewrite Hs, E. reflexivity.
  - rewrite (contains_after "_" exchange sym)
      by (destruct sym; reflexivity).
    rewrite orb_true_r, andb_true_r.
    destruct exchange; reflexivity.
Qed.

(** [_format_exchange_symbols] answers with the symbols typed, each
    prefixed with the exchange unless it holds a colon or an underscore
    already; every symbol it answers with holds one of the two.  Entry 5
    of the menu of the CLI builds the same symbols. *)
Theorem format_exchange_symbols_qualifies_every_symbol
  (symbols exchange : string) :
  Gradio._format_exchange_symbols symbols exchange
  = PTuple (map (fun sym => PStr (qualify exchange sym))
                (typed_symbols symbols))
  /\ Forall (fun sym => qualified (qualify exchange sym) = true)
            (typed_symbols symbols)
  /\ PTuple (Cli.menu_symbols symbols exchange)
     = Gradio._format_exchange_symbols symbols exchange.
Proof.
  unfold Gradio._format_exchange_symbols, Cli.menu_symbols, typed_symbols.
  assert (H : forall raws items,
             (fix loop (raws : list string) (items : list value)
                : list value :=
                match raws with
                | [] => items
                | raw :: r =>
                    let sym := upper (strip raw) in
                    if negb (nonempty sym) then loop r items
                    else if contains ":" sym || contains "_" sym
                         then loop r (items ++ [PStr sym])%list
                         else loop r (items ++
                                [PStr (exchange ++ "_" ++ sym)%string])%list
                end) raws items
             = (items ++ map (fun sym => PStr (qualify exchange sym))
                  (List.filter nonempty
                     (map (fun raw => upper (strip raw)) raws)))%list).
  { intros raws. induction raws as [|raw r IH]; intros items.
    - simpl. symmetry. apply app_nil_r.
    - cbn [map List.filter]. cbv zeta.
      cbv zeta in IH.
      destruct (nonempty (upper (strip raw))) eqn:E; cbn [negb map].
      + unfold qualify at 1.
        destruct (contains ":" (upper (strip raw))
                  || contains "_" (upper (strip raw)));
          rewrite IH, <- app_assoc; reflexivity.
      + apply IH. }
  assert (H' : forall raws symbols0,
             (fix loop (parts : list string) (symbols : list value)
                : list value :=
                match parts with
                | [] => symbols
                | part :: r =>
                    if negb (nonempty (strip part)) then loop r symbols
                    else
                      let s := upper (strip part) in
                      if contains ":" s || contains "_" s
                      then loop r (symbols ++ [PStr s])%list
                      else loop r (symbols ++
                             [PStr (exchange ++ "_" ++ s)%string])%list
                end) raws symbols0
             = (symbols0 ++ map (fun sym => PStr (qualify exchange sym))
                  (List.filter nonempty
                     (map (fun raw => upper (strip raw)) raws)))%list).
  { intros raws. induction raws as [|raw r IH]; intros items.
    - simpl. symmetry. apply app_nil_r.
    - cbn [map List.filter]. cbv zeta. cbv zeta in IH.
      rewrite nonempty_upper.
      destruct (nonempty (strip raw)) eqn:E; cbn [negb map].
      + unfold qualify at 1.
        destruct (contains ":" (upper (strip raw))
                  || contains "_" (upper (strip raw)));
          rewrite IH, <- app_assoc; reflexivity.
      + apply IH. }
  rewrite H, H'. split; [reflexivity|]. split; [|reflexivity].
  apply Forall_forall. intros sym Hin.
  apply qualify_qualified.
  apply list_elem_of_In, filter_In in Hin. exact (proj2 Hin).
Qed.

End symbol_facts.

(** ** Pruning twice *)

Section prune_again_facts.
Import Py Spec Gradio.

Lemma keys_set (d : dict) (k : string) (v : value) :
  keys (set d k v)
  = if existsb (String.eqb k) (keys d) then keys d else (keys d ++ [k])%list.
Proof.
  induction d as [|[k' v'] d IH]; simpl; [reflexivity|].
  rewrite (String.eqb_sym k k').
  destruct (String.eqb k' k); simpl; [reflexivity|].
  rewrite IH. destruct (existsb (String.eqb k) (keys d)); reflexivity.
Qed.

Lemma distinct_snoc (l : list string) (k : string) :
  distinct l = true -> existsb (String.eqb k) l = false ->
  distinct (l ++ [k])%list = true.
Proof.
  induction l as [|k' l IH]; simpl; intros Hd Hk; [reflexivity|].
  apply andb_true_iff in Hd as [Hk' Hd].
  apply orb_false_elim in Hk as [Hkk Hk].
  rewrite existsb_app. simpl. rewrite (String.eqb_sym k' k), Hkk.
  rewrite !orb_false_r, Hk', (IH Hd Hk). reflexivity.
Qed.

Lemma set_keeps (Q : value -> Prop) (d : dict) (k : string) (v : value) :
  distinct (keys d) = true -> Forall (fun kv => Q (snd kv)) d -> Q v ->
  distinct (keys (set d k v)) = true
  /\ Forall (fun kv => Q (snd kv)) (set d k v).
Proof.
  intros Hd HQ Hv. split.
  - rewrite keys_set.
    destruct (existsb (String.eqb k) (keys d)) eqn:E; [exact Hd|].
    apply distinct_snoc; assumption.
  - clear Hd. induction HQ as [|[k' v'] d Hx Hl IH]; simpl.
    + constructor; [exact Hv|constructor].
    + destruct (String.eqb k' k); constructor; assumption.
Qed.

Lemma prune_items_keeps (rec : value -> value) (Q : value -> Prop)
  (d : list (string * value)) :
  Forall (fun kv => is_none (snd kv) = false -> Q (rec (snd kv))) d ->
  forall cleaned,
    distinct (keys cleaned) = true ->
    Forall (fun kv => Q (snd kv)) cleaned ->
    distinct (keys (prune_items rec d cleaned)) = true
    /\ Forall (fun kv => Q (snd kv)) (prune_items rec d cleaned).
Proof.
  induction 1 as [|[k v] d Hx Hd IH]; intros cleaned Hc HQ; simpl.
  - split; assumption.
  - simpl in Hx. destruct (is_none v) eqn:E; [apply IH; assumption|].
    destruct (set_keeps Q cleaned k (rec v) Hc HQ (Hx eq_refl)) as [H1 H2].
    apply IH; assumption.
Qed.

Lemma prune_items_fixed (d : dict) :
  distinct (keys d) = true ->
  Forall (fun kv => is_none (snd kv) = false
                    /\ _prune_nulls (snd kv) = snd kv) d ->
  prune_items _prune_nulls d [] = d.
Proof.
  intros Hd HQ. rewrite (prune_items_map _ d Hd). clear Hd.
  induction HQ as [|[k v] d [Hn Hv] Hl IH]; simpl; [reflexivity|].
  simpl in Hn, Hv. unfold not_null at 1. rewrite Hn. simpl.
  rewrite Hv. f_equal. exact IH.
Qed.

(** Pruning what [_prune_nulls] returned changes nothing. *)
Theorem prune_nulls_twice_is_once (v : value) :
  _prune_nulls (_prune_nulls v) = _prune_nulls v.
Proof.
  induction v as [| | | | |l IH|l IH|d IH] using value_ind';
    try reflexivity.
  - simpl. f_equal.
    induction IH as [|x l Hx Hl IHl]; simpl; [reflexivity|].
    destruct (is_none x) eqn:E; [exact IHl|].
    simpl. rewrite prune_not_null, E, Hx. f_equal. exact IHl.
  - simpl. f_equal.
    destruct (prune_items_keeps _prune_nulls
                (fun w => is_none w = false /\ _prune_nulls w = w) d)
      with (cleaned := @nil (string * value)) as [H1 H2].
    + eapply Forall_impl; [exact IH|].
      intros [k x] Hx Hn. simpl in *. split; [|exact Hx].
      rewrite prune_not_null. exact Hn.
    + reflexivity.
    + constructor.
    + apply prune_items_fixed; assumption.
Qed.

End prune_again_facts.

(** ** Rows of the candle table *)

Section candle_row_facts.
Import Py Run World Gradio Obs.
Context (lib : pylib).

Lemma rows_of_length (candles : list value) :
  forall acc rows,
    rows_of lib candles acc = Ok rows ->
    (length rows <= length acc + length candles)%nat.
Proof.
  induction candles as [|candle r IH]; simpl; intros acc rows H.
  - injection H as <-. lia.
  - destruct (candle_row lib candle) as [[row|]|e]; [| |discriminate H];
      apply IH in H; rewrite ?length_app in H; simpl in H; lia.
Qed.

(** When [_candles_to_rows] returns, it returns one row for each
    candle that is a dict, a list or a tuple, in the order of the
    candles, and no row for any other candle.  Every row has the six
    fields, in their order; those of a list or a tuple come from its
    positions 0 to 5, [None] standing for a position it does not have,
    and the timestamp is the one [_format_ts] makes of position 0. *)
Theorem candle_rows_follow_the_candles (data : value) (rows : list value) :
  _candles_to_rows lib data = Ok rows ->
  (length rows <= length (_extract_candles data))%nat
  /\ Forall2
       (fun candle row =>
          exists d,
            row = PDict d /\ keys d = row_fields
            /\ forall c, candle = PList c \/ candle = PTuple c ->
                 _format_ts lib (item_or_none c 0) = Ok (get d "timestamp")
                 /\ map (get d) (tl row_fields)
                    = map (item_or_none c) [1; 2; 3; 4; 5]%nat)
       (List.filter row_shaped (_extract_candles data)) rows.
Proof.
  intros H. split.
  - apply rows_of_length in H. exact H.
  - apply candles_to_rows_one_row_per_candle in H.
    eapply Forall2_impl; [exact H|].
    intros candle row Hrow. simpl in Hrow.
    destruct candle; try discriminate Hrow.
    + destruct (sequence_candle_row lib l row (or_introl Hrow))
        as (ts & Hts & ->).
      eexists. split; [reflexivity|]. split; [reflexivity|].
      intros c [Hc|Hc]; [|discriminate Hc]. injection Hc as <-.
      split; [exact Hts|reflexivity].
    + destruct (sequence_candle_row lib l row (or_intror Hrow))
        as (ts & Hts & ->).
      eexists. split; [reflexivity|]. split; [reflexivity|].
      intros c [Hc|Hc]; [discriminate Hc|]. injection Hc as <-.
      split; [exact Hts|reflexivity].
    + destruct (dict_candle_row lib d row Hrow) as (ts & ->).
      eexists. split; [reflexivity|]. split; [reflexivity|].
      intros c [Hc|Hc]; discriminate Hc.
Qed.

(** [_format_ts] answers with [None] for [None] only and with a text
    for anything else; the only error it lets through is the
    [OverflowError] of an integer beyond the range of a float. *)
Theorem format_ts_answers_with_text (v : value) :
  match _format_ts lib v with
  | Ok r => if is_none v then r = PNone else exists s, r = PStr s
  | Err e => cls e = OverflowError /\ exists z, v = PInt z
  end.
Proof.
  unfold _format_ts.
  destruct v; cbn [is_none py_float]; try reflexivity;
    repeat match goal with
           | |- context [float_of_Z ?z] => destruct (float_of_Z z)
           | |- context [float_of_string lib ?s] =>
               destruct (float_of_string lib s)
           | |- context [strftime_local lib ?x] =>
               destruct (strftime_local lib x)
           end;
    try (eexists; reflexivity);
    split; [reflexivity|eexists; reflexivity].
Qed.

End candle_row_facts.

Lemma candle_rows_follow_the_candles_witness :
  exists rows,
    Gradio._candles_to_rows Sample.lib Sample.quiet_candles = Run.Ok rows
    /\ length rows = 2%nat.
Proof.
  eexists. split; [reflexivity|].
  pose proof (candle_rows_follow_the_candles Sample.lib Sample.quiet_candles
                _ eq_refl) as [Hlen Hrows].
  apply Forall2_length in Hrows. symmetry. exact Hrows.
Defined.

(** ** What a search shows *)

Section search_result_facts.
Import Py Run World Common Obs.
Context (lib : pylib).

Lemma filter_sublist {A} (f : A -> bool) (l : list A) :
  sublist (List.filter f l) l.
Proof.
  induction l as [|x l IH]; simpl; [constructor|].
  destruct (f x); [apply sublist_skip|apply sublist_cons]; exact IH.
Qed.

Lemma head_sublist (n : Z) (df : Pandas.DataFrame) :
  sublist (Pandas.rows (Pandas.head n df)) (Pandas.rows df).
Proof. unfold Pandas.head. simpl. apply sublist_take. Qed.

Lemma filter_upper_sublist (col : string) (x : option string)
  (df out : Pandas.DataFrame) :
  (if given x then Gradio.filter_upper col (the x) df else Ok df) = Ok out ->
  sublist (Pandas.rows out) (Pandas.rows df).
Proof.
  destruct (given x).
  - unfold Gradio.filter_upper.
    destruct (Pandas.index_of col (Pandas.columns df)); [|discriminate].
    intros H. injection H as <-. apply filter_sublist.
  - intros H. injection H as <-. reflexivity.
Qed.

Lemma digits_value_nonneg (s : string) :
  forall acc, (0 <= acc)%Z -> (0 <= digits_value acc s)%Z.
Proof.
  induction s as [|c s IH]; simpl; intros acc H; [exact H|].
  apply IH. lia.
Qed.

(** What [_search_instruments] of the CLI returns is a part of the
    table: its columns, and some of its rows in their order, each of
    them passing the exchange and the segment filter when there is a
    query.  With a limit that is not negative it has at most that many
    rows, and the limit the menu computes from what is typed is never
    negative: 25 unless digits only are typed. *)
Theorem search_returns_a_part_of_the_table (df out : Pandas.DataFrame)
  (query : string) (exchange segment : option string) (limit : Z) :
  Cli._search_instruments lib df query exchange segment limit = Ok out ->
  Pandas.columns out = Pandas.columns df
  /\ sublist (Pandas.rows out) (Pandas.rows df)
  /\ (nonempty (lower (strip query)) = true ->
      forall row, In row (Pandas.rows out) ->
        passes df "exchange" exchange row
        /\ passes df "segment" segment row)
  /\ ((0 <= limit)%Z -> (length (Pandas.rows out) <= Z.to_nat limit)%nat)
  /\ (forall typed,
        (0 <= Cli.menu_limit typed)%Z
        /\ (isdigit typed = false -> Cli.menu_limit typed = 25%Z)).
Proof.
  intros H. split; [|split; [|split; [|split]]].
  - revert H. unfold Cli._search_instruments. cbv zeta.
    destruct (negb (nonempty (lower (strip query)))).
    { intros H. injection H as <-. reflexivity. }
    destruct (if given exchange then _ else _) as [f1|e] eqn:E1;
      [|discriminate].
    destruct (if given segment then _ else _) as [f2|e] eqn:E2;
      [|discriminate].
    destruct (filter_upper_rows _ _ _ _ E1) as [C1 _].
    destruct (filter_upper_rows _ _ _ _ E2) as [C2 _].
    destruct (Gradio.build_mask _ _ _ _ _) as [[mask|]|e]; [| |discriminate];
      intros H; injection H as <-; simpl; congruence.
  - revert H. unfold Cli._search_instruments. cbv zeta.
    destruct (negb (nonempty (lower (strip query)))).
    { intros H. injection H as <-. apply head_sublist. }
    destruct (if given exchange then _ else _) as [f1|e] eqn:E1;
      [|discriminate].
    destruct (if given segment then _ else _) as [f2|e] eqn:E2;
      [|discriminate].
    apply filter_upper_sublist in E1, E2.
    destruct (Gradio.build_mask _ _ _ _ _) as [[mask|]|e]; [| |discriminate];
      intros H; injection H as <-.
    + transitivity (Pandas.rows (Pandas.select mask f2));
        [apply head_sublist|].
      transitivity (Pandas.rows f2); [apply filter_sublist|].
      transitivity (Pandas.rows f1); assumption.
    + transitivity (Pandas.rows f2); [apply head_sublist|].
      transitivity (Pandas.rows f1); assumption.
  - intros Hq row Hin.
    exact (proj2 (search_keeps_the_filters lib _ _ _ _ _ _ Hq H row Hin)).
  - intros Hl. exact (search_at_most_limit lib _ _ _ _ _ _ Hl H).
  - intros typed. unfold Cli.menu_limit, int_of_digits.
    destruct (isdigit typed); split; try lia; try reflexivity;
      try discriminate.
    apply digits_value_nonneg. lia.
Qed.

End search_result_facts.

Lemma search_returns_a_part_of_the_table_witness :
  let out := Pandas.mkDataFrame
               ["exchange"; "segment"; "trading_symbol"; "name"; "isin"]
               [[Pandas.CStr "NSE"; Pandas.CStr "CASH"; Pandas.CStr "WIPRO";
                 Pandas.CStr "Wipro Ltd"; Pandas.CStr "INE075A01022"]] in
  Cli._search_instruments Sample.lib Sample.instruments " Wipro " (Some "nse")
    None 1 = Run.Ok out
  /\ sublist (Pandas.rows out) (Pandas.rows Sample.instruments)
  /\ (length (Pandas.rows out) <= 1)%nat.
Proof.
  intros out.
  assert (H : Cli._search_instruments Sample.lib Sample.instruments " Wipro "
                (Some "nse") None 1 = Run.Ok out) by reflexivity.
  split; [exact H|].
  destruct (search_returns_a_part_of_the_table Sample.lib _ _ _ _ _ _ H)
    as (_ & Hsub & _ & Hlen & _).
  split; [exact Hsub|]. apply Hlen. lia.
Defined.

(** A run that is known: its result and its final state, apart. *)
Ltac split_run H :=
  let H1 := fresh in
  let H2 := fresh in
  pose proof (f_equal fst H) as H1; pose proof (f_equal snd H) as H2;
  cbn [fst snd] in H1, H2; clear H; subst.

(** Case analysis of a run of the web UI, down to its leaves. *)
Ltac web_monad H :=
  unfold Gradio.search_instruments, Gradio._get_feed, Gradio._get_client,
    Gradio.feed_call, Gradio._lookup_instrument, Gradio.instrument_token,
    Common.new_api, Common.call, Run.get_instrument_cache,
    Run.set_instrument_cache, Run.get_feed_cache, Run.add_feed_cache,
    Run.emit, Run.try_except, Run.lift, mbind, Run.M_bind, mret, Run.M_ret,
    Run.raise, World.of_outcome in H.

Ltac web_cases H :=
  repeat (unfold mret, Run.M_ret, Run.raise, Run.lift in H;
          cbv beta iota zeta in H;
          cbn [negb andb orb Run.is_Exception Run.cls Run.msg fst snd
               Run.instrument_cache Run.feed_cache Run.trace Run.stdin] in H;
          match type of H with
          | context [match ?o with
                     | World.Returned _ => _
                     | World.Raised _ => _
                     end] => destruct o eqn:?
          | context [Gradio.filter_upper ?c ?x ?df] =>
              destruct (Gradio.filter_upper c x df) eqn:?
          | context [Gradio.build_mask ?l ?q ?df ?cols ?m] =>
              destruct (Gradio.build_mask l q df cols m) as [[?|]|?] eqn:?
          | context [match Run.instrument_cache ?s with
                     | Some _ => _
                     | None => _
                     end] => destruct (Run.instrument_cache s) eqn:?
          | context [match Pandas.rows ?v with
                     | [] => _
                     | _ :: _ => _
                     end] => destruct (Pandas.rows v) eqn:?
          | context [if ?b then _ else _] =>
              lazymatch b with
              | Pandas.has_column _ _ => fail
              | _ => destruct b eqn:?
              end
          end).

(** An error of the table code is an [Exception]: it cannot have got
    past [except Exception]. *)
Ltac uncaught :=
  match goal with
  | E : Gradio.build_mask ?l ?q ?df ?c ?m = Run.Err ?e,
    F : Run.is_Exception ?e = false |- _ =>
      let C := fresh in
      pose proof (build_mask_catchable l q df c m) as C;
      rewrite E in C; simpl in C; congruence
  | E : Gradio.filter_upper ?c ?x ?df = Run.Err ?e,
    F : Run.is_Exception ?e = false |- _ =>
      let C := fresh in
      pose proof (filter_upper_catchable c x df) as C;
      rewrite E in C; simpl in C; congruence
  end.

(** Closing a leaf: the run is known, the events it added are read
    off. *)
Ltac leaf_events H :=
  split_run H;
  cbn [Run.trace Run.instrument_cache Run.feed_cache Run.stdin];
  first [ exists []; split; [symmetry; apply app_nil_r|]
        | eexists; split; [rewrite <- ?app_assoc; reflexivity|] ].

Section web_search_facts.
Import Py Run World Common Gradio Obs.
Context (sdk : World.sdk) (lib : pylib).

(** [search_instruments] always answers: with a table that has at least
    one row, at most [limit] rows when [limit] is not negative, and
    columns among the eight it shows; or else with one of its three
    messages, or with the message of the error. *)
Theorem search_instruments_shows_rows_or_says_so
  (token query exchange segment : string) (limit : Z) (st : state) :
  exists out st',
    search_instruments sdk lib token query exchange segment limit st
    = (Ok out, st')
    /\ match out with
       | Table view =>
           Pandas.rows view <> []
           /\ ((0 <= limit)%Z ->
               (length (Pandas.rows view) <= Z.to_nat limit)%nat)
           /\ incl (Pandas.columns view) shown_columns
       | Message text =>
           In text search_messages \/ exists m, text = "Error: " ++ m
       end.
Proof.
  destruct (search_instruments sdk lib token query exchange segment limit st)
    as [r st'] eqn:H.
  web_monad H. web_cases H; try uncaught; split_run H;
    eexists; eexists; (split; [reflexivity|]);
    try (left; simpl; tauto);
    try (right; eexists; reflexivity).
  all: match goal with
       | E : Pandas.rows ?view = _ :: _ |- _ =>
           unfold Pandas.project; cbn [Pandas.rows Pandas.columns];
           split; [rewrite E; discriminate|split]
       end.
  all: try (intros Hl; rewrite length_map; apply head_length; exact Hl).
  all: apply incl_filter.
Qed.

(** The table of instruments is requested from the SDK only while the
    cache is empty: once a table is cached, a search, with whatever
    token, requests none and leaves the cache as it is.  What a search
    puts into an empty cache is the table the SDK returned to it. *)
Theorem instrument_table_is_fetched_once
  (token query exchange segment : string) (limit : Z) (st st' : state)
  (r : res search_out) :
  search_instruments sdk lib token query exchange segment limit st
  = (r, st') ->
  exists evs,
    trace st' = (trace st ++ evs)%list
    /\ match instrument_cache st with
       | Some df =>
           instrument_cache st' = Some df
           /\ forallb not_instruments evs = true
       | None =>
           instrument_cache st' = None
           \/ exists df,
                instrument_cache st' = Some df
                /\ all_instruments sdk (PStr token) = Returned df
                /\ In (EInstruments (PStr token)) evs
       end.
Proof.
  intros H. web_monad H. web_cases H; leaf_events H;
    repeat match goal with
           | E : instrument_cache _ = _ |- _ => rewrite E
           end;
    try (split; reflexivity);
    try (left; reflexivity);
    try (right; eexists; (split; [reflexivity|]);
         (split; [reflexivity|]); simpl; tauto).
  all: match goal with
       | |- match instrument_cache ?s with _ => _ end =>
           destruct (instrument_cache s);
           [split; reflexivity|left; reflexivity]
       end.
Qed.

End web_search_facts.

Lemma instrument_table_is_fetched_once_witness :
  exists evs,
    Run.trace
      (snd (Gradio.search_instruments Sample.sdk Sample.lib "tok" "wipro" ""
              "" 25 (Run.initial [])))
    = (Run.trace (Run.initial []) ++ evs)%list
    /\ (Run.instrument_cache
          (snd (Gradio.search_instruments Sample.sdk Sample.lib "tok" "wipro"
                  "" "" 25 (Run.initial []))) = None
        \/ exists df,
             Run.instrument_cache
               (snd (Gradio.search_instruments Sample.sdk Sample.lib "tok"
                       "wipro" "" "" 25 (Run.initial []))) = Some df
             /\ World.all_instruments Sample.sdk (Py.PStr "tok")
                = World.Returned df
             /\ In (Run.EInstruments (Py.PStr "tok")) evs).
Proof.
  exact (instrument_table_is_fetched_once Sample.sdk Sample.lib "tok" "wipro"
           "" "" 25 (Run.initial []) _ _ eq_refl).
Defined.

(** ** One feed per token *)

Section feed_cache_facts.
Import Py Run World Common Gradio Obs.
Context (sdk : World.sdk).

Lemma cached_iff (token : string) (cache : list string) :
  existsb (String.eqb token) cache = true <-> In token cache.
Proof.
  rewrite existsb_exists. split.
  - intros (x & Hin & E). apply String.eqb_eq in E. subst x. exact Hin.
  - intros Hin. exists token. split; [exact Hin|apply String.eqb_refl].
Qed.

(** [_get_feed] builds a feed for a token only while the cache has none
    for it: with one cached it answers at once, without building a
    client or a feed.  A feed that was built is cached, nothing leaves
    the cache, and a failed attempt caches nothing. *)
Theorem feed_is_built_once_per_token (token : string) (st st' : state)
  (r : res string) :
  _get_feed sdk token st = (r, st') ->
  (In token (feed_cache st) -> r = Ok token /\ st' = st)
  /\ (forall fd, r = Ok fd ->
        fd = token /\ In token (feed_cache st')
        /\ incl (feed_cache st) (feed_cache st'))
  /\ (forall e, r = Err e -> feed_cache st' = feed_cache st)
  /\ (~ In token (feed_cache st) ->
      exists evs, trace st' = (trace st ++ evs)%list
                  /\ In (EClient (PStr token)) evs).
Proof.
  intros H. unfold _get_feed, get_feed_cache in H.
  unfold mbind at 1, M_bind at 1 in H. cbv beta iota zeta in H.
  destruct (existsb (String.eqb token) (feed_cache st)) eqn:E.
  - apply cached_iff in E. inversion H; subst; clear H.
    split; [intros _; split; reflexivity|].
    split; [intros fd Hfd; injection Hfd as <-;
            split; [reflexivity|split; [exact E|apply incl_refl]]|].
    split; [intros e He; discriminate He|].
    intros Hn. contradiction.
  - assert (Hn : ~ In token (feed_cache st)).
    { intros Hin. apply cached_iff in Hin. congruence. }
    web_monad H. web_cases H; split_run H;
      cbn [feed_cache trace];
      (split; [intros Hin; contradiction|]);
      (split; [intros fd Hfd;
               first [ discriminate Hfd
                     | injection Hfd as <-;
                       split; [reflexivity|];
                       split; [apply in_or_app; right; left; reflexivity
                              |apply incl_appl, incl_refl] ]|]);
      (split; [intros e0 He; first [discriminate He|reflexivity]|]);
      intros _; eexists; (split; [rewrite <- ?app_assoc; reflexivity|]);
      simpl; tauto.
Qed.

End feed_cache_facts.

Lemma feed_is_built_once_per_token_witness :
  let first := Gradio._get_feed Sample.sdk "tok" (Run.initial []) in
  let second := Gradio._get_feed Sample.sdk "tok" (snd first) in
  fst second = Run.Ok "tok" /\ snd second = snd first.
Proof.
  intros first second.
  destruct (feed_is_built_once_per_token Sample.sdk "tok" (snd first)
              (snd second) (fst second)) as [H _].
  - reflexivity.
  - apply H. simpl. tauto.
Defined.

(** ** The handlers with a fixed method never trade *)

Section read_only_facts.
Import Py Run World Common Gradio Obs.
Context (sdk : World.sdk) (lib : pylib).

Lemma only_get_feed_cache (P : event -> bool) : emits_only P get_feed_cache.
Proof.
  intros st r st' H. inversion H; subst. exists [].
  split; [symmetry; apply app_nil_r|reflexivity].
Qed.

Lemma only_add_feed_cache (P : event -> bool) (t : string) :
  emits_only P (add_feed_cache t).
Proof.
  intros st r st' H. inversion H; subst. exists [].
  split; [symmetry; apply app_nil_r|reflexivity].
Qed.

(** Every handler of the web UI but [call_method] calls no trading
    method on the client, whatever is typed into its form. *)
Theorem fixed_handlers_never_trade (token : string) (r : request) :
  is_call_method r = false ->
  emits_only read_only_call (handle sdk lib token r).
Proof.
  intros Hr.
  destruct r; try discriminate Hr;
    unfold handle, guarded, attempt, _get_client, new_api, call,
      _lookup_instrument, instrument_token, _get_feed, feed_call,
      _parse_json, timeout10;
    repeat first [ only_step
                 | apply only_get_feed_cache
                 | apply only_add_feed_cache ].
Qed.

End read_only_facts.

Lemma fixed_handlers_never_trade_witness :
  Obs.emits_only Obs.read_only_call
    (Gradio.handle Sample.sdk Sample.lib "tok"
       (Gradio.GetQuote "wipro" "NSE" "CASH")).
Proof.
  apply fixed_handlers_never_trade. reflexivity.
Defined.

(** ** What the web form answers on Connect *)

Section connect_facts.
Import Py Run World Common Gradio Obs.
Context (sdk : World.sdk) (lib : pylib) (cfg : config).


End connect_facts.

(** ** How often a token is asked for *)

Section token_request_facts.
Import Py Run World Common Obs.
Context (sdk : World.sdk) (lib : pylib) (cfg : config) (env : environ).

Lemma runs_bind {A B} (m : M A) (f : A -> M B)
  (Q1 : res A -> list event -> Prop) (Q2 : A -> res B -> list event -> Prop)
  (Q : res B -> list event -> Prop) :
  runs_with m Q1 ->
  (forall a, runs_with (f a) (Q2 a)) ->
  (forall e evs, Q1 (Err e) evs -> Q (Err e) evs) ->
  (forall a e1 r e2, Q1 (Ok a) e1 -> Q2 a r e2 -> Q r (e1 ++ e2)%list) ->
  runs_with (m ≫= f) Q.
Proof.
  intros Hm Hf HE HO st r st' H. unfold mbind, M_bind in H.
  destruct (m st) as [[a|e] st1] eqn:E.
  - destruct (Hm _ _ _ E) as (e1 & T1 & F1).
    destruct (Hf a _ _ _ H) as (e2 & T2 & F2).
    exists (e1 ++ e2)%list. rewrite T2, T1, app_assoc.
    split; [reflexivity|]. eapply HO; eassumption.
  - injection H as <- <-. destruct (Hm _ _ _ E) as (e1 & T1 & F1).
    exists e1. split; [exact T1|]. apply HE, F1.
Qed.

Lemma runs_of_only {A} (P : event -> bool) (m : M A) :
  emits_only P m -> runs_with m (fun _ evs => forallb P evs = true).
Proof. intros Hm st r st' H. exact (Hm _ _ _ H). Qed.

Lemma no_requests (evs : list event) :
  forallb (fun ev => negb (is_token_request ev)) evs = true ->
  token_requests evs = []
  /\ List.filter is_totp_request evs = []
  /\ List.filter is_approval_request evs = [].
Proof.
  induction evs as [|ev evs IH]; simpl; intros H;
    [repeat split; reflexivity|].
  apply andb_true_iff in H as [Hev H]. destruct (IH H) as (H1 & H2 & H3).
  unfold token_requests in *. simpl.
  destruct ev; simpl in *; try discriminate Hev; repeat split; assumption.
Qed.

(** The TOTP branch of the authenticator: one request at most, never
    with the approval pair; exactly one when it answers that the token
    is there, none when it falls back, which it does under [--flow
    auto] only. *)
Lemma auth_totp_branch_asks_once (a : Auth.args)
  (la ls tt tp ts tc : option string) :
  runs_with (Auth.totp_branch sdk lib a la ls tt tp ts tc)
    (fun r evs =>
       List.filter is_approval_request evs = []
       /\ (length (token_requests evs) <= 1)%nat
       /\ match r with
          | Ok (true, _) => length (token_requests evs) = 1%nat
          | Ok (false, _) =>
              token_requests evs = [] /\ Auth.arg_flow a = Auto
          | Err _ => True
          end).
Proof.
  intros st r st' H. run_monad.
  run_cases H; split_run H;
    cbn [trace];
    (first [ exists []; split; [symmetry; apply app_nil_r|]
           | eexists; split; [rewrite <- ?app_assoc; reflexivity|] ]);
    (split; [reflexivity|]); (split; [simpl; lia|]);
    first [ exact I | reflexivity
          | split; [reflexivity|];
            destruct (Auth.arg_flow a); first [reflexivity|discriminate] ].
Qed.

Lemma auth_approval_branch_asks_once (k s : option string) :
  runs_with (Auth.approval_branch sdk k s)
    (fun r evs =>
       List.filter is_totp_request evs = []
       /\ (length (token_requests evs) <= 1)%nat
       /\ (forall v, r = Ok v -> length (token_requests evs) = 1%nat)).
Proof.
  intros st r st' H. run_monad.
  run_cases H; split_run H; cbn [trace];
    (first [ exists []; split; [symmetry; apply app_nil_r|]
           | eexists; split; [rewrite <- ?app_assoc; reflexivity|] ]);
    (split; [reflexivity|]); (split; [simpl; lia|]);
    intros v Hv; first [discriminate Hv|reflexivity].
Qed.

Lemma auth_main_tail_asks_nothing (a : Auth.args) (obj : value) :
  emits_only (fun ev => negb (is_token_request ev))
    (let access_token := _normalize_access_token lib obj in
     if negb (nonempty access_token)
     then exit "Got an empty access token back from the API; double-check your credentials and approvals."
     else
       new_api sdk (PStr access_token);;
       (if Auth.arg_save_token a
        then emit (EWrite ".access_token" (strip access_token ++ nl))
        else mret tt);;
       (if Auth.arg_print_token a
        then print access_token
        else print ("Access token: " ++ Auth._redact access_token));;
       mret 0%Z).
Proof. cbv zeta. unfold new_api, print. trace_only. Qed.

Lemma no_requests_of_none (evs : list event) :
  token_requests evs = [] ->
  List.filter is_totp_request evs = []
  /\ List.filter is_approval_request evs = [].
Proof.
  unfold token_requests.
  induction evs as [|ev evs IH]; simpl; intros H; [split; reflexivity|].
  destruct ev; simpl in *; try discriminate H; exact (IH H).
Qed.

(** A run of the authenticator asks the SDK for a token once at most,
    and exactly once when it ends well.  Under [--flow approval] it
    never asks with a one-time code, and under [--flow totp] never with
    the approval pair: only [--flow auto] moves from one flow to the
    other. *)
Theorem authenticator_asks_for_one_token (a : Auth.args) (st st' : state)
  (r : res Z) :
  Auth.main sdk lib cfg env a st = (r, st') ->
  exists evs,
    trace st' = (trace st ++ evs)%list
    /\ (length (token_requests evs) <= 1)%nat
    /\ (forall z, r = Ok z -> length (token_requests evs) = 1%nat)
    /\ (Auth.arg_flow a = Approval ->
        List.filter is_totp_request evs = [])
    /\ (Auth.arg_flow a = Totp ->
        List.filter is_approval_request evs = []).
Proof.
  revert st r st'.
  change (runs_with (Auth.main sdk lib cfg env a)
            (fun r evs =>
               (length (token_requests evs) <= 1)%nat
               /\ (forall z, r = Ok z -> length (token_requests evs) = 1%nat)
               /\ (Auth.arg_flow a = Approval ->
                   List.filter is_totp_request evs = [])
               /\ (Auth.arg_flow a = Totp ->
                   List.filter is_approval_request evs = []))).
  unfold Auth.main. cbv zeta. name_sources.
  eapply (runs_bind _ _
            (fun r evs =>
               List.filter is_approval_request evs = []
               /\ (length (token_requests evs) <= 1)%nat
               /\ (Auth.arg_flow a = Approval -> evs = [])
               /\ match r with
                  | Ok (true, _) => length (token_requests evs) = 1%nat
                  | Ok (false, _) =>
                      token_requests evs = [] /\ Auth.arg_flow a <> Totp
                  | Err _ => True
                  end)
            (fun p r evs =>
               if fst p
               then token_requests evs = []
               else List.filter is_totp_request evs = []
                    /\ (length (token_requests evs) <= 1)%nat
                    /\ (forall z, r = Ok z ->
                          length (token_requests evs) = 1%nat))).
  - (* the TOTP part *)
    match goal with
    | |- runs_with (if ?b then _ else _) _ => destruct b eqn:Eb
    end.
    + intros st r st' H.
      destruct (auth_totp_branch_asks_once _ _ _ _ _ _ _ _ _ _ H)
        as (evs & T & F1 & F2 & F3).
      exists evs. split; [exact T|]. split; [exact F1|].
      split; [exact F2|]. split.
      * intros Hf. rewrite Hf in Eb. discriminate Eb.
      * destruct r as [[[|] obj]|e]; try exact F3.
        destruct F3 as [F3 Hauto]. split; [exact F3|]. congruence.
    + intros st r st' H. injection H as <- <-. exists [].
      split; [symmetry; apply app_nil_r|].
      repeat split; try reflexivity; try (simpl; lia).
      intros Hf. rewrite Hf in Eb. discriminate Eb.
  - (* the approval part, then the tail *)
    intros [use_totp obj]. cbn [fst].
    eapply (runs_bind _ _
              (fun r evs =>
                 if use_totp then evs = [] /\ exists v, r = Ok v
                 else List.filter is_totp_request evs = []
                      /\ (length (token_requests evs) <= 1)%nat
                      /\ match r with
                         | Ok _ => length (token_requests evs) = 1%nat
                         | Err _ => True
                         end)
              (fun _ _ evs =>
                 forallb (fun ev => negb (is_token_request ev)) evs = true)).
    + destruct use_totp; cbn [negb].
      * intros st r st' H. injection H as <- <-. exists [].
        split; [symmetry; apply app_nil_r|]. split; [reflexivity|].
        eexists; reflexivity.
      * intros st r st' H.
        destruct (auth_approval_branch_asks_once _ _ _ _ _ H)
          as (evs & T & F1 & F2 & F3).
        exists evs. split; [exact T|]. split; [exact F1|].
        split; [exact F2|]. destruct r; [|exact I]. eapply F3. reflexivity.
    + intros obj'. apply runs_of_only.
      apply (auth_main_tail_asks_nothing a obj').
    + intros e evs H1. destruct use_totp.
      * destruct H1 as [_ [v Hv]]. discriminate Hv.
      * destruct H1 as (H1 & H2 & _).
        split; [exact H1|]. split; [exact H2|]. intros z Hz. discriminate Hz.
    + intros obj' e1 r e2 H1 H3.
      destruct (no_requests _ H3) as (N1 & N2 & N3).
      unfold token_requests in *.
      rewrite !Stdlib.Lists.List.filter_app, N1, ?N2, ?app_nil_r.
      destruct use_totp.
      * destruct H1 as [-> _]. reflexivity.
      * destruct H1 as (H1 & H2 & H4).
        split; [exact H1|]. split; [exact H2|]. intros _ _. exact H4.
  - intros e evs (H1 & H2 & H3 & H4).
    split; [exact H2|]. split; [intros z Hz; discriminate Hz|].
    split; [intros Hf; rewrite (H3 Hf); reflexivity|intros _; exact H1].
  - intros [use_totp obj] e1 r e2 (H1 & H2 & H3 & H4) H5. cbn [fst] in H5.
    unfold token_requests in *.
    rewrite !Stdlib.Lists.List.filter_app.
    destruct use_totp.
    + destruct (no_requests_of_none _ H5) as [N2 N3].
      unfold token_requests in H5. rewrite H5, N2, N3, !app_nil_r.
      split; [exact H2|]. split; [intros _ _; exact H4|].
      split; [|intros _; exact H1].
      intros Hf. rewrite (H3 Hf). reflexivity.
    + destruct H4 as [H4 Hf]. destruct H5 as (H5 & H6 & H7).
      destruct (no_requests_of_none _ H4) as [N2 N3].
      unfold token_requests in H4. rewrite H4, N2, H5. cbn [app].
      split; [exact H6|]. split; [exact H7|].
      split; [intros _; reflexivity|intros Ht; contradiction].
Qed.

End token_request_facts.

Lemma authenticator_asks_for_one_token_witness :
  exists evs,
    Run.trace
      (snd (Auth.main Sample.sdk Sample.lib Sample.bad_secret_file ∅
              (Sample.auth_args Common.Auto) (Run.initial [])))
    = (Run.trace (Run.initial []) ++ evs)%list
    /\ (length (Obs.token_requests evs) <= 1)%nat.
Proof.
  destruct (authenticator_asks_for_one_token Sample.sdk Sample.lib
              Sample.bad_secret_file ∅ (Sample.auth_args Common.Auto)
              (Run.initial [])
              (snd (Auth.main Sample.sdk Sample.lib Sample.bad_secret_file ∅
                      (Sample.auth_args Common.Auto) (Run.initial [])))
              (fst (Auth.main Sample.sdk Sample.lib Sample.bad_secret_file ∅
                      (Sample.auth_args Common.Auto) (Run.initial []))))
    as (evs & T & L & _); [reflexivity|].
  exists evs. split; assumption.
Defined.

(** ** Choosing the flow at the prompt *)

Section choose_flow_facts.
Import Py Run World Common Obs.

Lemma choose_loop_chooses (skipped : list string) :
  forall (n : nat) (line : string) (rest : list string) (f : flow)
         (tr : list event) (ic : option Pandas.DataFrame) (fc : list string),
    Forall (fun l => flow_choice l = None) skipped ->
    flow_choice line = Some f ->
    (length skipped < n)%nat ->
    Cli.choose_loop n (mkState (skipped ++ line :: rest) tr ic fc)
    = (Ok f, mkState rest
               (tr ++ retries (length skipped) ++ [EInput flow_prompt])
               ic fc).
Proof.
  induction skipped as [|l skipped IH];
    intros n line rest f tr ic fc Hs Hl Hn;
    (destruct n as [|n]; [simpl in Hn; lia|]);
    cbn [Cli.choose_loop];
    unfold input, print, emit, read_line, mbind, M_bind, mret, M_ret;
    cbn [stdin trace instrument_cache feed_cache app];
    cbv beta iota zeta.
  - unfold flow_choice in Hl. cbv zeta in Hl.
    destruct (String.eqb (strip line) "1"
              || String.eqb (strip line) "approval").
    + injection Hl as <-. reflexivity.
    + destruct (String.eqb (strip line) "2"
                || String.eqb (strip line) "totp"); [|discriminate Hl].
      injection Hl as <-. reflexivity.
  - inversion Hs as [|? ? Hl0 Hs']; subst.
    unfold flow_choice in Hl0. cbv zeta in Hl0.
    destruct (String.eqb (strip l) "1" || String.eqb (strip l) "approval");
      [discriminate Hl0|].
    destruct (String.eqb (strip l) "2" || String.eqb (strip l) "totp");
      [discriminate Hl0|].
    cbn [stdin trace instrument_cache feed_cache].
    rewrite (IH n line rest f) by (try assumption; simpl in Hn; lia).
    unfold retries. cbn [length repeat concat].
    rewrite <- !app_assoc. reflexivity.
Qed.

Lemma choose_loop_runs_dry (typed : list string) :
  forall (n : nat) (tr : list event) (ic : option Pandas.DataFrame)
         (fc : list string),
    Forall (fun l => flow_choice l = None) typed ->
    (length typed < n)%nat ->
    Cli.choose_loop n (mkState typed tr ic fc)
    = (Err (mkExn EOFError "EOF when reading a line"),
       mkState [] (tr ++ retries (length typed) ++ [EInput flow_prompt])
               ic fc).
Proof.
  induction typed as [|l typed IH]; intros n tr ic fc Hs Hn;
    (destruct n as [|n]; [simpl in Hn; lia|]);
    cbn [Cli.choose_loop];
    unfold input, print, emit, read_line, mbind, M_bind, mret, M_ret;
    cbn [stdin trace instrument_cache feed_cache app];
    cbv beta iota zeta.
  - reflexivity.
  - inversion Hs as [|? ? Hl0 Hs']; subst.
    unfold flow_choice in Hl0. cbv zeta in Hl0.
    destruct (String.eqb (strip l) "1" || String.eqb (strip l) "approval");
      [discriminate Hl0|].
    destruct (String.eqb (strip l) "2" || String.eqb (strip l) "totp");
      [discriminate Hl0|].
    cbn [stdin trace instrument_cache feed_cache].
    rewrite (IH n) by (try assumption; simpl in Hn; lia).
    unfold retries. cbn [length repeat concat].
    rewrite <- !app_assoc. reflexivity.
Qed.

(** [_choose_flow] asks nothing when a flow is available: approval
    first, then TOTP.  Otherwise it takes the first line typed that
    names a flow (1, approval, 2 or totp, white space around it
    ignored), having printed its retry line once for every line typed
    before it; when standard input ends before such a line, the run
    ends in [EOFError]. *)
Theorem choose_flow_takes_the_first_line_that_names_a_flow (st : state) :
  (forall available_totp,
      Cli._choose_flow true available_totp st = (Ok Approval, st))
  /\ Cli._choose_flow false true st = (Ok Totp, st)
  /\ (forall skipped line rest f,
        stdin st = (skipped ++ line :: rest)%list ->
        Forall (fun l => flow_choice l = None) skipped ->
        flow_choice line = Some f ->
        Cli._choose_flow false false st
        = (Ok f,
           after rest (retries (length skipped) ++ [EInput flow_prompt]) st))
  /\ (Forall (fun l => flow_choice l = None) (stdin st) ->
      Cli._choose_flow false false st
      = (Err (mkExn EOFError "EOF when reading a line"),
         after [] (retries (length (stdin st)) ++ [EInput flow_prompt]) st)).
Proof.
  split; [reflexivity|]. split; [reflexivity|]. split.
  - intros skipped line rest f Hst Hs Hl. unfold Cli._choose_flow, after.
    destruct st as [typed tr ic fc]. cbn [stdin trace instrument_cache
                                          feed_cache] in *.
    subst typed. apply choose_loop_chooses; try assumption.
    rewrite length_app. simpl. lia.
  - intros Hs. unfold Cli._choose_flow, after.
    destruct st as [typed tr ic fc]. cbn [stdin trace instrument_cache
                                          feed_cache] in *.
    apply choose_loop_runs_dry; [exact Hs|lia].
Qed.

End choose_flow_facts.

Lemma choose_flow_takes_the_first_line_that_names_a_flow_witness :
  Cli._choose_flow false false (Run.initial ["3"; " totp "; "1"])
  = (Run.Ok Common.Totp,
     Obs.after ["1"] (Obs.retries 1 ++ [Run.EInput Obs.flow_prompt])
       (Run.initial ["3"; " totp "; "1"])).
Proof.
  destruct (choose_flow_takes_the_first_line_that_names_a_flow
              (Run.initial ["3"; " totp "; "1"])) as (_ & _ & H & _).
  apply (H ["3"] " totp " ["1"] Common.Totp).
  - reflexivity.
  - repeat constructor.
  - reflexivity.
Defined.

(** ** What [--call] and the Call box call *)

(** Case analysis of a run of a call. *)
Ltac call_monad H :=
  unfold Cli.call_block, Cli._confirm_if_trading, Cli._parse_json,
    Cli._print_response, Gradio.call_method, Gradio.attempt,
    Gradio._require_no_trading, Gradio._parse_json, Gradio._get_client,
    Common.new_api, Common.call, Run.input, Run.print, Run.exit, Run.raise,
    Run.emit, Run.read_line, Run.try_except, mbind, Run.M_bind, mret,
    Run.M_ret, World.of_outcome in H.

Ltac call_cases H :=
  repeat (unfold mret, Run.M_ret, Run.raise in H;
          cbv beta iota zeta in H;
          cbn [negb andb orb fst snd Run.stdin Run.trace Run.is_Exception
               Run.cls Run.msg Run.instrument_cache Run.feed_cache] in H;
          match type of H with
          | context [World.json_loads ?l ?x] =>
              destruct (World.json_loads l x) eqn:?
          | context [World.json_dumps ?l ?x] =>
              destruct (World.json_dumps l x) eqn:?
          | context [match ?o with
                     | World.Returned _ => _
                     | World.Raised _ => _
                     end] => destruct o eqn:?
          | context [match Run.stdin ?s with [] => _ | _ :: _ => _ end] =>
              destruct (Run.stdin s) eqn:?
          | context [Common.given ?x] => destruct (Common.given x) eqn:?
          | context [match ?v with
                     | Py.PNone => _ | Py.PBool _ => _ | Py.PInt _ => _
                     | Py.PFloat _ => _ | Py.PStr _ => _ | Py.PList _ => _
                     | Py.PTuple _ => _ | Py.PDict _ => _
                     end] => is_var v; destruct v
          | context [if ?b then _ else _] => destruct b eqn:?
          | context [World.attribute ?s ?n] =>
              destruct (World.attribute s n) eqn:?
          end).

Section call_facts.
Import Py Run World Common Obs.
Context (sdk : World.sdk) (lib : pylib).

(** The [--call] block of the CLI calls one method at most, and a run
    that ends well has called exactly one.  The method called is the
    one named, on the client of the run; its name does not start with
    an underscore and it is a callable attribute of the client; its
    arguments are the list [--args] parses to and the dict [--kwargs]
    parses to, or none when the option is left out. *)
Theorem call_block_calls_what_was_named (a : Cli.args) (groww : value) :
  runs_with (Cli.call_block sdk lib a groww)
    (fun r evs =>
       match calls evs with
       | [] => forall z, r <> Ok z
       | [ECall g name args kwargs] =>
           g = groww /\ name = strip (the (Cli.arg_call a))
           /\ startswith "_" name = false
           /\ attribute sdk name = Method
           /\ (if given (Cli.arg_args a)
               then json_loads lib (the (Cli.arg_args a))
                    = JsonOk (PList args)
               else args = [])
           /\ (if given (Cli.arg_kwargs a)
               then json_loads lib (the (Cli.arg_kwargs a))
                    = JsonOk (PDict kwargs)
               else kwargs = [])
           /\ (forall z, r = Ok z -> z = 0%Z)
       | _ => False
       end).
Proof.
  intros st r st' H. call_monad H.
  call_cases H; split_run H; cbn [trace];
    (first [ exists []; split; [symmetry; apply app_nil_r|]
           | eexists; split; [rewrite <- ?app_assoc; reflexivity|] ]);
    cbn [calls List.filter is_call app];
    try (intros ? Hz; discriminate Hz);
    repeat match goal with
           | E : given _ = _ |- _ => rewrite E
           end;
    repeat split; try assumption; try reflexivity;
    try (intros ? Hz; first [discriminate Hz|injection Hz as <-; reflexivity]).
Qed.

(** The Call box of the web UI always answers, and calls one method at
    most: the one named, on a client built with the stored token, a
    callable attribute of that client, and a trading method only when
    trading is allowed.  Its arguments are the list and the dict the two
    JSON fields parse to, or none for a field left blank; so JSON that
    does not parse, or parses to something else, reaches no method. *)
Theorem call_method_calls_what_was_named
  (token method_name args_json kwargs_json : string) (allow_trading : bool) :
  runs_with
    (Gradio.call_method sdk lib token method_name args_json kwargs_json
       allow_trading)
    (fun r evs =>
       (exists v, r = Ok v)
       /\ match calls evs with
          | [] => True
          | [ECall g name args kwargs] =>
              g = PStr token /\ name = method_name
              /\ attribute sdk name = Method
              /\ (Gradio.is_trading name = true -> allow_trading = true)
              /\ (if nonempty (strip args_json)
                  then json_loads lib args_json = JsonOk (PList args)
                  else args = [])
              /\ (if nonempty (strip kwargs_json)
                  then json_loads lib kwargs_json = JsonOk (PDict kwargs)
                  else kwargs = [])
          | _ => False
          end).
Proof.
  intros st r st' H. call_monad H.
  call_cases H; split_run H; cbn [trace];
    (first [ exists []; split; [symmetry; apply app_nil_r|]
           | eexists; split; [rewrite <- ?app_assoc; reflexivity|] ]);
    cbn [calls List.filter is_call app];
    (split; [eexists; reflexivity|]);
    try exact I;
    repeat match goal with
           | E : nonempty _ = _ |- _ => rewrite E
           | E : negb (nonempty _) = _ |- _ =>
               apply negb_false_iff in E || apply negb_true_iff in E
           end;
    repeat split; try assumption; try reflexivity;
    try (intros Ht;
         match goal with
         | E : Gradio.is_trading _ && negb _ = false |- _ =>
             rewrite Ht in E; destruct allow_trading;
             [reflexivity|discriminate E]
         end).
Qed.

End call_facts.

Example call_method_calls_nothing_on_bad_json :
  Obs.calls
    (Run.trace
       (snd (Gradio.call_method Sample.sdk Sample.lib "tok" "get_quote"
               "[1," "" false (Run.initial []))))
  = []
  /\ fst (Gradio.call_method Sample.sdk Sample.lib "tok" "get_quote" "[1," ""
            false (Run.initial []))
     = Run.Ok (Gradio.error_dict "Invalid JSON: Expecting value at pos 0").
Proof. split; reflexivity. Qed.


(** ** Looking for a holding *)

Section holding_facts.
Import Py Run World Common Obs.
Context (lib : pylib) (dumps : value -> string).






End holding_facts.

(** ** The smoke test reads and does nothing else *)

Section smoke_facts.
Import Py Run World Common Obs.
Context (sdk : World.sdk) (lib : pylib) (cfg : config).

Lemma smoke_connect_events (env : environ) (flow : Common.flow)
  (totp_token totp : option string) :
  emits_only auth_event (Smoke.main_connect sdk lib cfg env flow totp_token totp).
Proof.
  unfold Smoke.main_connect, Smoke._get_access_token,
    Smoke._totp_now_from_secret, totp_now_or, token_by_totp,
    token_by_approval, new_api, print.
  cbv zeta. trace_only.
Qed.

(** After its authentication, which calls no method, the smoke test
    calls [get_user_profile] and then [get_holdings_for_user] on the
    client, with the timeout of the command line, and nothing else.  It
    prints its OK line, followed by the two summaries, only when both
    calls returned, and then ends with 0; when it fails it has printed
    none of the three. *)
Theorem smoke_test_reads_two_things (env : environ) (flow : Common.flow)
  (totp_token totp : option string) (timeout : Z) :
  runs_with (Smoke.main sdk lib cfg env flow totp_token totp timeout)
    (fun r evs =>
       exists pre post,
         evs = (pre ++ post)%list
         /\ forallb auth_event pre = true
         /\ match r with
            | Ok z =>
                z = 0%Z
                /\ exists g profile holdings,
                     post = (smoke_calls g timeout
                             ++ [EPrint smoke_ok;
                                 EPrint ("get_user_profile: "
                                         ++ Smoke._safe_summary lib profile);
                                 EPrint ("get_holdings_for_user: "
                                         ++ Smoke._safe_summary lib holdings)])%list
                     /\ api sdk g "get_user_profile" []
                          [("timeout", PInt timeout)] = Returned profile
                     /\ api sdk g "get_holdings_for_user" []
                          [("timeout", PInt timeout)] = Returned holdings
            | Err _ =>
                post = []
                \/ exists g, post = firstn 1 (smoke_calls g timeout)
                             \/ post = smoke_calls g timeout
            end).
Proof.
  unfold Smoke.main.
  eapply (runs_bind _ _
            (fun _ evs => forallb auth_event evs = true)
            (fun g r post =>
               match r with
               | Ok z =>
                   z = 0%Z
                   /\ exists profile holdings,
                        post = (smoke_calls g timeout
                                ++ [EPrint smoke_ok;
                                    EPrint ("get_user_profile: "
                                            ++ Smoke._safe_summary lib profile);
                                    EPrint ("get_holdings_for_user: "
                                            ++ Smoke._safe_summary lib holdings)])%list
                        /\ api sdk g "get_user_profile" []
                             [("timeout", PInt timeout)] = Returned profile
                        /\ api sdk g "get_holdings_for_user" []
                             [("timeout", PInt timeout)] = Returned holdings
               | Err _ =>
                   post = firstn 1 (smoke_calls g timeout)
                   \/ post = smoke_calls g timeout
               end)).
  - apply runs_of_only, smoke_connect_events.
  - intros g st r st' H.
    unfold call, print, emit, mbind, M_bind, mret, M_ret, of_outcome, raise
      in H.
    cbv beta iota zeta in H. cbn [trace stdin instrument_cache feed_cache] in H.
    destruct (api sdk g "get_user_profile" [] [("timeout", PInt timeout)])
      as [profile|m1] eqn:E1; cbv beta iota zeta in H.
    + cbn [trace stdin instrument_cache feed_cache] in H.
      destruct (api sdk g "get_holdings_for_user" []
                  [("timeout", PInt timeout)]) as [holdings|m2] eqn:E2;
        cbv beta iota zeta in H; split_run H; cbn [trace];
        (eexists; split; [rewrite <- ?app_assoc; reflexivity|]).
      * split; [reflexivity|]. exists profile, holdings.
        split; [reflexivity|]. split; reflexivity.
      * right. reflexivity.
    + split_run H. cbn [trace].
      eexists; split; [reflexivity|]. left. reflexivity.
  - intros e evs Hpre. exists evs, []. rewrite app_nil_r.
    split; [reflexivity|]. split; [exact Hpre|]. left. reflexivity.
  - intros g e1 r e2 Hpre Hpost. exists e1, e2.
    split; [reflexivity|]. split; [exact Hpre|].
    destruct r as [z|e].
    + destruct Hpost as (Hz & profile & holdings & Hp).
      split; [exact Hz|]. exists g, profile, holdings. exact Hp.
    + right. exists g. exact Hpost.
Qed.

End smoke_facts.

(** ** What a run takes off standard input *)

Section stdin_facts.
Import Py Run World Common Obs.

Lemma reads_ret {A} (a : A) : reads_only (mret a).
Proof. intros st r st' H. inversion H; subst. exists []. reflexivity. Qed.

Lemma reads_raise {A} (e : exn) : reads_only (@raise A e).
Proof. intros st r st' H. inversion H; subst. exists []. reflexivity. Qed.

Lemma reads_lift {A} (x : res A) : reads_only (lift x).
Proof. intros st r st' H. inversion H; subst. exists []. reflexivity. Qed.

Lemma reads_of_outcome {A} (o : outcome A) : reads_only (of_outcome o).
Proof. destruct o; [apply reads_ret|apply reads_raise]. Qed.

Lemma reads_emit (ev : event) : reads_only (emit ev).
Proof. intros st r st' H. inversion H; subst. exists []. reflexivity. Qed.

Lemma reads_read_line : reads_only read_line.
Proof.
  intros st r st' H. unfold read_line in H.
  destruct (stdin st) as [|l rest] eqn:E; inversion H; subst.
  - exists []. rewrite E. reflexivity.
  - exists [l]. reflexivity.
Qed.

Lemma reads_bind {A B} (m : M A) (f : A -> M B) :
  reads_only m -> (forall a, reads_only (f a)) -> reads_only (m ≫= f).
Proof.
  intros Hm Hf st r st' H. unfold mbind, M_bind in H.
  destruct (m st) as [[a|e] st1] eqn:E.
  - destruct (Hm _ _ _ E) as (p1 & T1).
    destruct (Hf a _ _ _ H) as (p2 & T2).
    exists (p1 ++ p2)%list. rewrite T1, T2, app_assoc. reflexivity.
  - inversion H; subst. apply (Hm _ _ _ E).
Qed.

End stdin_facts.

Ltac reads_step :=
  first
    [ apply reads_ret
    | apply reads_raise
    | apply reads_lift
    | apply reads_of_outcome
    | apply reads_read_line
    | apply reads_emit
    | apply reads_bind; [|intros ?]
    | match goal with
      | |- Obs.reads_only (match ?x with _ => _ end) => destruct x
      | |- Obs.reads_only (if ?b then _ else _) => destruct b
      end ].

(** ** The menu of the CLI *)

Section menu_facts.
Import Py Run World Common Obs.
Context (sdk : World.sdk) (lib : pylib).
Context (dumps : value -> string) (members : list Cli.member).

Lemma list_methods_prints (P : event -> bool) :
  (forall line, P (EPrint line) = true) ->
  emits_only P (Cli._list_api_methods members).
Proof.
  intros HP. unfold Cli._list_api_methods.
  induction (sorted Cli.entry_leb (Cli.method_entries members)) as [|e es IH].
  - apply only_ret.
  - apply only_bind; [apply only_emit, HP|intros ?; exact IH].
Qed.

Lemma list_methods_reads_nothing :
  reads_only (Cli._list_api_methods members).
Proof.
  unfold Cli._list_api_methods.
  induction (sorted Cli.entry_leb (Cli.method_entries members)) as [|e es IH].
  - apply reads_ret.
  - apply reads_bind; [apply reads_emit|intros ?; exact IH].
Qed.

Lemma menu_entry_events (groww : value) (choice : string) :
  emits_only menu_event (Cli.menu_entry sdk lib dumps members groww choice).
Proof.
  unfold Cli.menu_entry.
  repeat match goal with
         | |- emits_only _ (if String.eqb choice ?c then _ else _) =>
             destruct (String.eqb choice c)
         end;
    try (apply list_methods_prints; reflexivity);
    unfold call, input, print, Cli._print_response, Cli._print_instrument_rows;
    trace_only.
Qed.

Lemma menu_entry_reads (groww : value) (choice : string) :
  reads_only (Cli.menu_entry sdk lib dumps members groww choice).
Proof.
  unfold Cli.menu_entry.
  repeat match goal with
         | |- reads_only (if String.eqb choice ?c then _ else _) =>
             destruct (String.eqb choice c)
         end;
    try apply list_methods_reads_nothing;
    unfold call, input, print, Cli._print_response, Cli._print_instrument_rows;
    repeat reads_step.
Qed.

Lemma menu_round (groww : value) (n : nat) (st : state) (line : string)
  (rest : list string) :
  stdin st = line :: rest ->
  Cli.menu_loop sdk lib dumps members (S n) groww st
  = (if quits line then mret 0%Z
     else Cli.menu_entry sdk lib dumps members groww (lower (strip line));;
          Cli.menu_loop sdk lib dumps members n groww)
      (after rest [EPrint Cli.menu_text; EInput "> "] st).
Proof.
  intros E. cbn [Cli.menu_loop].
  unfold print, input, emit, read_line, mbind, M_bind, quits, after.
  cbn [stdin trace instrument_cache feed_cache]. rewrite E.
  rewrite <- app_assoc. reflexivity.
Qed.

Lemma menu_runs_dry (groww : value) (n : nat) (st : state) :
  stdin st = [] ->
  Cli.menu_loop sdk lib dumps members (S n) groww st
  = (Err (mkExn EOFError "EOF when reading a line"),
     after [] [EPrint Cli.menu_text; EInput "> "] st).
Proof.
  intros E. cbn [Cli.menu_loop].
  unfold print, input, emit, read_line, mbind, M_bind, after.
  cbn [stdin trace instrument_cache feed_cache]. rewrite E.
  rewrite <- app_assoc. reflexivity.
Qed.

Lemma menu_loop_runs (groww : value) (rounds : nat) :
  reads_with (Cli.menu_loop sdk lib dumps members rounds groww)
    (fun r pre evs =>
       forallb menu_event evs = true
       /\ match r with
          | Ok z => z = 0%Z
                    /\ exists before line,
                         pre = (before ++ [line])%list /\ quits line = true
          | Err _ => True
          end).
Proof.
  induction rounds as [|n IH]; intros st r st' H.
  - cbn [Cli.menu_loop] in H. unfold raise in H. split_run H.
    exists [], []. rewrite app_nil_r. repeat split.
  - destruct (stdin st) as [|line rest] eqn:Ein.
    + rewrite (menu_runs_dry _ _ _ Ein) in H. split_run H.
      exists [], [EPrint Cli.menu_text; EInput "> "].
      cbn [after stdin trace]. repeat split.
    + rewrite (menu_round _ _ _ _ _ Ein) in H.
      destruct (quits line) eqn:Eq.
      * unfold mret, M_ret in H. split_run H.
        exists [line], [EPrint Cli.menu_text; EInput "> "].
        cbn [after stdin trace].
        split; [reflexivity|]. split; [reflexivity|].
        split; [reflexivity|]. split; [reflexivity|].
        exists [], line. split; [reflexivity|exact Eq].
      * unfold mbind, M_bind in H.
        destruct (Cli.menu_entry sdk lib dumps members groww
                    (lower (strip line)) _) as [[[]|e] st1] eqn:E1;
          destruct (menu_entry_events _ _ _ _ _ E1) as (e1 & T1 & F1);
          destruct (menu_entry_reads _ _ _ _ _ E1) as (p1 & S1);
          cbn [after stdin trace] in T1, S1.
        -- destruct (IH _ _ _ H) as (p2 & e2 & S2 & T2 & F2 & R2).
           exists (line :: p1 ++ p2)%list,
                  ([EPrint Cli.menu_text; EInput "> "] ++ e1 ++ e2)%list.
           split; [rewrite S1, S2; cbn [app]; rewrite app_assoc; reflexivity|].
           split; [rewrite T2, T1, <- !app_assoc; reflexivity|].
           split; [rewrite !forallb_app, F1, F2; reflexivity|].
           destruct r as [z|]; [|exact I].
           destruct R2 as (Hz & before & last & Hp & Hq).
           split; [exact Hz|].
           exists (line :: p1 ++ before)%list, last.
           split; [rewrite Hp; cbn [app]; rewrite app_assoc; reflexivity|exact Hq].
        -- split_run H.
           exists (line :: p1)%list,
                  ([EPrint Cli.menu_text; EInput "> "] ++ e1)%list.
           split; [reflexivity|].
           split; [rewrite T1, <- !app_assoc; reflexivity|].
           split; [rewrite forallb_app, F1; reflexivity|exact I].
Qed.

(** The menu prints, prompts, fetches the table of instruments and
    calls [get_user_profile], [get_holdings_for_user],
    [get_positions_for_user], [get_quote] and [get_ltp], each with a
    timeout of ten seconds, and does nothing else: it asks for no token,
    builds no client and no feed and writes no file.  It never ends on
    its own: when it returns, it returns 0 and the last line it read was
    [q], [quit] or [exit], in any case and with blanks around it. *)
Theorem menu_reads_until_it_is_told_to_quit (groww : value) :
  reads_with (Cli.menu sdk lib dumps members groww)
    (fun r pre evs =>
       forallb menu_event evs = true
       /\ match r with
          | Ok z => z = 0%Z
                    /\ exists before line,
                         pre = (before ++ [line])%list /\ quits line = true
          | Err _ => True
          end).
Proof.
  intros st r st' H. unfold Cli.menu in H.
  exact (menu_loop_runs groww _ _ _ _ H).
Qed.

End menu_facts.

Section menu_fuel.
Import Py Run World Common Obs.
Context (sdk : World.sdk) (lib : pylib).
Context (dumps : value -> string) (members : list Cli.member).

(** A round of the menu reads a line, so the rounds [Cli.menu] allows
    are never used up: any larger number gives the same run. *)
Lemma menu_rounds_suffice (groww : value) (n m : nat) (st : state) :
  (length (stdin st) < n)%nat -> (length (stdin st) < m)%nat ->
  Cli.menu_loop sdk lib dumps members n groww st
  = Cli.menu_loop sdk lib dumps members m groww st.
Proof.
  revert m st. induction n as [|n IH]; intros m st Hn Hm; [lia|].
  destruct m as [|m]; [lia|].
  destruct (stdin st) as [|line rest] eqn:Ein.
  - rewrite !(menu_runs_dry _ _ _ _ _ _ _ Ein). reflexivity.
  - rewrite !(menu_round _ _ _ _ _ _ _ _ _ Ein).
    destruct (quits line); [reflexivity|].
    unfold mbind, M_bind.
    destruct (Cli.menu_entry sdk lib dumps members groww
                (lower (strip line)) _) as [[[]|e] st1] eqn:E1;
      [|reflexivity].
    destruct (menu_entry_reads _ _ _ _ _ _ _ _ _ E1) as (p1 & S1).
    cbn [after stdin] in S1. cbn [length] in Hn, Hm.
    assert (length (stdin st1) <= length rest)%nat
      by (rewrite S1, length_app; lia).
    apply IH; lia.
Qed.

End menu_fuel.

(** ** Sorting *)

Section sort_facts.
Import Py Obs.
Context {A : Type} (leb : A -> A -> bool).
Hypothesis leb_total : forall a b, leb a b = false -> leb b a = true.

Lemma insert_sorted_perm (x : A) (l : list A) :
  insert_sorted leb x l ≡ₚ x :: l.
Proof.
  induction l as [|y r IH]; cbn [insert_sorted]; [reflexivity|].
  destruct (leb x y); [reflexivity|].
  rewrite IH. apply Permutation_swap.
Qed.

Lemma sorted_perm (l : list A) : sorted leb l ≡ₚ l.
Proof.
  induction l as [|x r IH]; [reflexivity|].
  unfold sorted in *. cbn [fold_right].
  rewrite insert_sorted_perm, IH. reflexivity.
Qed.

Lemma insert_sorted_ascending (x : A) (l : list A) :
  ascending leb l -> ascending leb (insert_sorted leb x l).
Proof.
  unfold ascending. induction l as [|y r IH]; intros Hl; cbn [insert_sorted].
  - constructor; constructor.
  - destruct (leb x y) eqn:E.
    + constructor; [exact Hl|]. constructor. exact E.
    + inversion Hl as [|? ? Hr Hhd]; subst.
      constructor; [exact (IH Hr)|].
      destruct r as [|z r']; cbn [insert_sorted].
      * constructor. exact (leb_total _ _ E).
      * destruct (leb x z).
        -- constructor. exact (leb_total _ _ E).
        -- inversion Hhd; subst. constructor. assumption.
Qed.

Lemma sorted_ascending (l : list A) : ascending leb (sorted leb l).
Proof.
  induction l as [|x r IH]; [constructor|].
  unfold sorted in *. cbn [fold_right].
  apply insert_sorted_ascending, IH.
Qed.

End sort_facts.

Section order_facts.
Import Py.

Lemma str_leb_total (a b : string) : str_leb a b = false -> str_leb b a = true.
Proof.
  unfold str_leb. rewrite (String.compare_antisym a b).
  destruct (String.compare b a); cbn; congruence.
Qed.

Lemma entry_leb_total (a b : string * string * string) :
  Cli.entry_leb a b = false -> Cli.entry_leb b a = true.
Proof.
  destruct a as [[n1 s1] d1], b as [[n2 s2] d2]. unfold Cli.entry_leb.
  rewrite (String.compare_antisym n1 n2), (String.compare_antisym s1 s2).
  destruct (String.compare n2 n1); cbn; try congruence.
  destruct (String.compare s2 s1); cbn; try congruence.
  apply str_leb_total.
Qed.

End order_facts.

(** ** Listing the methods of the SDK *)

Section list_methods_facts.
Import Py Run World Common Obs.
Context (members : list Cli.member).

Lemma method_entries_are_the_public_ones (ms : list Cli.member) :
  Cli.method_entries ms = map entry_of (List.filter public ms).
Proof.
  induction ms as [|m r IH]; [reflexivity|].
  cbn [Cli.method_entries List.filter]. unfold public at 1.
  destruct (startswith "_" (Cli.m_name m)); cbn [negb]; [exact IH|].
  cbn [map]. rewrite IH. f_equal. unfold entry_of.
  destruct (default EmptyString (Cli.m_doc m)); reflexivity.
Qed.

Lemma method_lines_are_printed (es : list (string * string * string)) :
  runs_with
    ((fix out (es : list (string * string * string)) : M unit :=
        match es with
        | [] => mret tt
        | e :: r => print (Cli.method_line e);; out r
        end) es)
    (fun r evs =>
       r = Ok tt /\ evs = map (fun e => EPrint (Cli.method_line e)) es).
Proof.
  induction es as [|e es IH]; intros st r st' H.
  - unfold mret, M_ret in H. split_run H. exists [].
    rewrite app_nil_r. repeat split.
  - unfold print, emit in H. unfold mbind at 1, M_bind at 1 in H.
    destruct (IH _ _ _ H) as (evs & T & Hr & Hevs).
    cbn [trace] in T. exists (EPrint (Cli.method_line e) :: evs).
    split; [rewrite T, <- app_assoc; reflexivity|].
    split; [exact Hr|]. rewrite Hevs. reflexivity.
Qed.

(** [--list-methods] prints one line for each member of the SDK class
    whose name does not start with an underscore, and nothing else: the
    name, the signature and, when there is one, the first line of the
    documentation.  The lines come in the ascending order of these
    triples, and the program ends with 0 without a request to the
    SDK. *)
Theorem list_methods_lists_the_public_methods_in_order :
  runs_with (Cli.main_list_methods members)
    (fun r evs =>
       r = Ok 0%Z
       /\ exists es,
            evs = map (fun e => EPrint (Cli.method_line e)) es
            /\ es ≡ₚ map entry_of (List.filter public members)
            /\ ascending Cli.entry_leb es).
Proof.
  intros st r st' H. unfold Cli.main_list_methods, Cli._list_api_methods in H.
  unfold mbind, M_bind in H.
  match type of H with
  | context [?f ?es st] =>
      destruct (f es st) as [r1 st1] eqn:E
  end.
  destruct (method_lines_are_printed _ _ _ _ E) as (evs & T & Hr & Hevs).
  subst r1 evs. unfold mret, M_ret in H. split_run H.
  eexists. split; [exact T|]. split; [reflexivity|].
  exists (sorted Cli.entry_leb (Cli.method_entries members)).
  split; [reflexivity|]. split.
  - rewrite sorted_perm, method_entries_are_the_public_ones. reflexivity.
  - apply sorted_ascending, entry_leb_total.
Qed.

End list_methods_facts.

(** ** The symbols of the holdings *)

Section candidate_facts.
Import Py Run World Common Obs.
Context (lib : pylib).

Lemma existsb_eqb_In (x : string) (l : list string) :
  existsb (String.eqb x) l = true <-> In x l.
Proof.
  rewrite existsb_exists. split.
  - intros (y & Hin & Heq). apply String.eqb_eq in Heq. subst. exact Hin.
  - intros Hin. exists x. split; [exact Hin|apply String.eqb_refl].
Qed.

Lemma insert_sorted_In {A} (leb : A -> A -> bool) (x y : A) (l : list A) :
  In y (insert_sorted leb x l) <-> y = x \/ In y l.
Proof.
  induction l as [|z r IH]; cbn [insert_sorted].
  - simpl. intuition.
  - destruct (leb x z); simpl in *; intuition.
Qed.

Lemma distinct_sorted_In (s : string) (l : list string) :
  In s (Cli.distinct_sorted l) <-> In s l.
Proof.
  induction l as [|x r IH]; [reflexivity|].
  cbn [Cli.distinct_sorted].
  destruct (existsb (String.eqb x) (Cli.distinct_sorted r)) eqn:E.
  - apply existsb_eqb_In in E. simpl. rewrite IH.
    split; [tauto|]. intros [->|H]; [apply IH, E|exact H].
  - rewrite insert_sorted_In, IH. simpl. intuition.
Qed.

Lemma distinct_sorted_NoDup (l : list string) :
  NoDup (Cli.distinct_sorted l).
Proof.
  induction l as [|x r IH]; [constructor|].
  cbn [Cli.distinct_sorted].
  destruct (existsb (String.eqb x) (Cli.distinct_sorted r)) eqn:E;
    [exact IH|].
  assert (Hx : ~ In x (Cli.distinct_sorted r)).
  { intros Hin. apply existsb_eqb_In in Hin. congruence. }
  rewrite insert_sorted_perm.
  constructor; [|exact IH]. rewrite list_elem_of_In. exact Hx.
Qed.

Lemma distinct_sorted_ascending (l : list string) :
  ascending str_leb (Cli.distinct_sorted l).
Proof.
  induction l as [|x r IH]; [constructor|].
  cbn [Cli.distinct_sorted].
  destruct (existsb (String.eqb x) (Cli.distinct_sorted r)); [exact IH|].
  apply insert_sorted_ascending; [exact str_leb_total|exact IH].
Qed.

(** [_holding_symbol_candidates] answers with the symbols of the
    holdings, each once and in ascending order: a symbol is in the
    answer exactly when some holding has it as the upper-cased text of
    the first of [tradingSymbol], [trading_symbol] and [symbol] that has
    a value.  A holding without any of the three adds nothing. *)
Theorem holding_symbol_candidates_are_the_distinct_symbols
  (items : list dict) :
  NoDup (Cli._holding_symbol_candidates lib items)
  /\ ascending str_leb (Cli._holding_symbol_candidates lib items)
  /\ (forall s,
        In s (Cli._holding_symbol_candidates lib items)
        <-> exists item, In item items
                         /\ Cli.holding_symbol lib item = Some s)
  /\ (forall item,
        Cli.holding_symbol lib item
        = option_map (fun key => upper (py_str lib (get item key)))
            (List.find (fun key => truthy (get item key))
               Cli.symbol_fields)).
Proof.
  unfold Cli._holding_symbol_candidates.
  split; [apply distinct_sorted_NoDup|].
  split; [apply distinct_sorted_ascending|]. split.
  - intros s. rewrite distinct_sorted_In, <- list_elem_of_In, list_elem_of_omap.
    split; intros (item & Hin & Hs); exists item;
      (split; [apply list_elem_of_In; exact Hin|exact Hs]).
  - intros item. unfold Cli.holding_symbol, Cli.symbol_fields.
    cbn [List.find option_map].
    repeat match goal with
           | |- context [truthy ?v] => destruct (truthy v)
           end; reflexivity.
Qed.

End candidate_facts.

(** ** The instrument search of the CLI *)

Section cli_search_facts.
Import Py Run World Common Obs.
Context (sdk : World.sdk) (lib : pylib) (cfg : config) (env : environ).

Lemma cli_sign_in_events (a : Cli.args) :
  emits_only sign_in_event (Cli._get_access_token sdk lib cfg env a).
Proof.
  unfold Cli._get_access_token.
  apply only_bind.
  - destruct (Cli.arg_flow a);
      [apply choose_flow_only; reflexivity|apply only_ret..].
  - intros f. unfold getpass, token_by_approval, token_by_totp,
      Cli._totp_now_from_secret, totp_now_or.
    destruct f; trace_only.
Qed.

(** With [--instrument-search] the CLI signs in, fetches the table of
    instruments once and prints once: the table that
    [_search_instruments] answers with, or [No instruments found.] when
    it has no row.  It calls no method of the client, and it ends with 0
    exactly when it has printed; a failure of the fetch or of the search
    ends it without a line. *)
Theorem instrument_search_fetches_once_and_prints_once (a : Cli.args) :
  runs_with (Cli.main_instrument_search sdk lib cfg env a)
    (fun r evs =>
       exists pre post,
         evs = (pre ++ post)%list
         /\ forallb sign_in_event pre = true
         /\ match r with
            | Ok z =>
                z = 0%Z
                /\ exists g df result line,
                     post = [EInstruments g; EPrint line]
                     /\ all_instruments sdk g = Returned df
                     /\ Cli._search_instruments lib df
                          (the (Cli.arg_instrument_search a))
                          (Cli.arg_exchange a) (Cli.arg_segment a)
                          (Cli.arg_limit a) = Ok result
                     /\ (Pandas.rows result = [] ->
                         line = "No instruments found.")
                     /\ (Pandas.rows result <> [] ->
                         line = df_to_string lib
                                  (Pandas.project
                                     (List.filter (Pandas.has_column result)
                                        ["exchange"; "segment";
                                         "trading_symbol"; "groww_symbol";
                                         "name"; "isin"; "exchange_token";
                                         "instrument_type"]) result))
            | Err _ => post = [] \/ exists g, post = [EInstruments g]
            end).
Proof.
  unfold Cli.main_instrument_search.
  eapply (runs_bind _ _
            (fun _ evs => forallb sign_in_event evs = true)
            (fun token r evs =>
               exists post,
                 (evs = EClient token :: post \/ (evs = [] /\ post = []))
                 /\ match r with
                    | Ok z =>
                        z = 0%Z
                        /\ exists g df result line,
                             post = [EInstruments g; EPrint line]
                             /\ all_instruments sdk g = Returned df
                             /\ Cli._search_instruments lib df
                                  (the (Cli.arg_instrument_search a))
                                  (Cli.arg_exchange a) (Cli.arg_segment a)
                                  (Cli.arg_limit a) = Ok result
                             /\ (Pandas.rows result = [] ->
                                 line = "No instruments found.")
                             /\ (Pandas.rows result <> [] ->
                                 line = df_to_string lib
                                          (Pandas.project
                                             (List.filter
                                                (Pandas.has_column result)
                                                ["exchange"; "segment";
                                                 "trading_symbol";
                                                 "groww_symbol"; "name";
                                                 "isin"; "exchange_token";
                                                 "instrument_type"]) result))
                    | Err _ => post = [] \/ exists g, post = [EInstruments g]
                    end)).
  - apply runs_of_only, cli_sign_in_events.
  - intros token st r st' H.
    unfold new_api, emit, of_outcome, lift, raise, mbind, M_bind, mret, M_ret
      in H.
    cbv beta iota zeta in H. cbn [trace stdin instrument_cache feed_cache] in H.
    destruct (new_client sdk token) as [[]|m0]; cbv beta iota zeta in H.
    + cbn [trace stdin instrument_cache feed_cache] in H.
      destruct (all_instruments sdk token) as [df|m1] eqn:Edf;
        cbv beta iota zeta in H.
      * destruct (Cli._search_instruments lib df _ _ _ _)
          as [result|e] eqn:Eres; cbv beta iota zeta in H.
        -- unfold Cli._print_instrument_rows, print, emit in H.
           destruct (Pandas.rows result) as [|row rows] eqn:Erows;
             cbv beta iota zeta in H; split_run H; cbn [trace];
             (eexists; split; [rewrite <- !app_assoc; reflexivity|]);
             eexists; (split; [left; reflexivity|]);
             (split; [reflexivity|]);
             exists token, df, result; eexists;
             (split; [reflexivity|]); (split; [exact Edf|]);
             (split; [exact Eres|]); rewrite Erows; split; congruence.
        -- split_run H. cbn [trace].
           eexists; split; [rewrite <- !app_assoc; reflexivity|].
           eexists; split; [left; reflexivity|].
           right. exists token. reflexivity.
      * split_run H. cbn [trace].
        eexists; split; [rewrite <- !app_assoc; reflexivity|].
        eexists; split; [left; reflexivity|].
        right. exists token. reflexivity.
    + split_run H. cbn [trace].
      eexists; split; [reflexivity|].
      eexists; split; [left; reflexivity|]. left. reflexivity.
  - intros e evs Hpre. exists evs, []. rewrite app_nil_r.
    split; [reflexivity|]. split; [exact Hpre|]. left. reflexivity.
  - intros token e1 r e2 Hpre (post & Hev & Hpost).
    destruct Hev as [->|[-> ->]].
    + exists (e1 ++ [EClient token])%list, post.
      split; [rewrite <- app_assoc; reflexivity|].
      split; [rewrite forallb_app, Hpre; reflexivity|exact Hpost].
    + exists e1, []. split; [reflexivity|]. split; [exact Hpre|].
      destruct r; [|left; reflexivity].
      destruct Hpost as (_ & g & df & result & line & Hp & _).
      discriminate Hp.
Qed.

End cli_search_facts.

(** ** The history tab of the web UI *)

Section history_facts.
Import Py Run World Common Gradio Obs.
Context (sdk : World.sdk) (lib : pylib).


End history_facts.

(** ** Subscribing to the feed *)

Ltac feed_cases H :=
  repeat (unfold mret, Run.M_ret, Run.raise, Run.lift in H;
          cbv beta iota zeta in H;
          cbn [negb andb orb Run.is_Exception Run.cls Run.msg fst snd
               Run.instrument_cache Run.feed_cache Run.trace Run.stdin] in H;
          match type of H with
          | context [match ?o with
                     | World.Returned _ => _
                     | World.Raised _ => _
                     end] => destruct o eqn:?
          | context [match ?v with
                     | Py.PNone => _ | Py.PBool _ => _ | Py.PInt _ => _
                     | Py.PFloat _ => _ | Py.PStr _ => _ | Py.PList _ => _
                     | Py.PTuple _ => _ | Py.PDict _ => _
                     end] => is_var v; destruct v
          | context [if ?b then _ else _] => destruct b eqn:?
          end).

Section feed_facts.
Import Py Run World Common Gradio Obs.
Context (sdk : World.sdk) (lib : pylib).

(** The subscribe handlers of the feed always answer and call one
    method of the feed at most: the one of the handler, on the feed of
    the stored token.  With an exchange token typed they look nothing
    up: no method of the client is called, and the instrument subscribed
    carries the token as it was typed.  Without one they look the
    instrument up by exchange and symbol, the symbol stripped and in
    upper case, and subscribe the exchange token of the dict the lookup
    returned. *)
Theorem feed_subscribe_looks_up_a_missing_token_only
  (method token exchange segment trading_symbol exchange_token : string) :
  runs_with
    (feed_subscribe sdk lib method token exchange segment trading_symbol
       exchange_token)
    (fun r evs =>
       (exists v, r = Ok v)
       /\ (nonempty exchange_token = true -> calls evs = [])
       /\ match feed_calls evs with
          | [] => True
          | [EFeedCall fd name args] =>
              fd = token /\ name = method
              /\ (if nonempty exchange_token
                  then args = [instrument_list exchange segment
                                 (PStr exchange_token)]
                  else
                    exists d,
                      calls evs
                      = [ECall (PStr token)
                           "get_instrument_by_exchange_and_trading_symbol" []
                           (lookup_kwargs exchange trading_symbol)]
                      /\ api sdk (PStr token)
                           "get_instrument_by_exchange_and_trading_symbol" []
                           (lookup_kwargs exchange trading_symbol)
                         = Returned (PDict d)
                      /\ args = [instrument_list exchange segment
                                   (get d "exchange_token")])
          | _ => False
          end).
Proof.
  intros st r st' H.
  unfold feed_subscribe, guarded, attempt, lookup_kwargs in *.
  web_monad H.
  feed_cases H; split_run H; cbn [trace];
    (first [ exists []; split; [symmetry; apply app_nil_r|]
           | eexists; split; [rewrite <- ?app_assoc; reflexivity|] ]);
    cbn [calls feed_calls List.filter is_call is_feed_call app];
    (split; [eexists; reflexivity|]);
    (split; [first [reflexivity | intros; discriminate]|]);
    try exact I;
    (split; [reflexivity|]); (split; [reflexivity|]);
    first [ reflexivity | eexists; repeat split; reflexivity ].
Qed.

End feed_facts.
